(** * The proxy's search task (internal/proxy/task_search.go)

    A shallow embedding of the search task of the proxy: the phases the task
    scheduler drives (OnEnqueue, PreExecute, the per-shard call of Execute,
    and the part of PostExecute that is local to the task), followed by the
    properties of these functions.

    Conventions.
    - Go's fixed-width integers are [Z] with the wrap-around written out.
    - A [float32] is its IEEE-754 bit pattern.
    - A Go method that mutates the task and returns an [error] is a
      computation in the monad [M]: it threads the state (the task, the
      store of message headers, and the two shared services the task
      writes to) and ends with a value, an error or a panic.  The state
      reached when an error is returned is kept, as in Go.
    - The message header [Base] of the internal request is a pointer: the
      headers live in a store, so that the difference between a deep copy
      and an alias of a request is visible.
    - Code of other packages (the meta cache, the plan compiler, the rerank
      functions, the time-stamp utilities, the concurrent set, ...) is not
      part of this file: the types it owns are the fields of [Types], its
      functions the fields of [Env].  Logging, tracing and metrics are left
      out.
    - An [Env] holds the answers of the meta cache at one time.  The meta
      cache is shared and may change between the phases of a task: a
      property that relates lookups of different phases takes one
      environment for each and says what it needs them to agree on.
    - A pointer to a reply of a shard is the reply it points to, or nil.
      The result buffer of the task is a set of such pointers whose
      representation is left to [Types]; what a property needs of the set
      is a hypothesis of the property. *)

From Stdlib Require Import ZArith List String Bool Lia ListSet.
From Stdlib.Strings Require Import Byte.
Import ListNotations.
Local Open Scope string_scope.
Local Open Scope Z_scope.

Set Implicit Arguments.

(** ** Machine integers and floats *)

Definition int64 := Z.
Definition uint64 := Z.
Definition Timestamp := uint64.
Definition UniqueID := int64.
Definition bytes := list byte.

Definition wrap_int64 (z : Z) : int64 := (z + 2 ^ 63) mod 2 ^ 64 - 2 ^ 63.
Definition wrap_uint64 (z : Z) : uint64 := z mod 2 ^ 64.

Definition in_uint64 (z : Z) : Prop := 0 <= z < 2 ^ 64.

(** [-a] on int64. *)
Definition int64_neg (a : int64) : int64 := wrap_int64 (- a).
(** The conversion [int64(u)] of a uint64 (time.Duration is an int64). *)
Definition int64_of_uint64 (u : uint64) : int64 := wrap_int64 u.

(** A float32 is its bit pattern: sign (bit 31), exponent (bits 30..23),
    fraction (bits 22..0). *)
Definition float32 := Z.

(** math.MaxFloat32: exponent 254, all fraction bits set. *)
Definition MaxFloat32 : float32 := 0x7F7FFFFF.
(** Unary minus flips the sign bit. *)
Definition float32_neg (x : float32) : float32 := Z.lxor x 0x80000000.

Definition float32_sign (x : float32) : bool := Z.testbit x 31.
Definition float32_magnitude (x : float32) : Z := Z.land x 0x7FFFFFFF.
Definition float32_exponent (x : float32) : Z := Z.land (Z.shiftr x 23) 0xFF.
(** Neither an infinity nor a NaN. *)
Definition float32_finite (x : float32) : bool :=
  (0 <=? x) && (x <? 2 ^ 32) && negb (float32_exponent x =? 0xFF).
(** On finite floats the order of the values is the order of these keys
    (sign and magnitude). *)
Definition float32_key (x : float32) : Z :=
  if float32_sign x then - float32_magnitude x else float32_magnitude x.

(** ** Results of calls *)

(** protobuf status of a reply (commonpb.Status). *)
Inductive ErrorCode :=
| ErrorCode_Success
| ErrorCode_NotShardLeader
| ErrorCode_Other (code : Z).

Record Status := mkStatus {
  status_ErrorCode : ErrorCode;
  status_Reason : string
}.

(** The errors this file returns.  [External] is an error value handed back
    by code of another package; the other constructors are the error
    constructors the file calls.  The arguments interpolated into a message
    are not kept. *)
Inductive error :=
| External (msg : string)
| errors_New (msg : string)
| fmt_Errorf (format : string) (cause : error)
| errors_Wrap (cause : error) (msg : string)
| errors_Wrapf (cause : error) (format : string) (nodeID : int64)
| WrapErrParameterInvalid (expected actual : int64) (msg : string)
| WrapErrParameterInvalidMsg (format : string)
| WrapErrServiceInternal (msg : string)
| WrapErrAsInputError (e : error)
| WrapErrAsInputErrorWhen (e : error)
| merr_Error (s : option Status)
| errInvalidShardLeaders.

(** What a function of another package returns: a value or its error. *)
Inductive ext (A : Type) :=
| ExtOk (a : A)
| ExtErr (msg : string).
Arguments ExtOk {A} a.
Arguments ExtErr {A} msg.

(** What a function of this file ends with. *)
Inductive res (A : Type) :=
| Ok (a : A)
| Err (e : error)
| Panic.
Arguments Ok {A} a.
Arguments Err {A} e.
Arguments Panic {A}.

Definition is_Ok {A} (r : res A) : bool :=
  match r with Ok _ => true | _ => false end.

(** ** Record update *)

(** [mk_setter eta proj] builds the update of field [proj] from the
    eta-expansion [eta] of the record. *)
Ltac mk_setter eta proj :=
  let body := eval cbv delta [eta] in eta in
  lazymatch eval pattern proj in body with
  | ?F _ =>
      let s := eval cbv beta in (fun v => F (fun _ => v)) in
      exact s
  end.

(** ** Messages *)

Definition KeyValuePairs := list (string * string).

Inductive MsgType := MsgType_Undefined | MsgType_Search | MsgType_Other (n : Z).
Inductive DslType := DslType_Dsl | DslType_BoolExprV1.
Inductive DataScope := DataScope_UnKnown | DataScope_All | DataScope_Streaming | DataScope_Historical.

(** schemapb.DataType, as far as this file names its values. *)
Inductive DataType :=
| DataType_None
| DataType_Int64
| DataType_BinaryVector
| DataType_Other (n : Z).

Definition DataType_eqb (a b : DataType) : bool :=
  match a, b with
  | DataType_None, DataType_None => true
  | DataType_Int64, DataType_Int64 => true
  | DataType_BinaryVector, DataType_BinaryVector => true
  | DataType_Other n, DataType_Other m => n =? m
  | _, _ => false
  end.

(** commonpb.MsgBase *)
Record MsgBase := mkMsgBase {
  base_MsgType : MsgType;
  base_MsgID : int64;
  base_Timestamp : Timestamp;
  base_SourceID : int64;
  base_TargetID : int64
}.
Definition eta_MsgBase (b : MsgBase) : MsgBase :=
  mkMsgBase (base_MsgType b) (base_MsgID b) (base_Timestamp b) (base_SourceID b) (base_TargetID b).
Definition set_base_MsgType : MsgType -> MsgBase -> MsgBase := ltac:(mk_setter eta_MsgBase base_MsgType).
Definition set_base_MsgID : int64 -> MsgBase -> MsgBase := ltac:(mk_setter eta_MsgBase base_MsgID).
Definition set_base_Timestamp : Timestamp -> MsgBase -> MsgBase := ltac:(mk_setter eta_MsgBase base_Timestamp).
Definition set_base_SourceID : int64 -> MsgBase -> MsgBase := ltac:(mk_setter eta_MsgBase base_SourceID).
Definition set_base_TargetID : int64 -> MsgBase -> MsgBase := ltac:(mk_setter eta_MsgBase base_TargetID).

(** commonpbutil.NewMsgBase() with no option: an empty header. *)
Definition NewMsgBase : MsgBase := mkMsgBase MsgType_Undefined 0 0 0 0.

(** A pointer to a message header; [None] is nil. *)
Definition ptr := nat.

(** schemapb.FieldSchema, the attributes read here. *)
Record FieldSchema := mkFieldSchema {
  field_FieldID : int64;
  field_Name : string;
  field_DataType : DataType
}.

(** The getters of a possibly nil field schema. *)
Definition field_GetFieldID (f : option FieldSchema) : int64 :=
  match f with Some f => field_FieldID f | None => 0 end.
Definition field_GetDataType (f : option FieldSchema) : DataType :=
  match f with Some f => field_DataType f | None => DataType_None end.

(** planpb.SearchIteratorV2Info *)
Record SearchIteratorV2Info := mkSearchIteratorV2Info {
  iter_Token : string;
  iter_LastBound : option float32
}.

(** planpb.QueryInfo *)
Record QueryInfo := mkQueryInfo {
  qi_Topk : int64;
  qi_MetricType : string;
  qi_QueryFieldId : int64;
  qi_GroupByFieldId : int64;
  qi_GroupSize : int64;
  qi_Hints : string;
  qi_MaterializedViewInvolved : bool;
  qi_SearchIteratorV2Info : option SearchIteratorV2Info
}.
Definition eta_QueryInfo (q : QueryInfo) : QueryInfo :=
  mkQueryInfo (qi_Topk q) (qi_MetricType q) (qi_QueryFieldId q) (qi_GroupByFieldId q)
    (qi_GroupSize q) (qi_Hints q) (qi_MaterializedViewInvolved q) (qi_SearchIteratorV2Info q).
Definition set_qi_QueryFieldId : int64 -> QueryInfo -> QueryInfo := ltac:(mk_setter eta_QueryInfo qi_QueryFieldId).
Definition set_qi_Hints : string -> QueryInfo -> QueryInfo := ltac:(mk_setter eta_QueryInfo qi_Hints).
Definition set_qi_MaterializedViewInvolved : bool -> QueryInfo -> QueryInfo :=
  ltac:(mk_setter eta_QueryInfo qi_MaterializedViewInvolved).

(** internalpb.SubSearchRequest *)
Record SubSearchRequest := mkSubSearchRequest {
  isub_Dsl : string;
  isub_PlaceholderGroup : bytes;
  isub_DslType : DslType;
  isub_SerializedExprPlan : bytes;
  isub_Nq : int64;
  isub_PartitionIDs : list int64;
  isub_Topk : int64;
  isub_Offset : int64;
  isub_MetricType : string;
  isub_GroupByFieldId : int64;
  isub_GroupSize : int64;
  isub_IgnoreGrowing : bool;
  isub_AnalyzerName : string;
  isub_FieldId : int64
}.
Definition eta_SubSearchRequest (r : SubSearchRequest) : SubSearchRequest :=
  mkSubSearchRequest (isub_Dsl r) (isub_PlaceholderGroup r) (isub_DslType r)
    (isub_SerializedExprPlan r) (isub_Nq r) (isub_PartitionIDs r) (isub_Topk r) (isub_Offset r)
    (isub_MetricType r) (isub_GroupByFieldId r) (isub_GroupSize r) (isub_IgnoreGrowing r)
    (isub_AnalyzerName r) (isub_FieldId r).
Definition set_isub_SerializedExprPlan : bytes -> SubSearchRequest -> SubSearchRequest :=
  ltac:(mk_setter eta_SubSearchRequest isub_SerializedExprPlan).
Definition set_isub_PartitionIDs : list int64 -> SubSearchRequest -> SubSearchRequest :=
  ltac:(mk_setter eta_SubSearchRequest isub_PartitionIDs).
Definition set_isub_AnalyzerName : string -> SubSearchRequest -> SubSearchRequest :=
  ltac:(mk_setter eta_SubSearchRequest isub_AnalyzerName).
Definition set_isub_FieldId : int64 -> SubSearchRequest -> SubSearchRequest :=
  ltac:(mk_setter eta_SubSearchRequest isub_FieldId).

(** internalpb.SearchRequest: the request sent to the shards. *)
Record SearchRequest := mkSearchRequest {
  sr_Base : option ptr;
  sr_DbID : int64;
  sr_CollectionID : int64;
  sr_PartitionIDs : list int64;
  sr_Dsl : string;
  sr_PlaceholderGroup : bytes;
  sr_DslType : DslType;
  sr_SerializedExprPlan : bytes;
  sr_OutputFieldsId : list int64;
  sr_MvccTimestamp : Timestamp;
  sr_GuaranteeTimestamp : Timestamp;
  sr_TimeoutTimestamp : Timestamp;
  sr_Nq : int64;
  sr_Topk : int64;
  sr_MetricType : string;
  sr_IgnoreGrowing : bool;
  sr_Username : string;
  sr_SubReqs : list (option SubSearchRequest);
  sr_IsAdvanced : bool;
  sr_Offset : int64;
  sr_ConsistencyLevel : Z;
  sr_GroupByFieldId : int64;
  sr_GroupSize : int64;
  sr_FieldId : int64;
  sr_IsIterator : bool;
  sr_AnalyzerName : string;
  sr_CollectionTtlTimestamps : Timestamp
}.
Definition eta_SearchRequest (r : SearchRequest) : SearchRequest :=
  mkSearchRequest (sr_Base r) (sr_DbID r) (sr_CollectionID r) (sr_PartitionIDs r) (sr_Dsl r)
    (sr_PlaceholderGroup r) (sr_DslType r) (sr_SerializedExprPlan r) (sr_OutputFieldsId r)
    (sr_MvccTimestamp r) (sr_GuaranteeTimestamp r) (sr_TimeoutTimestamp r) (sr_Nq r) (sr_Topk r)
    (sr_MetricType r) (sr_IgnoreGrowing r) (sr_Username r) (sr_SubReqs r) (sr_IsAdvanced r)
    (sr_Offset r) (sr_ConsistencyLevel r) (sr_GroupByFieldId r) (sr_GroupSize r) (sr_FieldId r)
    (sr_IsIterator r) (sr_AnalyzerName r) (sr_CollectionTtlTimestamps r).
Definition set_sr_Base : option ptr -> SearchRequest -> SearchRequest := ltac:(mk_setter eta_SearchRequest sr_Base).
Definition set_sr_DbID : int64 -> SearchRequest -> SearchRequest := ltac:(mk_setter eta_SearchRequest sr_DbID).
Definition set_sr_CollectionID : int64 -> SearchRequest -> SearchRequest := ltac:(mk_setter eta_SearchRequest sr_CollectionID).
Definition set_sr_PartitionIDs : list int64 -> SearchRequest -> SearchRequest := ltac:(mk_setter eta_SearchRequest sr_PartitionIDs).
Definition set_sr_PlaceholderGroup : bytes -> SearchRequest -> SearchRequest := ltac:(mk_setter eta_SearchRequest sr_PlaceholderGroup).
Definition set_sr_DslType : DslType -> SearchRequest -> SearchRequest := ltac:(mk_setter eta_SearchRequest sr_DslType).
Definition set_sr_SerializedExprPlan : bytes -> SearchRequest -> SearchRequest := ltac:(mk_setter eta_SearchRequest sr_SerializedExprPlan).
Definition set_sr_OutputFieldsId : list int64 -> SearchRequest -> SearchRequest := ltac:(mk_setter eta_SearchRequest sr_OutputFieldsId).
Definition set_sr_MvccTimestamp : Timestamp -> SearchRequest -> SearchRequest := ltac:(mk_setter eta_SearchRequest sr_MvccTimestamp).
Definition set_sr_GuaranteeTimestamp : Timestamp -> SearchRequest -> SearchRequest := ltac:(mk_setter eta_SearchRequest sr_GuaranteeTimestamp).
Definition set_sr_TimeoutTimestamp : Timestamp -> SearchRequest -> SearchRequest := ltac:(mk_setter eta_SearchRequest sr_TimeoutTimestamp).
Definition set_sr_Nq : int64 -> SearchRequest -> SearchRequest := ltac:(mk_setter eta_SearchRequest sr_Nq).
Definition set_sr_Topk : int64 -> SearchRequest -> SearchRequest := ltac:(mk_setter eta_SearchRequest sr_Topk).
Definition set_sr_MetricType : string -> SearchRequest -> SearchRequest := ltac:(mk_setter eta_SearchRequest sr_MetricType).
Definition set_sr_IgnoreGrowing : bool -> SearchRequest -> SearchRequest := ltac:(mk_setter eta_SearchRequest sr_IgnoreGrowing).
Definition set_sr_Username : string -> SearchRequest -> SearchRequest := ltac:(mk_setter eta_SearchRequest sr_Username).
Definition set_sr_SubReqs : list (option SubSearchRequest) -> SearchRequest -> SearchRequest := ltac:(mk_setter eta_SearchRequest sr_SubReqs).
Definition set_sr_IsAdvanced : bool -> SearchRequest -> SearchRequest := ltac:(mk_setter eta_SearchRequest sr_IsAdvanced).
Definition set_sr_Offset : int64 -> SearchRequest -> SearchRequest := ltac:(mk_setter eta_SearchRequest sr_Offset).
Definition set_sr_ConsistencyLevel : Z -> SearchRequest -> SearchRequest := ltac:(mk_setter eta_SearchRequest sr_ConsistencyLevel).
Definition set_sr_GroupByFieldId : int64 -> SearchRequest -> SearchRequest := ltac:(mk_setter eta_SearchRequest sr_GroupByFieldId).
Definition set_sr_GroupSize : int64 -> SearchRequest -> SearchRequest := ltac:(mk_setter eta_SearchRequest sr_GroupSize).
Definition set_sr_FieldId : int64 -> SearchRequest -> SearchRequest := ltac:(mk_setter eta_SearchRequest sr_FieldId).
Definition set_sr_IsIterator : bool -> SearchRequest -> SearchRequest := ltac:(mk_setter eta_SearchRequest sr_IsIterator).
Definition set_sr_AnalyzerName : string -> SearchRequest -> SearchRequest := ltac:(mk_setter eta_SearchRequest sr_AnalyzerName).
Definition set_sr_CollectionTtlTimestamps : Timestamp -> SearchRequest -> SearchRequest := ltac:(mk_setter eta_SearchRequest sr_CollectionTtlTimestamps).

(** milvuspb.SubSearchRequest: one leg of an advanced search, as the client
    sent it.  [TemplateValues] is the type of its expression template
    values. *)
Record SubSearchReq (TemplateValues : Type) := mkSubSearchReq {
  sub_Dsl : string;
  sub_PlaceholderGroup : bytes;
  sub_DslType : DslType;
  sub_SearchParams : KeyValuePairs;
  sub_Nq : int64;
  sub_ExprTemplateValues : TemplateValues
}.
Definition set_sub_Nq {TV} (v : int64) (r : SubSearchReq TV) : SubSearchReq TV :=
  mkSubSearchReq (sub_Dsl r) (sub_PlaceholderGroup r) (sub_DslType r) (sub_SearchParams r) v
    (sub_ExprTemplateValues r).

(** internalpb.CostAggregation *)
Record CostAggregation := mkCostAggregation {
  cost_ResponseTime : int64;
  cost_ServiceTime : int64;
  cost_TotalNQ : int64;
  cost_TotalRelatedDataSize : int64
}.

(** internalpb.SearchResults: the reply of one shard. *)
Record ShardResults := mkShardResults {
  shard_Status : option Status;
  shard_NumQueries : int64;
  shard_TopK : int64;
  shard_SlicedBlob : bytes;
  shard_CostAggregation : option CostAggregation;
  shard_IsTopkReduce : bool;
  shard_IsRecallEvaluation : bool
}.

(** [result.GetStatus().GetErrorCode()]: a nil status reads as success. *)
Definition shard_GetErrorCode (r : ShardResults) : ErrorCode :=
  match shard_Status r with
  | Some s => status_ErrorCode s
  | None => ErrorCode_Success
  end.

(** The same getters on the pointer a client returns, which may be nil: the
    generated getters accept a nil receiver, so a nil reply has a nil
    status and reads as success. *)
Definition result_GetStatus (result : option ShardResults) : option Status :=
  match result with
  | Some r => shard_Status r
  | None => None
  end.
Definition result_GetErrorCode (result : option ShardResults) : ErrorCode :=
  match result with
  | Some r => shard_GetErrorCode r
  | None => ErrorCode_Success
  end.

(** schemapb.IDs *)
Inductive IDs :=
| IntId (ids : list int64)
| StrId (ids : list string).

(** schemapb.SearchResultData *)
Record SearchResultData := mkSearchResultData {
  data_NumQueries : int64;
  data_TopK : int64;
  data_Scores : list float32;
  data_Ids : IDs;
  data_Topks : list int64;
  data_OutputFields : list string;
  data_PrimaryFieldName : string
}.

(** milvuspb.SearchResults: the answer of the task. *)
Record SearchResults := mkSearchResults {
  out_Status : option Status;
  out_Results : option SearchResultData;
  out_CollectionName : string;
  out_SessionTs : Timestamp
}.
Definition set_out_CollectionName (v : string) (r : SearchResults) : SearchResults :=
  mkSearchResults (out_Status r) (out_Results r) v (out_SessionTs r).

(** [result.GetResults().GetNumQueries()]: nil reads as 0. *)
Definition out_GetNumQueries (r : option SearchResults) : int64 :=
  match r with
  | Some r => match out_Results r with Some d => data_NumQueries d | None => 0 end
  | None => 0
  end.

(** What the meta cache keeps of a collection (the proxy's collectionInfo),
    the attributes read here. *)
Record collectionInfo := mkCollectionInfo {
  consistencyLevel : Z;
  updateTimestamp : uint64;
  collectionTTL : uint64;
  partitionKeyIsolation : bool
}.

(** querypb.SearchRequest: what a shard leader receives. *)
Record QuerySearchRequest := mkQuerySearchRequest {
  q_Req : SearchRequest;
  q_DmlChannels : list string;
  q_Scope : DataScope;
  q_TotalChannelNum : Z
}.

(** ** Types owned by other packages *)

Class Types := {
  (** context.Context *)
  Context : Type;
  (** time.Time *)
  Time : Type;
  (** the proxy's schemaInfo: collection schema and schema helper *)
  SchemaInfo : Type;
  (** planpb.Expr *)
  Expr : Type;
  (** what a planpb.PlanNode holds besides its output fields *)
  PlanBody : Type;
  (** rerank.FunctionScore *)
  FunctionScore : Type;
  (** schemapb.FunctionScore, the descriptor a client sends *)
  FunctionScoreDesc : Type;
  (** the proxy's rankParams *)
  RankParams : Type;
  (** map[string]*schemapb.TemplateValue *)
  TemplateValues : Type;
  (** a partition key value read from a filter expression *)
  PartitionKeyValue : Type;
  (** function.FunctionExecutor *)
  FunctionExecutor : Type;
  (** typeutil.ConcurrentSet[*internalpb.SearchResults]: a set of pointers
      to replies, some of which may be nil *)
  ResultSet : Type
}.

Section Proxy.
Context {Ty : Types}.

(** planpb.PlanNode.  The node refers to the query info it was compiled
    with (one object, also kept in [queryInfos]); the model passes that
    object next to the node where the node is serialized. *)
Record PlanNode := mkPlanNode {
  plan_body : PlanBody;
  plan_OutputFieldIds : list int64;
  plan_DynamicFields : list string
}.
Definition set_plan_OutputFieldIds (v : list int64) (p : PlanNode) : PlanNode :=
  mkPlanNode (plan_body p) v (plan_DynamicFields p).
Definition set_plan_DynamicFields (v : list string) (p : PlanNode) : PlanNode :=
  mkPlanNode (plan_body p) (plan_OutputFieldIds p) v.

(** The proxy's SearchInfo, the result of parsing the search parameters. *)
Record SearchInfo := mkSearchInfo {
  info_planInfo : QueryInfo;
  info_offset : int64;
  info_isIterator : bool;
  info_collectionID : int64
}.

(** milvuspb.SearchRequest: the request of the client. *)
Record MilvusSearchRequest := mkMilvusSearchRequest {
  req_DbName : string;
  req_CollectionName : string;
  req_PartitionNames : list string;
  req_Dsl : string;
  req_PlaceholderGroup : bytes;
  req_SearchParams : KeyValuePairs;
  req_OutputFields : list string;
  req_GuaranteeTimestamp : Timestamp;
  req_Nq : int64;
  req_UseDefaultConsistency : bool;
  req_ConsistencyLevel : Z;
  req_SubReqs : list (SubSearchReq TemplateValues);
  req_ExprTemplateValues : TemplateValues;
  req_FunctionScore : option FunctionScoreDesc
}.
Definition eta_MilvusSearchRequest (r : MilvusSearchRequest) : MilvusSearchRequest :=
  mkMilvusSearchRequest (req_DbName r) (req_CollectionName r) (req_PartitionNames r) (req_Dsl r)
    (req_PlaceholderGroup r) (req_SearchParams r) (req_OutputFields r) (req_GuaranteeTimestamp r)
    (req_Nq r) (req_UseDefaultConsistency r) (req_ConsistencyLevel r) (req_SubReqs r)
    (req_ExprTemplateValues r) (req_FunctionScore r).
Definition set_req_Nq : int64 -> MilvusSearchRequest -> MilvusSearchRequest :=
  ltac:(mk_setter eta_MilvusSearchRequest req_Nq).
Definition set_req_SubReqs : list (SubSearchReq TemplateValues) -> MilvusSearchRequest -> MilvusSearchRequest :=
  ltac:(mk_setter eta_MilvusSearchRequest req_SubReqs).

(** The task.  [SearchRequest_] is the embedded internal request (the
    embedded pointer to an internalpb.SearchRequest) and [request] the
    client's request; both are allocated by the handler that
    builds the task.  The collaborators the task only calls (coordinator
    client, proxy node, load balancer, time recorder) are not fields of the
    model. *)
Record searchTask := mkSearchTask {
  ctx : Context;
  SearchRequest_ : SearchRequest;
  result : option SearchResults;
  request : MilvusSearchRequest;
  collectionName : string;
  schema : option SchemaInfo;
  needRequery : bool;
  partitionKeyMode : bool;
  enableMaterializedView : bool;
  mustUsePartitionKey : bool;
  resultSizeInsufficient : bool;
  isTopkReduce : bool;
  isRecallEvaluation : bool;
  translatedOutputFields : list string;
  userOutputFields : list string;
  userDynamicFields : list string;
  resultBuf : option ResultSet;
  partitionIDsSet : option (list UniqueID);
  queryChannelsTs : list (string * Timestamp);
  queryInfos : list (option QueryInfo);
  relatedDataSize : int64;
  functionScore : option FunctionScore;
  rankParams : option RankParams;
  isIterator : bool;
  userRequestedPkFieldExplicitly : bool
}.
Definition eta_searchTask (t : searchTask) : searchTask :=
  mkSearchTask (ctx t) (SearchRequest_ t) (result t) (request t) (collectionName t) (schema t)
    (needRequery t) (partitionKeyMode t) (enableMaterializedView t) (mustUsePartitionKey t)
    (resultSizeInsufficient t) (isTopkReduce t) (isRecallEvaluation t) (translatedOutputFields t)
    (userOutputFields t) (userDynamicFields t) (resultBuf t) (partitionIDsSet t)
    (queryChannelsTs t) (queryInfos t) (relatedDataSize t) (functionScore t) (rankParams t)
    (isIterator t) (userRequestedPkFieldExplicitly t).
Definition set_SearchRequest : SearchRequest -> searchTask -> searchTask := ltac:(mk_setter eta_searchTask SearchRequest_).
Definition set_result : option SearchResults -> searchTask -> searchTask := ltac:(mk_setter eta_searchTask result).
Definition set_request : MilvusSearchRequest -> searchTask -> searchTask := ltac:(mk_setter eta_searchTask request).
Definition set_collectionName : string -> searchTask -> searchTask := ltac:(mk_setter eta_searchTask collectionName).
Definition set_schema : option SchemaInfo -> searchTask -> searchTask := ltac:(mk_setter eta_searchTask schema).
Definition set_needRequery : bool -> searchTask -> searchTask := ltac:(mk_setter eta_searchTask needRequery).
Definition set_partitionKeyMode : bool -> searchTask -> searchTask := ltac:(mk_setter eta_searchTask partitionKeyMode).
Definition set_enableMaterializedView : bool -> searchTask -> searchTask := ltac:(mk_setter eta_searchTask enableMaterializedView).
Definition set_resultSizeInsufficient : bool -> searchTask -> searchTask := ltac:(mk_setter eta_searchTask resultSizeInsufficient).
Definition set_translatedOutputFields : list string -> searchTask -> searchTask := ltac:(mk_setter eta_searchTask translatedOutputFields).
Definition set_userOutputFields : list string -> searchTask -> searchTask := ltac:(mk_setter eta_searchTask userOutputFields).
Definition set_userDynamicFields : list string -> searchTask -> searchTask := ltac:(mk_setter eta_searchTask userDynamicFields).
Definition set_resultBuf : option ResultSet -> searchTask -> searchTask := ltac:(mk_setter eta_searchTask resultBuf).
Definition set_partitionIDsSet : option (list UniqueID) -> searchTask -> searchTask := ltac:(mk_setter eta_searchTask partitionIDsSet).
Definition set_queryInfos : list (option QueryInfo) -> searchTask -> searchTask := ltac:(mk_setter eta_searchTask queryInfos).
Definition set_functionScore : option FunctionScore -> searchTask -> searchTask := ltac:(mk_setter eta_searchTask functionScore).
Definition set_rankParams : option RankParams -> searchTask -> searchTask := ltac:(mk_setter eta_searchTask rankParams).
Definition set_isIterator : bool -> searchTask -> searchTask := ltac:(mk_setter eta_searchTask isIterator).
Definition set_userRequestedPkFieldExplicitly : bool -> searchTask -> searchTask :=
  ltac:(mk_setter eta_searchTask userRequestedPkFieldExplicitly).

(** ** The state a task runs in *)

(** The task, the store of message headers ([next] is the first address
    never allocated), the (db, collection) pairs whose shard routing was
    deprecated in the meta cache, and the cost metrics reported to the load
    balancer, the latest first. *)
Record State := mkState {
  task : searchTask;
  bases : ptr -> option MsgBase;
  next : ptr;
  deprecatedShardCache : list (string * string);
  costMetrics : list (int64 * option CostAggregation)
}.
Definition set_task (v : searchTask) (s : State) : State :=
  mkState v (bases s) (next s) (deprecatedShardCache s) (costMetrics s).
Definition set_bases (v : ptr -> option MsgBase) (s : State) : State :=
  mkState (task s) v (next s) (deprecatedShardCache s) (costMetrics s).
Definition set_next (v : ptr) (s : State) : State :=
  mkState (task s) (bases s) v (deprecatedShardCache s) (costMetrics s).
Definition set_deprecatedShardCache (v : list (string * string)) (s : State) : State :=
  mkState (task s) (bases s) (next s) v (costMetrics s).
Definition set_costMetrics (v : list (int64 * option CostAggregation)) (s : State) : State :=
  mkState (task s) (bases s) (next s) (deprecatedShardCache s) v.

Definition M (A : Type) : Type := State -> res A * State.

Definition ret {A} (a : A) : M A := fun s => (Ok a, s).
Definition bind {A B} (m : M A) (k : A -> M B) : M B :=
  fun s =>
    match m s with
    | (Ok a, s') => k a s'
    | (Err e, s') => (Err e, s')
    | (Panic, s') => (Panic, s')
    end.
Definition fail {A} (e : error) : M A := fun s => (Err e, s).
Definition panic {A} : M A := fun s => (Panic, s).
Definition gets {A} (f : State -> A) : M A := fun s => (Ok (f s), s).
Definition modify (f : State -> State) : M unit := fun s => (Ok tt, f s).

(** A call into another package whose error is returned as it is. *)
Definition call {A} (c : ext A) : M A :=
  match c with
  | ExtOk a => ret a
  | ExtErr msg => fail (External msg)
  end.

End Proxy.

Declare Scope proxy_scope.
Delimit Scope proxy_scope with proxy.
Notation "x <- m ;; k" := (bind m (fun x => k))
  (at level 100, m at next level, right associativity) : proxy_scope.
Notation "' pat <- m ;; k" := (bind m (fun x => match x with pat => k end))
  (at level 100, pat pattern, m at next level, right associativity) : proxy_scope.
Notation "m ;; k" := (bind m (fun _ => k))
  (at level 100, right associativity) : proxy_scope.
Local Open Scope proxy_scope.

(** ** Functions of other packages *)

(** A query node client: what its Search call returns for a request, given
    the store the request's header lives in.  Go's pair (result, err) is
    [ExtErr] when err is not nil and [ExtOk result] otherwise, where the
    result pointer itself may be nil ([None]). *)
Definition QueryNodeClient :=
  QuerySearchRequest -> (ptr -> option MsgBase) -> ext (option ShardResults).

(** The functions of other packages, as they answer at one time. *)
Class Env {Ty : Types} := {
  (** paramtable.GetNodeID() *)
  GetNodeID : int64;
  (** constants of the proxy package *)
  defaultMaxSearchRequest : Z;
  enableMultipleVectorFields : bool;
  AnnsFieldKey : string;
  NQKey : string;

  (** globalMetaCache and the helpers that read it *)
  GetCollectionID : string -> string -> ext UniqueID;
  GetCollectionSchema : string -> string -> ext SchemaInfo;
  GetCollectionInfo : string -> string -> UniqueID -> ext collectionInfo;
  isPartitionKeyMode : string -> string -> ext bool;
  getPartitionIDs : string -> string -> list string -> ext (list UniqueID);
  assignPartitionKeys : string -> string -> list PartitionKeyValue -> ext (list string);

  (** helpers of the proxy package *)
  translateOutputFields :
    list string -> SchemaInfo -> bool -> ext (list string * list string * list string * bool);
  getNqFromSubSearch : SubSearchReq TemplateValues -> ext int64;
  getNq : MilvusSearchRequest -> ext int64;
  validateNQLimit : int64 -> ext unit;
  isIgnoreGrowing : KeyValuePairs -> ext bool;
  getOutputFieldIDs : SchemaInfo -> list string -> ext (list int64);
  parseGuaranteeTsFromConsistency : Timestamp -> Timestamp -> Z -> Timestamp;
  parseGuaranteeTs : Timestamp -> Timestamp -> Timestamp;
  GetCurUserFromContext : Context -> string;
  ValidateTask : searchTask -> ext unit;
  parseRankParams : KeyValuePairs -> SchemaInfo -> ext RankParams;
  rank_GetGroupByFieldId : option RankParams -> int64;
  rank_GetGroupSize : option RankParams -> int64;
  parseSearchInfo : KeyValuePairs -> SchemaInfo -> option RankParams -> ext SearchInfo;

  (** context, time and tsoutil *)
  Deadline : Context -> option Time;
  Done : Context -> bool;
  PhysicalTime : Timestamp -> Time;
  time_Add : Time -> int64 -> Time;
  ComposeTSByTime : Time -> int64 -> Timestamp;

  (** rerank: the methods accept a nil function score *)
  NewFunctionScore : SchemaInfo -> FunctionScoreDesc -> ext (option FunctionScore);
  NewFunctionScoreWithlegacy : SchemaInfo -> KeyValuePairs -> ext (option FunctionScore);
  GetAllInputFieldNames : option FunctionScore -> list string;
  GetAllInputFieldIDs : option FunctionScore -> list int64;
  IsSupportGroup : option FunctionScore -> bool;

  (** typeutil and funcutil *)
  GetFields : SchemaInfo -> list FieldSchema;
  IsVectorType : DataType -> bool;
  GetPkField : SchemaInfo -> ext FieldSchema;
  GetPartitionKeyFieldSchema : SchemaInfo -> ext FieldSchema;
  IsFieldDataTypeSupportMaterializedView : FieldSchema -> bool;
  GetVectorFieldSchemas : SchemaInfo -> list FieldSchema;
  GetFieldByName : SchemaInfo -> string -> option FieldSchema;
  GetAttrByKeyFromRepeatedKV : string -> KeyValuePairs -> ext string;
  (** typeutil.ConcurrentSet: NewConcurrentSet, Insert, and the elements
      Range visits, listed as it visits them (in no order this file knows
      of) *)
  cs_New : ResultSet;
  cs_Insert : option ShardResults -> ResultSet -> ResultSet;
  cs_Range : ResultSet -> list (option ShardResults);

  (** plan compiler, expression utilities, protobuf *)
  CreateSearchPlan : SchemaInfo -> string -> string -> QueryInfo -> TemplateValues -> ext PlanNode;
  ParseExprFromPlan : PlanNode -> ext Expr;
  ValidatePartitionKeyIsolation : Expr -> ext unit;
  ParseKeys : Expr -> list PartitionKeyValue;
  proto_Marshal : PlanNode -> QueryInfo -> ext bytes;

  (** embedding and other user-defined functions of the schema *)
  HasNonBM25Functions : SchemaInfo -> list int64 -> bool;
  NewFunctionExecutor : SchemaInfo -> ext FunctionExecutor;
  ProcessSearch : FunctionExecutor -> Context -> SearchRequest -> ext SearchRequest;

  (** package metric *)
  metric_BM25 : string;
  PositivelyRelated : string -> bool
}.

Section Task.
Context {Ty : Types} {E : Env}.

(** ** Access to the state *)

Definition getTask : M searchTask := gets task.
Definition modTask (f : searchTask -> searchTask) : M unit :=
  modify (fun s => set_task (f (task s)) s).
(** [t.SearchRequest.X = v] *)
Definition modSR (f : SearchRequest -> SearchRequest) : M unit :=
  modTask (fun t => set_SearchRequest (f (SearchRequest_ t)) t).
Definition getSR : M SearchRequest := gets (fun s => SearchRequest_ (task s)).

Definition store_update (p : ptr) (b : MsgBase) (h : ptr -> option MsgBase) : ptr -> option MsgBase :=
  fun q => if Nat.eqb q p then Some b else h q.

(** Allocation of a header. *)
Definition alloc (b : MsgBase) : M ptr :=
  fun s => (Ok (next s), set_next (S (next s)) (set_bases (store_update (next s) b (bases s)) s)).

(** The header a request points to: dereferencing nil or a dangling
    pointer panics. *)
Definition derefBase (r : SearchRequest) : M (ptr * MsgBase) :=
  fun s =>
    match sr_Base r with
    | None => (Panic, s)
    | Some p => match bases s p with
                | None => (Panic, s)
                | Some b => (Ok (p, b), s)
                end
    end.

(** [r.Base.X = v] *)
Definition modBaseOf (r : SearchRequest) (f : MsgBase -> MsgBase) : M unit :=
  ' (p, b) <- derefBase r ;;
  modify (fun s => set_bases (store_update p (f b) (bases s)) s).

(** [t.Base.X = v] *)
Definition modBase (f : MsgBase -> MsgBase) : M unit :=
  r <- getSR ;; modBaseOf r f.

(** [t.GetBase().GetTimestamp()]: the getters read nil as 0. *)
Definition GetBaseTimestamp (s : State) : Timestamp :=
  match sr_Base (SearchRequest_ (task s)) with
  | None => 0
  | Some p => match bases s p with Some b => base_Timestamp b | None => 0 end
  end.

(** ** The accessors of the task *)

Definition ID : M UniqueID :=
  r <- getSR ;; ' (_, b) <- derefBase r ;; ret (base_MsgID b).

Definition SetID (uid : UniqueID) : M unit := modBase (set_base_MsgID uid).

Definition BeginTs : M Timestamp :=
  r <- getSR ;; ' (_, b) <- derefBase r ;; ret (base_Timestamp b).

Definition EndTs : M Timestamp :=
  r <- getSR ;; ' (_, b) <- derefBase r ;; ret (base_Timestamp b).

Definition SetTs (ts : Timestamp) : M unit := modBase (set_base_Timestamp ts).

Definition OnEnqueue : M unit :=
  p <- alloc NewMsgBase ;;
  modSR (set_sr_Base (Some p)) ;;
  modBase (set_base_MsgType MsgType_Search) ;;
  modBase (set_base_SourceID GetNodeID) ;;
  ret tt.

(** ** checkNq *)

(** The loop of [checkNq] over the legs of an advanced search: the current
    [nq] and the legs still to visit give the result and the legs as the
    loop leaves them ([req.Nq = subNq] writes into the client's request). *)
Fixpoint checkNq_loop (nq : int64) (reqs : list (SubSearchReq TemplateValues))
  : res int64 * list (SubSearchReq TemplateValues) :=
  match reqs with
  | [] => (Ok nq, [])
  | req :: rest =>
      match getNqFromSubSearch req with
      | ExtErr msg => (Err (External msg), req :: rest)
      | ExtOk subNq =>
          let req' := set_sub_Nq subNq req in
          if nq =? 0 then
            let (r, rest') := checkNq_loop subNq rest in (r, req' :: rest')
          else if negb (subNq =? nq) then
            (Err (WrapErrParameterInvalid nq subNq "sub search request nq should be the same"),
             req' :: rest)
          else
            let (r, rest') := checkNq_loop nq rest in (r, req' :: rest')
      end
  end.

Definition checkNq : M int64 :=
  sr <- getSR ;;
  t <- getTask ;;
  nq <-
    (if sr_IsAdvanced sr then
       let (r, reqs') := checkNq_loop (req_Nq (request t)) (req_SubReqs (request t)) in
       modTask (fun t => set_request (set_req_SubReqs reqs' (request t)) t) ;;
       match r with
       | Ok nq =>
           modTask (fun t => set_request (set_req_Nq nq (request t)) t) ;;
           ret nq
       | Err e => fail e
       | Panic => panic
       end
     else
       nq <- call (getNq (request t)) ;;
       modTask (fun t => set_request (set_req_Nq nq (request t)) t) ;;
       ret nq) ;;
  match validateNQLimit nq with
  | ExtErr msg => fail (fmt_Errorf "%s [%d] is invalid, %w" (External msg))
  | ExtOk _ => ret nq
  end.

(** ** Plans *)

(** [t.schema.X]: the schema pointer is dereferenced. *)
Definition getSchema : M SchemaInfo :=
  t <- getTask ;;
  match schema t with
  | Some sch => ret sch
  | None => panic
  end.

Definition tryGeneratePlan (params : KeyValuePairs) (dsl : string) (exprTemplateValues : TemplateValues)
  : M (PlanNode * QueryInfo * int64 * bool) :=
  sch <- getSchema ;;
  t <- getTask ;;
  sr <- getSR ;;
  annsFieldName <-
    (let fromSchema : M string :=
       let vecFields := GetVectorFieldSchemas sch in
       match vecFields with
       | [] => fail (errors_New (AnnsFieldKey ++ " not found in schema"))
       | first :: _ =>
           if enableMultipleVectorFields && (1 <? Z.of_nat (List.length vecFields)) then
             fail (errors_New "multiple anns_fields exist, please specify a anns_field in search_params")
           else ret (field_Name first)
       end in
     match GetAttrByKeyFromRepeatedKV AnnsFieldKey params with
     | ExtErr _ => fromSchema
     | ExtOk name => if (String.length name =? 0)%nat then fromSchema else ret name
     end) ;;
  searchInfo <- call (parseSearchInfo params sch (rankParams t)) ;;
  if (0 <? info_collectionID searchInfo)
     && negb (info_collectionID searchInfo =? sr_CollectionID sr) then
    fail (WrapErrParameterInvalidMsg
            ("collection id:%d in the request is not consistent to that in the search context,"
             ++ "alias or database may have been changed: %d"))
  else
    let annField := GetFieldByName sch annsFieldName in
    if negb (qi_GroupByFieldId (info_planInfo searchInfo) =? -1)
       && DataType_eqb (field_GetDataType annField) DataType_BinaryVector then
      fail (errors_New "not support search_group_by operation based on binary vector column")
    else
      let planInfo := set_qi_QueryFieldId (field_GetFieldID annField) (info_planInfo searchInfo) in
      match CreateSearchPlan sch dsl annsFieldName planInfo exprTemplateValues with
      | ExtErr _ => fail (WrapErrParameterInvalidMsg "failed to create query plan: %v")
      | ExtOk plan =>
          ret (plan, planInfo, info_offset searchInfo, info_isIterator searchInfo)
      end.

Definition tryParsePartitionIDsFromPlan (plan : PlanNode) : M (list int64) :=
  t <- getTask ;;
  expr <- call (ParseExprFromPlan plan) ;;
  let partitionKeys := ParseKeys expr in
  hashedPartitionNames <-
    call (assignPartitionKeys (req_DbName (request t)) (collectionName t) partitionKeys) ;;
  if (0 <? List.length hashedPartitionNames)%nat then
    call (getPartitionIDs (req_DbName (request t)) (collectionName t) hashedPartitionNames)
  else ret [].

(** [setQueryInfoIfMvEnable(queryInfo, t, plan)]: the task is only read; the
    value is the query info as the call leaves it.  (When the collection
    info cannot be read the source returns [err], which is nil there.) *)
Definition setQueryInfoIfMvEnable (queryInfo : QueryInfo) (plan : PlanNode) : M QueryInfo :=
  t <- getTask ;;
  if enableMaterializedView t then
    sch <- getSchema ;;
    partitionKeyFieldSchema <- call (GetPartitionKeyFieldSchema sch) ;;
    if IsFieldDataTypeSupportMaterializedView partitionKeyFieldSchema then
      sr <- getSR ;;
      match GetCollectionInfo (req_DbName (request t)) (collectionName t) (sr_CollectionID sr) with
      | ExtErr _ => ret queryInfo
      | ExtOk collInfo =>
          queryInfo <-
            (if partitionKeyIsolation collInfo then
               expr <- call (ParseExprFromPlan plan) ;;
               call (ValidatePartitionKeyIsolation expr) ;;
               ret (set_qi_Hints "disable" queryInfo)
             else ret queryInfo) ;;
          ret (set_qi_MaterializedViewInvolved true queryInfo)
      end
    else
      fail (errors_New "partition key field data type is not supported in materialized view")
  else ret queryInfo.

(** ** Composition of the request *)

(** [s[index] = v]; an index out of range panics. *)
Fixpoint setIndex {A} (index : nat) (v : A) (l : list A) : option (list A) :=
  match l, index with
  | [], _ => None
  | _ :: rest, O => Some (v :: rest)
  | x :: rest, S i =>
      match setIndex i v rest with
      | Some rest' => Some (x :: rest')
      | None => None
      end
  end.

(** Insertion of the elements of [xs] into a set of integers. *)
Definition set_insert (xs : list int64) (s : list int64) : list int64 :=
  fold_left (fun acc x => set_add Z.eq_dec x acc) xs s.

(** lo.Contains *)
Definition Contains (l : list string) (x : string) : bool :=
  existsb (String.eqb x) l.

(** The body of the loop of [initAdvancedSearchRequest] over the legs,
    from leg [index] on; [queryFieldIDs] collects the fields searched. *)
Fixpoint initAdvanced_loop (index : nat) (subReqs : list (SubSearchReq TemplateValues))
    (queryFieldIDs : list int64) : M (list int64) :=
  match subReqs with
  | [] => ret queryFieldIDs
  | subReq :: rest =>
      ' (plan, queryInfo, offset, _) <-
        tryGeneratePlan (sub_SearchParams subReq) (sub_Dsl subReq) (sub_ExprTemplateValues subReq) ;;
      sr <- getSR ;;
      ignoreGrowing <-
        (if negb (sr_IgnoreGrowing sr) then call (isIgnoreGrowing (sub_SearchParams subReq))
         else ret (sr_IgnoreGrowing sr)) ;;
      t <- getTask ;;
      let internalSubReq :=
        {| isub_Dsl := sub_Dsl subReq;
           isub_PlaceholderGroup := sub_PlaceholderGroup subReq;
           isub_DslType := sub_DslType subReq;
           isub_SerializedExprPlan := [];
           isub_Nq := sub_Nq subReq;
           isub_PartitionIDs := [];
           isub_Topk := qi_Topk queryInfo;
           isub_Offset := offset;
           isub_MetricType := qi_MetricType queryInfo;
           isub_GroupByFieldId := rank_GetGroupByFieldId (rankParams t);
           isub_GroupSize := rank_GetGroupSize (rankParams t);
           isub_IgnoreGrowing := ignoreGrowing;
           isub_AnalyzerName := "";
           isub_FieldId := 0 |} in
      let internalSubReq :=
        match GetAttrByKeyFromRepeatedKV "analyzer_name" (sub_SearchParams subReq) with
        | ExtOk analyzer => set_isub_AnalyzerName analyzer internalSubReq
        | ExtErr _ => internalSubReq
        end in
      let internalSubReq := set_isub_FieldId (qi_QueryFieldId queryInfo) internalSubReq in
      let queryFieldIDs := (queryFieldIDs ++ [isub_FieldId internalSubReq])%list in
      ' (queryInfo, internalSubReq) <-
        (if partitionKeyMode t then
           queryInfo <- setQueryInfoIfMvEnable queryInfo plan ;;
           partitionIDs <- tryParsePartitionIDsFromPlan plan ;;
           if (0 <? List.length partitionIDs)%nat then
             match partitionIDsSet t with
             | None => panic
             | Some ids =>
                 modTask (set_partitionIDsSet (Some (set_insert partitionIDs ids))) ;;
                 ret (queryInfo, set_isub_PartitionIDs partitionIDs internalSubReq)
             end
           else ret (queryInfo, internalSubReq)
         else ret (queryInfo, set_isub_PartitionIDs (sr_PartitionIDs sr) internalSubReq)) ;;
      let plan := set_plan_DynamicFields [] (set_plan_OutputFieldIds [] plan) in
      serialized <- call (proto_Marshal plan queryInfo) ;;
      let internalSubReq := set_isub_SerializedExprPlan serialized internalSubReq in
      t <- getTask ;;
      match setIndex index (Some internalSubReq) (sr_SubReqs (SearchRequest_ t)),
            setIndex index (Some queryInfo) (queryInfos t) with
      | Some subReqs', Some queryInfos' =>
          modSR (set_sr_SubReqs subReqs') ;;
          modTask (set_queryInfos queryInfos') ;;
          initAdvanced_loop (S index) rest queryFieldIDs
      | _, _ => panic
      end
  end.

(** The call of the schema's user-defined functions on the request. *)
Definition callFunctionUdf (ctx0 : Context) (queryFieldIDs : list int64) : M unit :=
  sch <- getSchema ;;
  if HasNonBM25Functions sch queryFieldIDs then
    exec <- call (NewFunctionExecutor sch) ;;
    sr <- getSR ;;
    sr' <- call (ProcessSearch exec ctx0 sr) ;;
    modSR (fun _ => sr')
  else ret tt.

Definition initAdvancedSearchRequest (ctx0 : Context) : M unit :=
  modTask (set_partitionIDsSet (Some [])) ;;
  t <- getTask ;;
  sch <- getSchema ;;
  match
    match req_FunctionScore (request t) with
    | Some desc => NewFunctionScore sch desc
    | None => NewFunctionScoreWithlegacy sch (req_SearchParams (request t))
    end
  with
  | ExtErr msg => modTask (set_functionScore None) ;; fail (External msg)
  | ExtOk fs => modTask (set_functionScore fs)
  end ;;
  t <- getTask ;;
  modTask (set_needRequery
             ((0 <? List.length (req_OutputFields (request t)))%nat
              || (0 <? List.length (GetAllInputFieldNames (functionScore t)))%nat)) ;;
  match parseRankParams (req_SearchParams (request t)) sch with
  | ExtErr msg => modTask (set_rankParams None) ;; fail (External msg)
  | ExtOk rp => modTask (set_rankParams (Some rp))
  end ;;
  t <- getTask ;;
  if negb (IsSupportGroup (functionScore t)) && (0 <=? rank_GetGroupByFieldId (rankParams t)) then
    fail (WrapErrParameterInvalidMsg "Current rerank does not support grouping search")
  else
    let n := List.length (req_SubReqs (request t)) in
    modSR (set_sr_SubReqs (repeat None n)) ;;
    modTask (set_queryInfos (repeat None n)) ;;
    queryFieldIDs <- initAdvanced_loop 0 (req_SubReqs (request t)) [] ;;
    callFunctionUdf ctx0 queryFieldIDs ;;
    t <- getTask ;;
    modSR (set_sr_GroupByFieldId (rank_GetGroupByFieldId (rankParams t))) ;;
    modSR (set_sr_GroupSize (rank_GetGroupSize (rankParams t))) ;;
    (if partitionKeyMode t then
       match partitionIDsSet t with
       | None => panic
       | Some ids => modSR (set_sr_PartitionIDs ids)
       end
     else ret tt).

(** The vector fields of the schema that are among the translated output
    fields. *)
Definition vectorOutputFields (sch : SchemaInfo) (t : searchTask) : list FieldSchema :=
  filter (fun field => Contains (translatedOutputFields t) (field_Name field)
                       && IsVectorType (field_DataType field))
         (GetFields sch).

(** The fields the plan of a single search asks the shards for: with a
    requery only what the rank function reads, otherwise the output fields,
    what the rank function reads and the primary key. *)
Definition firstPassPlan (sch : SchemaInfo) (t : searchTask) (plan : PlanNode) : M PlanNode :=
  if needRequery t then
    ret (set_plan_OutputFieldIds (GetAllInputFieldIDs (functionScore t)) plan)
  else
    primaryFieldSchema <- call (GetPkField sch) ;;
    let allFieldIDs := set_insert (sr_OutputFieldsId (SearchRequest_ t)) [] in
    let allFieldIDs := set_insert (GetAllInputFieldIDs (functionScore t)) allFieldIDs in
    let allFieldIDs := set_insert [field_FieldID primaryFieldSchema] allFieldIDs in
    ret (set_plan_DynamicFields (userDynamicFields t) (set_plan_OutputFieldIds allFieldIDs plan)).

Definition initSearchRequest (ctx0 : Context) : M unit :=
  t <- getTask ;;
  ' (plan, queryInfo, offset, isIterator0) <-
    tryGeneratePlan (req_SearchParams (request t)) (req_Dsl (request t))
                    (req_ExprTemplateValues (request t)) ;;
  sch <- getSchema ;;
  match req_FunctionScore (request t) with
  | Some desc =>
      match NewFunctionScore sch desc with
      | ExtErr msg => modTask (set_functionScore None) ;; fail (External msg)
      | ExtOk fs => modTask (set_functionScore fs)
      end ;;
      t <- getTask ;;
      if negb (IsSupportGroup (functionScore t)) && (0 <? qi_GroupByFieldId queryInfo) then
        fail (WrapErrParameterInvalidMsg "Rerank %s does not support grouping search")
      else ret tt
  | None => ret tt
  end ;;
  modTask (set_isIterator isIterator0) ;;
  modSR (set_sr_Offset offset) ;;
  modSR (set_sr_FieldId (qi_QueryFieldId queryInfo)) ;;
  t <- getTask ;;
  queryInfo <-
    (if partitionKeyMode t then
       queryInfo <- setQueryInfoIfMvEnable queryInfo plan ;;
       partitionIDs <- tryParsePartitionIDsFromPlan plan ;;
       (if (0 <? List.length partitionIDs)%nat then modSR (set_sr_PartitionIDs partitionIDs)
        else ret tt) ;;
       ret queryInfo
     else ret queryInfo) ;;
  sch <- getSchema ;;
  t <- getTask ;;
  modTask (set_needRequery (0 <? List.length (vectorOutputFields sch t))%nat) ;;
  t <- getTask ;;
  plan <- firstPassPlan sch t plan ;;
  match proto_Marshal plan queryInfo with
  | ExtErr msg => modSR (set_sr_SerializedExprPlan []) ;; fail (External msg)
  | ExtOk serialized => modSR (set_sr_SerializedExprPlan serialized)
  end ;;
  modSR (set_sr_PlaceholderGroup (req_PlaceholderGroup (request t))) ;;
  modSR (set_sr_Topk (qi_Topk queryInfo)) ;;
  modSR (set_sr_MetricType (qi_MetricType queryInfo)) ;;
  modTask (fun t => set_queryInfos (queryInfos t ++ [Some queryInfo])%list t) ;;
  modSR (set_sr_DslType DslType_BoolExprV1) ;;
  modSR (set_sr_GroupByFieldId (qi_GroupByFieldId queryInfo)) ;;
  modSR (set_sr_GroupSize (qi_GroupSize queryInfo)) ;;
  (if String.eqb (qi_MetricType queryInfo) metric_BM25 then
     match GetAttrByKeyFromRepeatedKV "analyzer_name" (req_SearchParams (request t)) with
     | ExtOk analyzer => modSR (set_sr_AnalyzerName analyzer)
     | ExtErr _ => ret tt
     end
   else ret tt) ;;
  callFunctionUdf ctx0 [qi_QueryFieldId queryInfo].

(** ** PreExecute *)

(** The first part of [PreExecute]: the collection, its schema, the
    partitions and the output fields. *)
Definition resolveCollection (ctx0 : Context) : M unit :=
  t <- getTask ;;
  modSR (set_sr_IsAdvanced (0 <? List.length (req_SubReqs (request t)))%nat) ;;
  modBase (set_base_MsgType MsgType_Search) ;;
  modBase (set_base_SourceID GetNodeID) ;;
  let collectionName0 := req_CollectionName (request t) in
  let dbName := req_DbName (request t) in
  modTask (set_collectionName collectionName0) ;;
  collID <-
    match GetCollectionID dbName collectionName0 with
    | ExtErr msg => fail (WrapErrAsInputErrorWhen (External msg))
    | ExtOk collID => ret collID
    end ;;
  modSR (set_sr_DbID 0) ;;
  modSR (set_sr_CollectionID collID) ;;
  sch <-
    match GetCollectionSchema dbName collectionName0 with
    | ExtErr msg => modTask (set_schema None) ;; fail (External msg)
    | ExtOk sch => modTask (set_schema (Some sch)) ;; ret sch
    end ;;
  match isPartitionKeyMode dbName collectionName0 with
  | ExtErr msg => modTask (set_partitionKeyMode false) ;; fail (External msg)
  | ExtOk mode => modTask (set_partitionKeyMode mode)
  end ;;
  t <- getTask ;;
  if partitionKeyMode t && negb (List.length (req_PartitionNames (request t)) =? 0)%nat then
    fail (errors_New "not support manually specifying the partition names if partition key mode is used")
  else if mustUsePartitionKey t && negb (partitionKeyMode t) then
    fail (WrapErrAsInputError
            (WrapErrParameterInvalidMsg
               ("must use partition key in the search request "
                ++ "because the mustUsePartitionKey config is true")))
  else
    (if negb (partitionKeyMode t) && (0 <? List.length (req_PartitionNames (request t)))%nat then
       match getPartitionIDs dbName collectionName0 (req_PartitionNames (request t)) with
       | ExtErr msg => modSR (set_sr_PartitionIDs []) ;; fail (External msg)
       | ExtOk ids => modSR (set_sr_PartitionIDs ids)
       end
     else ret tt) ;;
    match translateOutputFields (req_OutputFields (request t)) sch true with
    | ExtErr msg =>
        modTask (set_translatedOutputFields []) ;;
        modTask (set_userOutputFields []) ;;
        modTask (set_userDynamicFields []) ;;
        modTask (set_userRequestedPkFieldExplicitly false) ;;
        fail (External msg)
    | ExtOk (translated, userOutput, userDynamic, pkExplicit) =>
        modTask (set_translatedOutputFields translated) ;;
        modTask (set_userOutputFields userOutput) ;;
        modTask (set_userDynamicFields userDynamic) ;;
        modTask (set_userRequestedPkFieldExplicitly pkExplicit)
    end.

(** The second part: the limit on the legs, nq, and the request(s) sent
    to the shards. *)
Definition composeRequest (ctx0 : Context) : M unit :=
  sr <- getSR ;;
  t <- getTask ;;
  if sr_IsAdvanced sr
     && (defaultMaxSearchRequest <? Z.of_nat (List.length (req_SubReqs (request t)))) then
    fail (errors_New "maximum of ann search requests is %d")
  else
    nq <- checkNq ;;
    modSR (set_sr_Nq nq) ;;
    match isIgnoreGrowing (req_SearchParams (request t)) with
    | ExtErr msg => modSR (set_sr_IgnoreGrowing false) ;; fail (External msg)
    | ExtOk b => modSR (set_sr_IgnoreGrowing b)
    end ;;
    sch <- getSchema ;;
    t <- getTask ;;
    outputFieldIDs <- call (getOutputFieldIDs sch (translatedOutputFields t)) ;;
    modSR (set_sr_OutputFieldsId outputFieldIDs) ;;
    sr <- getSR ;;
    if sr_IsAdvanced sr then initAdvancedSearchRequest ctx0
    else initSearchRequest ctx0.

(** The timestamp the consistency level of the read resolves to: the level
    is the collection's when the client asks for the default, its own
    otherwise; a client that sends level 0 and a positive timestamp is a
    legacy client. *)
Definition resolveConsistency (req : MilvusSearchRequest) (beginTs : Timestamp)
    (info : collectionInfo) : Timestamp * Z :=
  let guaranteeTs := req_GuaranteeTimestamp req in
  if req_UseDefaultConsistency req then
    (parseGuaranteeTsFromConsistency guaranteeTs beginTs (consistencyLevel info),
     consistencyLevel info)
  else
    let level := req_ConsistencyLevel req in
    if (level =? 0) && (0 <? guaranteeTs) then (parseGuaranteeTs guaranteeTs beginTs, level)
    else (parseGuaranteeTsFromConsistency guaranteeTs beginTs level, level).

(** The third part: the guarantee timestamp and the consistency level of
    the internal request. *)
Definition resolveGuaranteeTs (info : collectionInfo) : M unit :=
  t <- getTask ;;
  beginTs <- BeginTs ;;
  let (guaranteeTs, level) := resolveConsistency (request t) beginTs info in
  let guaranteeTs :=
    if guaranteeTs <? updateTimestamp info then updateTimestamp info else guaranteeTs in
  modSR (set_sr_GuaranteeTimestamp guaranteeTs) ;;
  modSR (set_sr_ConsistencyLevel level) ;;
  (if isIterator t && (0 <? req_GuaranteeTimestamp (request t)) then
     modSR (set_sr_MvccTimestamp (req_GuaranteeTimestamp (request t))) ;;
     modSR (set_sr_GuaranteeTimestamp (req_GuaranteeTimestamp (request t)))
   else ret tt) ;;
  modSR (set_sr_IsIterator (isIterator t)).

(** The deadline of the task's context and the user of the call. *)
Definition setTimeoutAndUser (ctx0 : Context) : M unit :=
  t <- getTask ;;
  match Deadline (ctx t) with
  | Some deadline => modSR (set_sr_TimeoutTimestamp (ComposeTSByTime deadline 0))
  | None => ret tt
  end ;;
  let username := GetCurUserFromContext ctx0 in
  if negb (String.eqb username "") then modSR (set_sr_Username username) else ret tt.

(** The expiry cutoff of a collection with time to live [ttl], for a task
    whose timestamp is [base]. *)
Definition ttlCutoff (base : Timestamp) (ttl : uint64) : Timestamp :=
  let physicalTime := PhysicalTime base in
  let expireTime := time_Add physicalTime (int64_neg (int64_of_uint64 ttl)) in
  ComposeTSByTime expireTime 0.

Definition ttlOverflow : error :=
  WrapErrServiceInternal "ttl timestamp overflow, base timestamp: %d, ttl duration %v".

(** The fourth part: the expiry cutoff of a collection with a time to
    live. *)
Definition checkCollectionTTL (info : collectionInfo) : M unit :=
  if negb (collectionTTL info =? 0) then
    base <- gets GetBaseTimestamp ;;
    modSR (set_sr_CollectionTtlTimestamps (ttlCutoff base (collectionTTL info))) ;;
    sr <- getSR ;;
    base <- gets GetBaseTimestamp ;;
    if base <? sr_CollectionTtlTimestamps sr then fail ttlOverflow else ret tt
  else ret tt.

(** The last part: the result buffer and the validation of the task. *)
Definition finishPreExecute : M unit :=
  modTask (set_resultBuf (Some cs_New)) ;;
  t <- getTask ;;
  call (ValidateTask t).

(** [PreExecute] up to the point where the collection info is read. *)
Definition prepareRequest (ctx0 : Context) : M collectionInfo :=
  resolveCollection ctx0 ;;
  composeRequest ctx0 ;;
  t <- getTask ;;
  sr <- getSR ;;
  call (GetCollectionInfo (req_DbName (request t)) (collectionName t) (sr_CollectionID sr)).

Definition PreExecute (ctx0 : Context) : M unit :=
  collectionInfo0 <- prepareRequest ctx0 ;;
  resolveGuaranteeTs collectionInfo0 ;;
  setTimeoutAndUser ctx0 ;;
  checkCollectionTTL collectionInfo0 ;;
  finishPreExecute.

(** ** The per-shard call *)

(** [typeutil.Clone], that is proto.Clone: a deep copy.  The header of the
    copy is a new object with the contents of the original's; the other
    nested messages are values in this model, so that their copies need
    not be told apart. *)
Definition Clone (r : SearchRequest) : M SearchRequest :=
  match sr_Base r with
  | None => ret r
  | Some _ =>
      ' (_, b) <- derefBase r ;;
      q <- alloc b ;;
      ret (set_sr_Base (Some q) r)
  end.

(** [globalMetaCache.DeprecateShardCache(db, collection)] *)
Definition DeprecateShardCache (db collection : string) : M unit :=
  modify (fun s => set_deprecatedShardCache ((db, collection) :: deprecatedShardCache s) s).

(** [t.lb.UpdateCostMetrics(nodeID, cost)] *)
Definition UpdateCostMetrics (nodeID : int64) (cost : option CostAggregation) : M unit :=
  modify (fun s => set_costMetrics ((nodeID, cost) :: costMetrics s) s).

Definition ErrorCode_eqb (a b : ErrorCode) : bool :=
  match a, b with
  | ErrorCode_Success, ErrorCode_Success => true
  | ErrorCode_NotShardLeader, ErrorCode_NotShardLeader => true
  | ErrorCode_Other n, ErrorCode_Other m => n =? m
  | _, _ => false
  end.

(** The request [searchShard] sends, built from the copy [searchReq]. *)
Definition shardRequest (searchReq : SearchRequest) (channel : string) : QuerySearchRequest :=
  {| q_Req := searchReq;
     q_DmlChannels := [channel];
     q_Scope := DataScope_All;
     q_TotalChannelNum := 1 |}.

Definition searchShard (nodeID : int64) (qn : QueryNodeClient) (channel : string) : M unit :=
  t <- getTask ;;
  searchReq <- Clone (SearchRequest_ t) ;;
  modBaseOf searchReq (set_base_TargetID nodeID) ;;
  let req := shardRequest searchReq channel in
  store <- gets bases ;;
  match qn req store with
  | ExtErr msg =>
      DeprecateShardCache (req_DbName (request t)) (collectionName t) ;;
      fail (External msg)
  | ExtOk result0 =>
      if ErrorCode_eqb (result_GetErrorCode result0) ErrorCode_NotShardLeader then
        DeprecateShardCache (req_DbName (request t)) (collectionName t) ;;
        fail errInvalidShardLeaders
      else if negb (ErrorCode_eqb (result_GetErrorCode result0) ErrorCode_Success) then
        fail (errors_Wrapf (merr_Error (result_GetStatus result0)) "fail to search on QueryNode %d" nodeID)
      else
        match resultBuf t with
        | Some buf => modTask (set_resultBuf (Some (cs_Insert result0 buf)))
        | None => ret tt
        end ;;
        (* result.CostAggregation is a field access: it panics on nil *)
        match result0 with
        | Some reply => UpdateCostMetrics nodeID (shard_CostAggregation reply)
        | None => panic
        end
  end.

(** ** After the shards have answered *)




(** [getLastBound]: [None] stands for the panic of reading the scores of a
    nil result. *)
Definition getLastBound (result0 : option SearchResults) (incomingLastBound : option float32)
    (metricType : string) : option float32 :=
  match result0 with
  | None => None
  | Some r =>
      match out_Results r with
      | None => None
      | Some data =>
          let len := List.length (data_Scores data) in
          if (0 <? len)%nat && (out_GetNumQueries result0 =? 1) then
            nth_error (data_Scores data) (len - 1)
          else
            match incomingLastBound with
            | Some bound => Some bound
            | None =>
                if PositivelyRelated metricType then Some MaxFloat32
                else Some (float32_neg MaxFloat32)
            end
      end
  end.

Definition estimateResultSize (nq topK : int64) : M int64 :=
  sch <- getSchema ;;
  t <- getTask ;;
  if (0 <? List.length (vectorOutputFields sch t))%nat then ret (2 ^ 63 - 1)
  else ret 0.

(** ** The other methods the scheduler calls *)

Definition TraceCtx : M Context :=
  t <- getTask ;; ret (ctx t).

Definition SearchTaskName : string := "SearchTask".

Definition Name : M string := ret SearchTaskName.

(** The method [Type] of the task. *)
Definition Type_ : M MsgType :=
  r <- getSR ;; ' (_, b) <- derefBase r ;; ret (base_MsgType b).

(** commonpb.ConsistencyLevel_Strong, the zero value of the enumeration. *)
Definition ConsistencyLevel_Strong : Z := 0.

(** Whether the scheduler may leave the task without a timestamp of its
    own: the lookups in the meta cache are made with a background
    context, and their errors are only logged. *)
Definition CanSkipAllocTimestamp : M bool :=
  t <- getTask ;;
  let useDefaultConsistency := req_UseDefaultConsistency (request t) in
  if negb useDefaultConsistency then
    if (req_ConsistencyLevel (request t) =? ConsistencyLevel_Strong)
       && (0 <? req_GuaranteeTimestamp (request t))
    then ret true
    else ret (negb (req_ConsistencyLevel (request t) =? ConsistencyLevel_Strong))
  else
    match GetCollectionID (req_DbName (request t)) (req_CollectionName (request t)) with
    | ExtErr _ => ret false
    | ExtOk collID =>
        match GetCollectionInfo (req_DbName (request t)) (req_CollectionName (request t)) collID with
        | ExtErr _ => ret false
        | ExtOk collectionInfo0 =>
            ret (negb (consistencyLevel collectionInfo0 =? ConsistencyLevel_Strong))
        end
    end.

(** ** Execute *)

(** The proxy's CollectionWorkLoad: what the task hands to the load
    balancer; [wl_exec] is the call the balancer makes for a shard. *)
Record CollectionWorkLoad := mkCollectionWorkLoad {
  wl_db : string;
  wl_collectionID : int64;
  wl_collectionName : string;
  wl_nq : int64;
  wl_exec : int64 -> QueryNodeClient -> string -> M unit
}.

(** The method Execute of an LBPolicy: code of the load balancer, which
    runs in the state of the task because it calls back into it. *)
Definition LBPolicy := CollectionWorkLoad -> M unit.

(** [Execute]: the identifier of the task is read for the time recorder
    before the balancer is called. *)
Definition Execute (lb : LBPolicy) (ctx0 : Context) : M unit :=
  ID ;;
  t <- getTask ;;
  sr <- getSR ;;
  fun s =>
    match lb {| wl_db := req_DbName (request t);
                wl_collectionID := sr_CollectionID sr;
                wl_collectionName := collectionName t;
                wl_nq := sr_Nq sr;
                wl_exec := searchShard |} s with
    | (Err err, s') => (Err (errors_Wrap err "failed to search"), s')
    | (r, s') => (r, s')
    end.

End Task.

(** ** A small deployment *)

(** One concrete choice of the other packages' types and functions, for
    running the task on concrete requests: a collection "docs" with a
    primary key, a scalar field, a vector field and a partition key; a
    collection "logs" with a time to live; a collection "tenants" in
    partition key mode, with its partition key isolated.  A time is a
    number of nanoseconds since the epoch, the physical part of a
    timestamp a number of milliseconds; the result buffer is a list. *)
Module Demo.

#[export] Instance types : Types := {|
  Context := option Z * string;
  Time := Z;
  SchemaInfo := list FieldSchema;
  Expr := string;
  PlanBody := string;
  FunctionScore := list string;
  FunctionScoreDesc := list string;
  RankParams := int64 * int64;
  TemplateValues := unit;
  PartitionKeyValue := string;
  FunctionExecutor := unit;
  ResultSet := list (option ShardResults)
|}.

Definition DataType_Double := DataType_Other 11.
Definition DataType_VarChar := DataType_Other 21.
Definition DataType_FloatVector := DataType_Other 101.

Definition fields : list FieldSchema :=
  [ mkFieldSchema 100 "id" DataType_Int64;
    mkFieldSchema 101 "price" DataType_Double;
    mkFieldSchema 102 "embedding" DataType_FloatVector;
    mkFieldSchema 103 "tenant" DataType_VarChar ].

Definition isVector (t : DataType) : bool :=
  match t with
  | DataType_BinaryVector => true
  | DataType_Other n => (100 <=? n) && (n <=? 105)
  | _ => false
  end.

Fixpoint lookup (key : string) (kvs : KeyValuePairs) : ext string :=
  match kvs with
  | [] => ExtErr "key not found"
  | (k, v) :: rest => if String.eqb k key then ExtOk v else lookup key rest
  end.

Definition findField (p : FieldSchema -> bool) (sch : list FieldSchema) : ext FieldSchema :=
  match find p sch with
  | Some f => ExtOk f
  | None => ExtErr "field not found"
  end.

(** One hour, in nanoseconds. *)
Definition hour : Z := 3600 * 10 ^ 9.

Definition info (name : string) : collectionInfo :=
  {| consistencyLevel := 2;
     updateTimestamp := 100;
     collectionTTL := if String.eqb name "logs" then hour else 0;
     partitionKeyIsolation := String.eqb name "tenants" |}.

(** The legs of old clients carry no nq: it is the number of vectors of the
    placeholder group, here the number of its bytes. *)
Definition nqOf (nq : int64) (placeholderGroup : bytes) : int64 :=
  if nq =? 0 then Z.of_nat (List.length placeholderGroup) else nq.

(** A decimal number. *)
Definition digit (c : Ascii.ascii) : option Z :=
  let n := Z.of_nat (Ascii.nat_of_ascii c) in
  if (48 <=? n) && (n <=? 57) then Some (n - 48) else None.
Fixpoint digits (acc : Z) (s : string) : option Z :=
  match s with
  | EmptyString => Some acc
  | String c rest =>
      match digit c with
      | Some d => digits (10 * acc + d) rest
      | None => None
      end
  end.
Definition parseInt (s : string) : option Z :=
  match s with
  | EmptyString => None
  | _ => digits 0 s
  end.

(** The number a search parameter holds; [default] when the key is
    absent: a search that names no top-k asks for ten rows, one that names
    no offset starts at the first. *)
Definition numberOf (key : string) (default : Z) (params : KeyValuePairs) : option Z :=
  match lookup key params with
  | ExtOk v => parseInt v
  | ExtErr _ => Some default
  end.
Definition topkOf (params : KeyValuePairs) : Z :=
  match numberOf "topk" 10 params with Some n => n | None => 0 end.
Definition offsetOf (params : KeyValuePairs) : Z :=
  match numberOf "offset" 0 params with Some n => n | None => 0 end.

(** strings.ToUpper on ASCII. *)
Definition upper (c : Ascii.ascii) : Ascii.ascii :=
  let n := Ascii.nat_of_ascii c in
  if (Nat.leb 97 n && Nat.leb n 122)%bool then Ascii.ascii_of_nat (n - 32) else c.
Fixpoint ToUpper (s : string) : string :=
  match s with
  | EmptyString => EmptyString
  | String c rest => String (upper c) (ToUpper rest)
  end.

(** The query top-k is the sum of the top-k and the offset of the
    client. *)
Definition planInfo (params : KeyValuePairs) : QueryInfo :=
  {| qi_Topk := topkOf params + offsetOf params;
     qi_MetricType := match lookup "metric_type" params with ExtOk m => m | ExtErr _ => "L2" end;
     qi_QueryFieldId := 0;
     qi_GroupByFieldId := -1;
     qi_GroupSize := 1;
     qi_Hints := "";
     qi_MaterializedViewInvolved := false;
     qi_SearchIteratorV2Info := None |}.

#[export] Instance env : Env := {|
  GetNodeID := 1;
  defaultMaxSearchRequest := 1024;
  enableMultipleVectorFields := true;
  AnnsFieldKey := "anns_field";
  NQKey := "nq";
  GetCollectionID := fun _ name =>
    if String.eqb name "" then ExtErr "collection not found" else ExtOk 7;
  GetCollectionSchema := fun _ _ => ExtOk fields;
  GetCollectionInfo := fun _ name _ => ExtOk (info name);
  isPartitionKeyMode := fun _ name => ExtOk (String.eqb name "tenants");
  getPartitionIDs := fun _ _ names => ExtOk (map (fun _ => 1) names);
  assignPartitionKeys := fun _ _ keys => ExtOk keys;
  translateOutputFields := fun outputFields _ _ => ExtOk (outputFields, outputFields, [], false);
  getNqFromSubSearch := fun req => ExtOk (nqOf (sub_Nq req) (sub_PlaceholderGroup req));
  getNq := fun req => ExtOk (nqOf (req_Nq req) (req_PlaceholderGroup req));
  validateNQLimit := fun nq =>
    if (nq <=? 0) || (16384 <? nq) then ExtErr "nq out of range" else ExtOk tt;
  isIgnoreGrowing := fun _ => ExtOk false;
  getOutputFieldIDs := fun sch names =>
    ExtOk (map field_FieldID (filter (fun f => existsb (String.eqb (field_Name f)) names) sch));
  parseGuaranteeTsFromConsistency := fun ts tMax level =>
    if level =? 0 then tMax
    else if level =? 2 then Z.max 0 (tMax - 5000)
    else if level =? 3 then 1
    else ts;
  parseGuaranteeTs := fun ts tMax =>
    if ts =? 0 then tMax else if ts =? 2 then Z.max 0 (tMax - 5000) else ts;
  GetCurUserFromContext := fun c => snd c;
  ValidateTask := fun _ => ExtOk tt;
  parseRankParams := fun _ _ => ExtOk (-1, 1);
  rank_GetGroupByFieldId := fun rp => match rp with Some p => fst p | None => -1 end;
  rank_GetGroupSize := fun rp => match rp with Some p => snd p | None => 1 end;
  parseSearchInfo := fun params _ _ =>
    match numberOf "topk" 10 params, numberOf "offset" 0 params with
    | Some _, Some offset =>
        ExtOk {| info_planInfo := planInfo params;
                 info_offset := offset;
                 info_isIterator :=
                   match lookup "iterator" params with ExtOk v => String.eqb v "True" | ExtErr _ => false end;
                 info_collectionID := 0 |}
    | _, _ => ExtErr "top-k and offset must be numbers"
    end;
  Deadline := fun c => fst c;
  Done := fun _ => false;
  PhysicalTime := fun ts => Z.shiftr ts 18 * 10 ^ 6;
  time_Add := fun t d => t + d;
  ComposeTSByTime := fun t logical => wrap_uint64 (Z.shiftl (Z.quot t (10 ^ 6)) 18 + logical);
  NewFunctionScore := fun _ desc => ExtOk (Some desc);
  NewFunctionScoreWithlegacy := fun _ _ => ExtOk (Some []);
  GetAllInputFieldNames := fun fs => match fs with Some names => names | None => [] end;
  GetAllInputFieldIDs := fun fs =>
    match fs with
    | Some names => map field_FieldID (filter (fun f => existsb (String.eqb (field_Name f)) names) fields)
    | None => []
    end;
  IsSupportGroup := fun _ => true;
  GetFields := fun sch => sch;
  IsVectorType := isVector;
  GetPkField := findField (fun f => DataType_eqb (field_DataType f) DataType_Int64);
  GetPartitionKeyFieldSchema := findField (fun f => String.eqb (field_Name f) "tenant");
  IsFieldDataTypeSupportMaterializedView := fun _ => true;
  GetVectorFieldSchemas := filter (fun f => isVector (field_DataType f));
  GetFieldByName := fun sch name => find (fun f => String.eqb (field_Name f) name) sch;
  GetAttrByKeyFromRepeatedKV := lookup;
  cs_New := [];
  cs_Insert := cons;
  cs_Range := fun set => set;
  CreateSearchPlan := fun _ dsl _ _ _ => ExtOk (mkPlanNode (dsl : @PlanBody types) [] []);
  ParseExprFromPlan := fun plan => ExtOk (plan_body plan);
  ValidatePartitionKeyIsolation := fun expr =>
    if String.prefix "tenant == " expr then ExtOk tt
    else ExtErr "partition key isolation does not support this filter";
  ParseKeys := fun expr => [expr];
  proto_Marshal := fun plan _ => ExtOk (list_byte_of_string (plan_body plan));
  HasNonBM25Functions := fun _ _ => false;
  NewFunctionExecutor := fun _ => ExtOk tt;
  ProcessSearch := fun _ _ sr => ExtOk sr;
  metric_BM25 := "BM25";
  PositivelyRelated := fun m =>
    let mType := ToUpper m in
    String.eqb mType "IP" || String.eqb mType "COSINE" || String.eqb mType "BM25"
|}.

Definition emptySearchRequest : SearchRequest :=
  {| sr_Base := None; sr_DbID := 0; sr_CollectionID := 0; sr_PartitionIDs := []; sr_Dsl := "";
     sr_PlaceholderGroup := []; sr_DslType := DslType_Dsl; sr_SerializedExprPlan := [];
     sr_OutputFieldsId := []; sr_MvccTimestamp := 0; sr_GuaranteeTimestamp := 0;
     sr_TimeoutTimestamp := 0; sr_Nq := 0; sr_Topk := 0; sr_MetricType := "";
     sr_IgnoreGrowing := false; sr_Username := ""; sr_SubReqs := []; sr_IsAdvanced := false;
     sr_Offset := 0; sr_ConsistencyLevel := 0; sr_GroupByFieldId := 0; sr_GroupSize := 0;
     sr_FieldId := 0; sr_IsIterator := false; sr_AnalyzerName := "";
     sr_CollectionTtlTimestamps := 0 |}.

(** A search of one vector in "docs" with a filter and output fields. *)
Definition searchRequest (collection filter : string) (outputFields : list string)
    (params : KeyValuePairs) (guaranteeTs : Timestamp) : MilvusSearchRequest :=
  {| req_DbName := "default"; req_CollectionName := collection; req_PartitionNames := [];
     req_Dsl := filter; req_PlaceholderGroup := [x01]; req_SearchParams := params;
     req_OutputFields := outputFields; req_GuaranteeTimestamp := guaranteeTs; req_Nq := 1;
     req_UseDefaultConsistency := true; req_ConsistencyLevel := 0; req_SubReqs := [];
     req_ExprTemplateValues := tt; req_FunctionScore := None |}.

(** A leg that names its nq, and the placeholder group it carries. *)
Definition leg (nq : int64) (placeholderGroup : bytes) : SubSearchReq unit :=
  {| sub_Dsl := ""; sub_PlaceholderGroup := placeholderGroup; sub_DslType := DslType_BoolExprV1;
     sub_SearchParams := [("anns_field", "embedding")]; sub_Nq := nq;
     sub_ExprTemplateValues := tt |}.

(** An advanced search in "docs" over the given legs. *)
Definition hybridRequest (legs : list (SubSearchReq unit)) (outputFields : list string)
  : MilvusSearchRequest :=
  {| req_DbName := "default"; req_CollectionName := "docs"; req_PartitionNames := [];
     req_Dsl := ""; req_PlaceholderGroup := []; req_SearchParams := [];
     req_OutputFields := outputFields; req_GuaranteeTimestamp := 0; req_Nq := 0;
     req_UseDefaultConsistency := true; req_ConsistencyLevel := 0; req_SubReqs := legs;
     req_ExprTemplateValues := tt; req_FunctionScore := None |}.

(** The plan compiled from a filter. *)
Definition filterPlan (filter : string) : @PlanNode types := @mkPlanNode types filter [] [].

(** The context of the calls. *)
Definition root : option Z * string := (None, "root").

(** The task the handler builds for a request. *)
Definition newTask (req : MilvusSearchRequest) : searchTask :=
  {| ctx := root; SearchRequest_ := emptySearchRequest; result := None; request := req;
     collectionName := ""; schema := None; needRequery := false; partitionKeyMode := false;
     enableMaterializedView := true; mustUsePartitionKey := false;
     resultSizeInsufficient := false; isTopkReduce := false; isRecallEvaluation := false;
     translatedOutputFields := []; userOutputFields := []; userDynamicFields := [];
     resultBuf := None; partitionIDsSet := None; queryChannelsTs := []; queryInfos := [];
     relatedDataSize := 0; functionScore := None; rankParams := None; isIterator := false;
     userRequestedPkFieldExplicitly := false |}.

Definition newState (req : MilvusSearchRequest) : State :=
  {| task := newTask req; bases := fun _ => None; next := O;
     deprecatedShardCache := []; costMetrics := [] |}.

(** The state of a task enqueued at timestamp [ts]. *)
Definition enqueued (req : MilvusSearchRequest) (ts : Timestamp) : State :=
  snd ((OnEnqueue ;; SetTs ts) (newState req)).

(** The state of a task that went through PreExecute. *)
Definition prepared (req : MilvusSearchRequest) (ts : Timestamp) : State :=
  snd (PreExecute root (enqueued req ts)).

(** A query node that answers every search with [status] and no rows, and
    one that cannot be reached. *)
Definition replyWith (status : option Status) : ShardResults :=
  {| shard_Status := status; shard_NumQueries := 1; shard_TopK := 10; shard_SlicedBlob := [];
     shard_CostAggregation := Some (mkCostAggregation 3 2 1 0);
     shard_IsTopkReduce := false; shard_IsRecallEvaluation := false |}.
Definition answering (status : option Status) : QueryNodeClient :=
  fun _ _ => ExtOk (Some (replyWith status)).
Definition unreachable : QueryNodeClient := fun _ _ => ExtErr "connection refused".

(** A reduced result of one query with the given scores. *)
Definition reduced (numQueries : int64) (scores : list float32) (ids : list int64) : SearchResults :=
  {| out_Status := None;
     out_Results := Some {| data_NumQueries := numQueries; data_TopK := 10; data_Scores := scores;
                            data_Ids := IntId ids; data_Topks := [Z.of_nat (List.length ids)];
                            data_OutputFields := []; data_PrimaryFieldName := "id" |};
     out_CollectionName := ""; out_SessionTs := 0 |}.

End Demo.

Unset Implicit Arguments.

(** ** Reasoning about computations *)

Section Logic.
Context {Ty : Types}.

(** [m] keeps [I]: whatever [m] ends with. *)
Definition keeps {A} (I : State -> Prop) (m : M A) : Prop :=
  forall s, I s -> I (snd (m s)).

(** [m] only reads the state. *)
Definition reads {A} (m : M A) : Prop := forall s, snd (m s) = s.

Lemma reads_keeps {A} (I : State -> Prop) (m : M A) : reads m -> keeps I m.
Proof. intros H s Hs. rewrite H. exact Hs. Qed.

Lemma bind_run {A B} (m : M A) (k : A -> M B) (s : State) :
  bind m k s =
    match fst (m s) with
    | Ok a => k a (snd (m s))
    | Err e => (Err e, snd (m s))
    | Panic => (Panic, snd (m s))
    end.
Proof. unfold bind. destruct (m s) as [[a|e|] s']; reflexivity. Qed.

Lemma bind_Ok {A B} (m : M A) (k : A -> M B) (s : State) (a : A) :
  fst (m s) = Ok a -> bind m k s = k a (snd (m s)).
Proof. intros H. rewrite bind_run, H. reflexivity. Qed.

Lemma bind_Ok_inv {A B} (m : M A) (k : A -> M B) (s : State) (b : B) :
  fst (bind m k s) = Ok b ->
  exists a, fst (m s) = Ok a /\ bind m k s = k a (snd (m s)).
Proof.
  rewrite bind_run. destruct (fst (m s)) as [a|e|]; cbn; try discriminate.
  intros _. exists a. split; reflexivity.
Qed.

Lemma bind_assoc {A B C} (m : M A) (k : A -> M B) (h : B -> M C) (s : State) :
  bind (bind m k) h s = bind m (fun a => bind (k a) h) s.
Proof.
  unfold bind. destruct (m s) as [[a|e|] s']; reflexivity.
Qed.

Lemma keeps_ret {A} (I : State -> Prop) (a : A) : keeps I (ret a).
Proof. intros s Hs. exact Hs. Qed.

Lemma keeps_fail {A} (I : State -> Prop) (e : error) : keeps I (@fail _ A e).
Proof. intros s Hs. exact Hs. Qed.

Lemma keeps_panic {A} (I : State -> Prop) : keeps I (@panic _ A).
Proof. intros s Hs. exact Hs. Qed.

Lemma keeps_gets {A} (I : State -> Prop) (f : State -> A) : keeps I (gets f).
Proof. intros s Hs. exact Hs. Qed.

Lemma keeps_call {A} (I : State -> Prop) (c : ext A) : keeps I (call c).
Proof. intros s Hs. destruct c; exact Hs. Qed.

Lemma keeps_modify (I : State -> Prop) (f : State -> State) :
  (forall s, I s -> I (f s)) -> keeps I (modify f).
Proof. intros H s Hs. apply H. exact Hs. Qed.

Lemma keeps_bind {A B} (I : State -> Prop) (m : M A) (k : A -> M B) :
  keeps I m -> (forall a, keeps I (k a)) -> keeps I (bind m k).
Proof.
  intros Hm Hk s Hs. rewrite bind_run. specialize (Hm s Hs).
  destruct (fst (m s)) as [a|e|]; [apply Hk; exact Hm | exact Hm | exact Hm].
Qed.

Lemma reads_ret {A} (a : A) : reads (ret a).
Proof. intros s. reflexivity. Qed.

Lemma reads_fail {A} (e : error) : reads (@fail _ A e).
Proof. intros s. reflexivity. Qed.

Lemma reads_panic {A} : reads (@panic _ A).
Proof. intros s. reflexivity. Qed.

Lemma reads_gets {A} (f : State -> A) : reads (gets f).
Proof. intros s. reflexivity. Qed.

Lemma reads_call {A} (c : ext A) : reads (call c).
Proof. intros s. destruct c; reflexivity. Qed.

Lemma reads_bind {A B} (m : M A) (k : A -> M B) :
  reads m -> (forall a, reads (k a)) -> reads (bind m k).
Proof.
  intros Hm Hk s. rewrite bind_run. specialize (Hm s).
  destruct (fst (m s)) as [a|e|]; cbn; [rewrite Hk | | ]; exact Hm.
Qed.

End Logic.

(** One step of a proof that a computation keeps an invariant: the rule of
    the head of the computation, or a case analysis. *)
Ltac reads_step :=
  lazymatch goal with
  | |- reads (bind _ _) => apply reads_bind; [|intros ?]
  | |- reads (ret _) => apply reads_ret
  | |- reads (fail _) => apply reads_fail
  | |- reads panic => apply reads_panic
  | |- reads (gets _) => apply reads_gets
  | |- reads (call _) => apply reads_call
  | |- reads (match ?x with _ => _ end) => destruct x
  | |- reads (let (_, _) := ?x in _) => destruct x
  | |- reads (let _ := _ in _) => cbv zeta
  end.

Ltac keeps_step :=
  lazymatch goal with
  | |- keeps _ (bind _ _) => apply keeps_bind; [|intros ?]
  | |- keeps _ (ret _) => apply keeps_ret
  | |- keeps _ (fail _) => apply keeps_fail
  | |- keeps _ panic => apply keeps_panic
  | |- keeps _ (gets _) => apply keeps_gets
  | |- keeps _ (call _) => apply keeps_call
  | |- keeps _ (modify _) => apply keeps_modify; intros ? ?
  | |- keeps _ (match ?x with _ => _ end) => destruct x
  | |- keeps _ (let (_, _) := ?x in _) => destruct x
  end.

(** One step into a computation that succeeded: [H] says that a sequence
    ended well, so its head did. *)
Tactic Notation "ok_step" hyp(H) ident(a) ident(Ha) :=
  let Heq := fresh "Heq" in
  destruct (bind_Ok_inv _ _ _ _ H) as [a [Ha Heq]];
  rewrite Heq in H |- *; clear Heq.

(** ** Properties of the task *)

Section Properties.
Context {Ty : Types} {E : Env}.

(** *** Integers and floats *)


Lemma float32_magnitude_mod (x : float32) : float32_magnitude x = x mod 2 ^ 31.
Proof.
  unfold float32_magnitude.
  change 0x7FFFFFFF with (Z.ones 31).
  apply Z.land_ones. lia.
Qed.

Lemma float32_exponent_div (x : float32) : float32_exponent x = (x / 2 ^ 23) mod 2 ^ 8.
Proof.
  unfold float32_exponent.
  change 0xFF with (Z.ones 8).
  rewrite Z.land_ones by lia.
  rewrite Z.shiftr_div_pow2 by lia. reflexivity.
Qed.

Lemma float32_magnitude_bound (x : float32) :
  float32_finite x = true -> 0 <= float32_magnitude x <= 0x7F7FFFFF.
Proof.
  unfold float32_finite. intros H.
  apply andb_prop in H. destruct H as [H Hexp].
  apply andb_prop in H. destruct H as [H0 H1].
  apply Z.leb_le in H0. apply Z.ltb_lt in H1.
  apply negb_true_iff in Hexp. apply Z.eqb_neq in Hexp.
  rewrite float32_exponent_div in Hexp.
  rewrite float32_magnitude_mod.
  pose proof (Z.div_mod x (2 ^ 23)) as D1.
  pose proof (Z.mod_pos_bound x (2 ^ 23)) as B1.
  pose proof (Z.div_mod (x / 2 ^ 23) (2 ^ 8)) as D2.
  pose proof (Z.mod_pos_bound (x / 2 ^ 23) (2 ^ 8)) as B2.
  pose proof (Z.div_mod x (2 ^ 31)) as D3.
  pose proof (Z.mod_pos_bound x (2 ^ 31)) as B3.
  change (2 ^ 23) with 8388608 in *. change (2 ^ 8) with 256 in *.
  change (2 ^ 31) with 2147483648 in *. change (2 ^ 32) with 4294967296 in *.
  lia.
Qed.

(** No finite float32 lies above [MaxFloat32] or below its negation. *)
Lemma MaxFloat32_extreme (x : float32) :
  float32_finite x = true ->
  float32_key (float32_neg MaxFloat32) <= float32_key x <= float32_key MaxFloat32.
Proof.
  intros H. apply float32_magnitude_bound in H.
  change (float32_key MaxFloat32) with 0x7F7FFFFF.
  change (float32_key (float32_neg MaxFloat32)) with (- 0x7F7FFFFF).
  unfold float32_key. destruct (float32_sign x); lia.
Qed.

(** *** getLastBound *)

(** The bound a page without usable scores reports: the caller's bound when
    it sent one, the extreme value on the side of the metric otherwise. *)
Definition defaultLastBound (incomingLastBound : option float32) (metricType : string) : float32 :=
  match incomingLastBound with
  | Some bound => bound
  | None => if PositivelyRelated metricType then MaxFloat32 else float32_neg MaxFloat32
  end.

Lemma nth_error_last {A} (l : list A) (d : A) :
  l <> [] -> nth_error l (List.length l - 1) = Some (last l d).
Proof.
  induction l as [|a l IH]; intros Hne; [congruence|].
  destruct l as [|b l]; [reflexivity|].
  cbn [List.length]. replace (S (S (List.length l)) - 1)%nat with (S (List.length (b :: l) - 1)).
  - cbn [nth_error]. rewrite IH by discriminate. reflexivity.
  - cbn [List.length]. lia.
Qed.

Lemma getLastBound_cases (r : SearchResults) (data : SearchResultData)
    (incoming : option float32) (metricType : string) :
  out_Results r = Some data ->
  getLastBound (Some r) incoming metricType =
    if negb (Nat.eqb (List.length (data_Scores data)) 0) && (data_NumQueries data =? 1)
    then Some (last (data_Scores data) 0)
    else Some (defaultLastBound incoming metricType).
Proof.
  intros Hr. unfold getLastBound, out_GetNumQueries. rewrite Hr.
  assert (Hdefault :
    match incoming with
    | Some bound => Some bound
    | None => if PositivelyRelated metricType then Some MaxFloat32
              else Some (float32_neg MaxFloat32)
    end = Some (defaultLastBound incoming metricType)).
  { unfold defaultLastBound. destruct incoming; [reflexivity|].
    destruct (PositivelyRelated metricType); reflexivity. }
  destruct (data_Scores data) as [|x l] eqn:Hs.
  - cbn. exact Hdefault.
  - change (0 <? List.length (x :: l))%nat with true.
    change (Nat.eqb (List.length (x :: l)) 0) with false.
    cbn [negb andb].
    destruct (data_NumQueries data =? 1); [|exact Hdefault].
    apply nth_error_last. discriminate.
Qed.

(** C5: for a result page without rows and without a last bound sent by the
    caller, getLastBound returns math.MaxFloat32 when the metric is
    positively related to similarity and -math.MaxFloat32 otherwise; these
    are the greatest and the least finite float32. *)
Theorem getLastBound_no_rows (r : SearchResults) (data : SearchResultData) (metricType : string) :
  out_Results r = Some data ->
  data_Scores data = [] ->
  getLastBound (Some r) None metricType =
    Some (if PositivelyRelated metricType then MaxFloat32 else float32_neg MaxFloat32)
  /\ (forall x : float32, float32_finite x = true ->
        float32_key (float32_neg MaxFloat32) <= float32_key x <= float32_key MaxFloat32).
Proof.
  intros Hr Hs. split; [|exact MaxFloat32_extreme].
  rewrite getLastBound_cases with (data := data) by exact Hr. rewrite Hs. reflexivity.
Qed.

(** C10: getLastBound returns the last score only for a result with rows
    that reports exactly one query.  On a result with rows that reports
    another number of queries the scores are not read: the caller's last
    bound is returned when there is one, the extreme value of the metric's
    side otherwise; a result without rows gives the same. *)
Theorem getLastBound_single_query_only (r : SearchResults) (data : SearchResultData)
    (incoming : option float32) (metricType : string) :
  out_Results r = Some data ->
  (data_Scores data <> [] -> data_NumQueries data = 1 ->
   getLastBound (Some r) incoming metricType = Some (last (data_Scores data) 0))
  /\ (data_Scores data <> [] -> data_NumQueries data <> 1 ->
      getLastBound (Some r) incoming metricType = Some (defaultLastBound incoming metricType))
  /\ (data_Scores data = [] ->
      getLastBound (Some r) incoming metricType = Some (defaultLastBound incoming metricType)).
Proof.
  intros Hr. rewrite getLastBound_cases with (data := data) by exact Hr.
  destruct (data_Scores data) as [|x l].
  - split; [congruence|]. split; [congruence|]. reflexivity.
  - cbn [List.length Nat.eqb negb andb].
    split; [|split]; [intros _ Hq | intros _ Hq | discriminate].
    + rewrite Hq. reflexivity.
    + apply Z.eqb_neq in Hq. rewrite Hq. reflexivity.
Qed.

(** *** fillResult *)



(** *** searchShard *)

(** The store a shard call leaves: the header of the copy, at the first
    free address, carries the target node. *)
Definition shardStore (s : State) (nodeID : int64) (b : MsgBase) : ptr -> option MsgBase :=
  store_update (next s) (set_base_TargetID nodeID b) (store_update (next s) b (bases s)).

(** The request a shard call sends: the task's request with the header of
    the copy. *)
Definition sentRequest (s : State) (channel : string) : QuerySearchRequest :=
  shardRequest (set_sr_Base (Some (next s)) (SearchRequest_ (task s))) channel.

(** The state a shard call reaches before it looks at the reply. *)
Definition shardCallState (s : State) (nodeID : int64) (b : MsgBase) : State :=
  set_bases (shardStore s nodeID b)
    (set_next (S (next s)) (set_bases (store_update (next s) b (bases s)) s)).

(** The state after the insertion of [reply] into the result buffer, when
    the task has one. *)
Definition inserted (reply : option ShardResults) (s s1 : State) : State :=
  match resultBuf (task s) with
  | Some buf => set_task (set_resultBuf (Some (cs_Insert reply buf)) (task s)) s1
  | None => s1
  end.

Lemma searchShard_run (s : State) (nodeID : int64) (qn : QueryNodeClient) (channel : string)
    (p : ptr) (b : MsgBase) :
  sr_Base (SearchRequest_ (task s)) = Some p ->
  bases s p = Some b ->
  let s1 := shardCallState s nodeID b in
  let db := req_DbName (request (task s)) in
  let coll := collectionName (task s) in
  searchShard nodeID qn channel s =
    match qn (sentRequest s channel) (shardStore s nodeID b) with
    | ExtErr msg =>
        (Err (External msg), set_deprecatedShardCache ((db, coll) :: deprecatedShardCache s) s1)
    | ExtOk result0 =>
        match result_GetErrorCode result0 with
        | ErrorCode_NotShardLeader =>
            (Err errInvalidShardLeaders,
             set_deprecatedShardCache ((db, coll) :: deprecatedShardCache s) s1)
        | ErrorCode_Success =>
            match result0 with
            | Some reply =>
                (Ok tt,
                 set_costMetrics ((nodeID, shard_CostAggregation reply) :: costMetrics s)
                   (inserted result0 s s1))
            | None => (Panic, inserted result0 s s1)
            end
        | ErrorCode_Other _ =>
            (Err (errors_Wrapf (merr_Error (result_GetStatus result0))
                    "fail to search on QueryNode %d" nodeID), s1)
        end
    end.
Proof.
  intros Hp Hb s1 db coll.
  unfold searchShard, bind at 1. unfold getTask, gets at 1.
  unfold Clone. rewrite Hp.
  unfold bind, derefBase, alloc, modBaseOf, derefBase, modify, gets, ret. cbn.
  rewrite Hp, Hb. cbn. unfold bind. cbn.
  unfold store_update at 1. rewrite Nat.eqb_refl. cbn.
  fold (shardStore s nodeID b). fold (sentRequest s channel).
  destruct (qn (sentRequest s channel) (shardStore s nodeID b)) as [result0|msg];
    [|reflexivity].
  destruct (result_GetErrorCode result0); cbn; try reflexivity.
  unfold UpdateCostMetrics, modTask, modify, inserted, panic.
  destruct (resultBuf (task s)), result0; reflexivity.
Qed.

Lemma shardStore_old (s : State) (nodeID : int64) (b : MsgBase) (q : ptr) :
  (q < next s)%nat -> shardStore s nodeID b q = bases s q.
Proof.
  intros Hq. unfold shardStore, store_update.
  destruct (Nat.eqb_spec q (next s)); [lia | reflexivity].
Qed.

Lemma shardStore_new (s : State) (nodeID : int64) (b : MsgBase) :
  shardStore s nodeID b (next s) = Some (set_base_TargetID nodeID b).
Proof. unfold shardStore, store_update. rewrite Nat.eqb_refl. reflexivity. Qed.

Lemma set_resultBuf_same (t : searchTask) : set_resultBuf (resultBuf t) t = t.
Proof. destruct t; reflexivity. Qed.

(** C4 (amended): a per-shard call that got a reply or an error ends in
    one of four ways.  A reply
    whose status is "not shard leader" deprecates the shard routing of the
    collection and returns errInvalidShardLeaders.  An error of the RPC
    itself deprecates the shard routing and is returned as it is.  A reply
    with any other status that is not success is returned wrapped with the
    node, and the shard routing is not touched.  A successful reply is
    inserted into the result buffer (when the task has one) and its cost is
    reported to the load balancer. *)
Theorem searchShard_outcomes (s : State) (nodeID : int64) (qn : QueryNodeClient)
    (channel : string) (p : ptr) (b : MsgBase) :
  sr_Base (SearchRequest_ (task s)) = Some p ->
  bases s p = Some b ->
  let routing := (req_DbName (request (task s)), collectionName (task s)) in
  let answer := qn (sentRequest s channel) (shardStore s nodeID b) in
  let r := fst (searchShard nodeID qn channel s) in
  let s' := snd (searchShard nodeID qn channel s) in
  (forall reply, answer = ExtOk (Some reply) ->
     shard_GetErrorCode reply = ErrorCode_NotShardLeader ->
     r = Err errInvalidShardLeaders
     /\ deprecatedShardCache s' = routing :: deprecatedShardCache s
     /\ resultBuf (task s') = resultBuf (task s)
     /\ costMetrics s' = costMetrics s)
  /\ (forall msg, answer = ExtErr msg ->
        r = Err (External msg)
        /\ deprecatedShardCache s' = routing :: deprecatedShardCache s
        /\ resultBuf (task s') = resultBuf (task s)
        /\ costMetrics s' = costMetrics s)
  /\ (forall reply code, answer = ExtOk (Some reply) ->
        shard_GetErrorCode reply = ErrorCode_Other code ->
        r = Err (errors_Wrapf (merr_Error (shard_Status reply))
                   "fail to search on QueryNode %d" nodeID)
        /\ deprecatedShardCache s' = deprecatedShardCache s
        /\ resultBuf (task s') = resultBuf (task s)
        /\ costMetrics s' = costMetrics s)
  /\ (forall reply, answer = ExtOk (Some reply) ->
        shard_GetErrorCode reply = ErrorCode_Success ->
        r = Ok tt
        /\ deprecatedShardCache s' = deprecatedShardCache s
        /\ resultBuf (task s') = option_map (cs_Insert (Some reply)) (resultBuf (task s))
        /\ costMetrics s' = (nodeID, shard_CostAggregation reply) :: costMetrics s).
Proof.
  intros Hp Hb routing answer r s'.
  subst r s'. rewrite (searchShard_run s nodeID qn channel p b Hp Hb). cbv zeta.
  fold answer. subst routing.
  repeat split; intros;
    match goal with
    | H : answer = _ |- _ => rewrite H in *
    end;
    cbn [result_GetErrorCode result_GetStatus];
    try match goal with
    | H : shard_GetErrorCode _ = _ |- _ => rewrite H in *
    end; unfold inserted, shardCallState; cbn; try reflexivity;
    destruct (resultBuf (task s)) eqn:Hbuf; cbn; try rewrite Hbuf; reflexivity.
Qed.

(** C9: a per-shard call sets the target node in the header of a copy of
    the task's request: the request it sends points to a header that did not
    exist before, every header that existed is left as it was (the task's
    own header among them), the task's request is unchanged, and no field of
    the task other than the result buffer changes; the buffer gains the
    reply when the call succeeds, and the task is unchanged when the call
    returns an error.  (A call that panics got neither a reply nor an error:
    the nil reply went into the buffer.) *)
Theorem searchShard_frame (s : State) (nodeID : int64) (qn : QueryNodeClient)
    (channel : string) (p : ptr) (b : MsgBase) :
  sr_Base (SearchRequest_ (task s)) = Some p ->
  bases s p = Some b ->
  (p < next s)%nat ->
  let sent := sentRequest s channel in
  let r := fst (searchShard nodeID qn channel s) in
  let s' := snd (searchShard nodeID qn channel s) in
  (sr_Base (q_Req sent) = Some (next s)
   /\ set_sr_Base (Some p) (q_Req sent) = SearchRequest_ (task s)
   /\ bases s' (next s) = Some (set_base_TargetID nodeID b))
  /\ (forall q, (q < next s)%nat -> bases s' q = bases s q)
  /\ bases s' p = Some b
  /\ SearchRequest_ (task s') = SearchRequest_ (task s)
  /\ task s' = set_resultBuf (resultBuf (task s')) (task s)
  /\ (r = Ok tt ->
      exists reply, qn sent (bases s') = ExtOk (Some reply)
                    /\ resultBuf (task s')
                       = option_map (cs_Insert (Some reply)) (resultBuf (task s)))
  /\ (forall e, r = Err e -> task s' = task s)
  /\ (r = Panic ->
      qn sent (bases s') = ExtOk None
      /\ resultBuf (task s') = option_map (cs_Insert None) (resultBuf (task s))).
Proof.
  intros Hp Hb Hlt sent r s'.
  assert (Hbases : bases s' = shardStore s nodeID b).
  { subst s'. rewrite (searchShard_run s nodeID qn channel p b Hp Hb). cbv zeta.
    unfold inserted.
    destruct (qn _ _) as [result0|msg]; [|reflexivity].
    destruct (result_GetErrorCode result0); try reflexivity.
    destruct result0, (resultBuf (task s)); reflexivity. }
  assert (Hins : forall result0,
             task (inserted result0 s (shardCallState s nodeID b))
             = set_resultBuf (option_map (cs_Insert result0) (resultBuf (task s))) (task s)).
  { intros result0. unfold inserted.
    destruct (resultBuf (task s)) eqn:Hbuf; cbn.
    - reflexivity.
    - rewrite <- Hbuf. symmetry. apply set_resultBuf_same. }
  assert (Htask : (r = Ok tt ->
                   exists reply, qn sent (shardStore s nodeID b) = ExtOk (Some reply)
                     /\ task s' = set_resultBuf
                                    (option_map (cs_Insert (Some reply)) (resultBuf (task s)))
                                    (task s))
                  /\ (forall e, r = Err e -> task s' = task s)
                  /\ (r = Panic ->
                      qn sent (shardStore s nodeID b) = ExtOk None
                      /\ task s' = set_resultBuf
                                     (option_map (cs_Insert None) (resultBuf (task s)))
                                     (task s))).
  { subst r s'. rewrite (searchShard_run s nodeID qn channel p b Hp Hb). cbv zeta.
    fold sent. destruct (qn sent _) as [result0|msg].
    - destruct (result_GetErrorCode result0); cbn.
      + destruct result0 as [reply|]; cbn [fst snd].
        * split; [|split; [discriminate|discriminate]].
          intros _. exists reply. split; [reflexivity|]. apply Hins.
        * split; [discriminate|]. split; [discriminate|].
          intros _. split; [reflexivity|]. apply Hins.
      + split; [discriminate|]. split; [reflexivity | discriminate].
      + split; [discriminate|]. split; [reflexivity | discriminate].
    - cbn. split; [discriminate|]. split; [reflexivity | discriminate]. }
  destruct Htask as (Hok & Herr & Hpanic).
  assert (Hshape : task s' = set_resultBuf (resultBuf (task s')) (task s)).
  { destruct r as [[]|e|] eqn:Hr.
    - destruct (Hok eq_refl) as [reply [_ Ht]]. rewrite Ht. reflexivity.
    - rewrite (Herr e eq_refl). symmetry. apply set_resultBuf_same.
    - destruct (Hpanic eq_refl) as [_ Ht]. rewrite Ht. reflexivity. }
  split; [|split; [|split; [|split; [|split; [|split; [|split]]]]]].
  - split; [reflexivity|]. split.
    + subst sent. unfold sentRequest, shardRequest. cbn [q_Req].
      rewrite <- Hp. destruct (SearchRequest_ (task s)); reflexivity.
    + rewrite Hbases. apply shardStore_new.
  - intros q Hq. rewrite Hbases. apply shardStore_old. exact Hq.
  - rewrite Hbases, shardStore_old by exact Hlt. exact Hb.
  - rewrite Hshape. destruct (task s); reflexivity.
  - exact Hshape.
  - intros Hr. destruct (Hok Hr) as [reply [Hq Ht]]. exists reply.
    rewrite Hbases. split; [exact Hq|]. rewrite Ht. destruct (task s); reflexivity.
  - exact Herr.
  - intros Hr. destruct (Hpanic Hr) as [Hq Ht].
    rewrite Hbases. split; [exact Hq|]. rewrite Ht. destruct (task s); reflexivity.
Qed.

(** Shard calls run one after the other, in the order the load balancer
    starts them; the state is what they share. *)
Definition shardCalls (calls : list (int64 * QueryNodeClient * string)) (s : State) : State :=
  fold_left (fun s0 c => snd (searchShard (fst (fst c)) (snd (fst c)) (snd c) s0)) calls s.

Lemma searchShard_keeps_request (s : State) (nodeID : int64) (qn : QueryNodeClient)
    (channel : string) (p : ptr) (b : MsgBase) :
  sr_Base (SearchRequest_ (task s)) = Some p ->
  bases s p = Some b ->
  (p < next s)%nat ->
  let s' := snd (searchShard nodeID qn channel s) in
  SearchRequest_ (task s') = SearchRequest_ (task s)
  /\ bases s' p = Some b
  /\ (p < next s')%nat.
Proof.
  intros Hp Hb Hlt s'. subst s'.
  rewrite (searchShard_run s nodeID qn channel p b Hp Hb). cbv zeta.
  assert (Hold : shardStore s nodeID b p = Some b)
    by (rewrite shardStore_old by exact Hlt; exact Hb).
  unfold inserted.
  destruct (qn _ _) as [result0|msg]; [destruct (result_GetErrorCode result0)|];
    try destruct result0; try destruct (resultBuf (task s)); cbn;
    (split; [reflexivity|split; [exact Hold|lia]]).
Qed.

(** X3: however many shard calls ran, the request of the task and its
    header are as they were. *)
Lemma shardCalls_keep_request (calls : list (int64 * QueryNodeClient * string)) :
  forall (s : State) (p : ptr) (b : MsgBase),
  sr_Base (SearchRequest_ (task s)) = Some p ->
  bases s p = Some b ->
  (p < next s)%nat ->
  SearchRequest_ (task (shardCalls calls s)) = SearchRequest_ (task s)
  /\ bases (shardCalls calls s) p = Some b.
Proof.
  induction calls as [|[[nodeID qn] channel] rest IH]; intros s p b Hp Hb Hlt.
  - split; [reflexivity | exact Hb].
  - cbn [shardCalls fold_left fst snd].
    destruct (searchShard_keeps_request s nodeID qn channel p b Hp Hb Hlt) as (Hreq & Hb' & Hlt').
    fold (shardCalls rest (snd (searchShard nodeID qn channel s))).
    destruct (IH (snd (searchShard nodeID qn channel s)) p b) as (Hreq2 & Hb2).
    + rewrite Hreq. exact Hp.
    + exact Hb'.
    + exact Hlt'.
    + split; [rewrite Hreq2; exact Hreq | exact Hb2].
Qed.

(** *** checkNq *)

(** X1: what the loop of checkNq guarantees when it succeeds: every leg
    carries the nq it returns or zero, and none carries zero once a nq is
    known. *)
Lemma checkNq_loop_legs (reqs : list (SubSearchReq TemplateValues)) :
  forall (nq n : int64) (reqs' : list (SubSearchReq TemplateValues)),
  checkNq_loop nq reqs = (Ok n, reqs') ->
  Forall (fun leg => sub_Nq leg = n \/ sub_Nq leg = 0) reqs'
  /\ (nq <> 0 -> n = nq /\ Forall (fun leg => sub_Nq leg = n) reqs').
Proof.
  induction reqs as [|req rest IH]; intros nq n reqs' H; cbn [checkNq_loop] in H.
  - inversion H; subst. split; [constructor|]. intros _. split; [reflexivity | constructor].
  - destruct (getNqFromSubSearch req) as [subNq|msg]; [|discriminate].
    destruct (Z.eqb_spec nq 0) as [Hz|Hnz].
    + destruct (checkNq_loop subNq rest) as [r rest'] eqn:Hloop.
      inversion H; subst. destruct (IH _ _ _ Hloop) as [Hall Hnon].
      split; [|congruence].
      constructor; [|exact Hall].
      cbn. destruct (Z.eq_dec subNq 0) as [H0|H0]; [right; exact H0|].
      left. destruct (Hnon H0) as [Hn _]. symmetry. exact Hn.
    + destruct (Z.eqb_spec subNq nq) as [Heq|Hne]; cbn [negb] in H; [|discriminate].
      destruct (checkNq_loop nq rest) as [r rest'] eqn:Hloop.
      inversion H; subst. destruct (IH _ _ _ Hloop) as [Hall Hnon].
      destruct (Hnon Hnz) as [Hn Hall'].
      split.
      * constructor; [left; cbn; symmetry; exact Hn | exact Hall].
      * intros _. split; [exact Hn|]. constructor; [cbn; symmetry; exact Hn | exact Hall'].
Qed.

(** A leg without vectors ahead of a leg with five: the loop takes the
    nq of the second leg and lets the first pass. *)
Lemma checkNq_loop_zero_then_other (a b : SubSearchReq TemplateValues) (n : int64) :
  getNqFromSubSearch a = ExtOk 0 ->
  getNqFromSubSearch b = ExtOk n ->
  checkNq_loop 0 [a; b] = (Ok n, [set_sub_Nq 0 a; set_sub_Nq n b]).
Proof.
  intros Ha Hb. cbn [checkNq_loop]. rewrite Ha. cbn. rewrite Hb. cbn. reflexivity.
Qed.

(** *** Computations that only read the state *)

Lemma getTask_reads : reads getTask.
Proof. apply reads_gets. Qed.

Lemma getSR_reads : reads getSR.
Proof. apply reads_gets. Qed.

Lemma getSchema_reads : reads getSchema.
Proof. unfold getSchema. repeat (reads_step || apply getTask_reads). Qed.

Lemma tryGeneratePlan_reads params dsl tv : reads (tryGeneratePlan params dsl tv).
Proof.
  unfold tryGeneratePlan.
  repeat (reads_step || apply getTask_reads || apply getSR_reads || apply getSchema_reads).
Qed.

Lemma tryParsePartitionIDsFromPlan_reads plan : reads (tryParsePartitionIDsFromPlan plan).
Proof.
  unfold tryParsePartitionIDsFromPlan.
  repeat (reads_step || apply getTask_reads || apply getSR_reads || apply getSchema_reads).
Qed.

Lemma setQueryInfoIfMvEnable_reads queryInfo plan : reads (setQueryInfoIfMvEnable queryInfo plan).
Proof.
  unfold setQueryInfoIfMvEnable.
  repeat (reads_step || apply getTask_reads || apply getSR_reads || apply getSchema_reads).
Qed.

Lemma firstPassPlan_reads sch t plan : reads (firstPassPlan sch t plan).
Proof. unfold firstPassPlan. repeat reads_step. Qed.

Lemma getSchema_run (s : State) (sch : SchemaInfo) :
  schema (task s) = Some sch -> getSchema s = (Ok sch, s).
Proof.
  intros H. unfold getSchema, getTask, gets, bind. cbn. rewrite H. reflexivity.
Qed.

(** A proof that a computation of the task keeps an invariant on fields it
    does not write. *)
Ltac keeps_tac :=
  repeat first
    [ keeps_step
    | apply reads_keeps;
      first [ apply getTask_reads | apply getSR_reads | apply getSchema_reads
            | apply tryGeneratePlan_reads | apply tryParsePartitionIDsFromPlan_reads
            | apply setQueryInfoIfMvEnable_reads | apply firstPassPlan_reads ]
    | progress unfold modTask, modSR, getTask, getSR
    | progress cbv zeta
    | solve [cbn in *; auto] ].

Lemma callFunctionUdf_keeps_needRequery (v : bool) ctx0 ids :
  keeps (fun s => needRequery (task s) = v) (callFunctionUdf ctx0 ids).
Proof. unfold callFunctionUdf. keeps_tac. Qed.


(** *** setQueryInfoIfMvEnable *)

(** The check that the filter of a plan pins a single partition key: the
    expression is read from the plan and validated. *)
Definition isolationCheck (plan : PlanNode) : ext unit :=
  match ParseExprFromPlan plan with
  | ExtOk expr => ValidatePartitionKeyIsolation expr
  | ExtErr msg => ExtErr msg
  end.

(** The collection info the task reads from the meta cache. *)
Definition cachedInfo (s : State) : ext collectionInfo :=
  GetCollectionInfo (req_DbName (request (task s))) (collectionName (task s))
    (sr_CollectionID (SearchRequest_ (task s))).

Lemma setQueryInfoIfMvEnable_isolated (queryInfo : QueryInfo) (plan : PlanNode) (s : State)
    (sch : SchemaInfo) (info : collectionInfo) :
  enableMaterializedView (task s) = true ->
  schema (task s) = Some sch ->
  cachedInfo s = ExtOk info ->
  partitionKeyIsolation info = true ->
  fst (setQueryInfoIfMvEnable queryInfo plan s) =
    match GetPartitionKeyFieldSchema sch with
    | ExtErr msg => Err (External msg)
    | ExtOk field =>
        if IsFieldDataTypeSupportMaterializedView field then
          match isolationCheck plan with
          | ExtErr msg => Err (External msg)
          | ExtOk _ =>
              Ok (set_qi_MaterializedViewInvolved true (set_qi_Hints "disable" queryInfo))
          end
        else Err (errors_New "partition key field data type is not supported in materialized view")
    end.
Proof.
  unfold cachedInfo, isolationCheck. intros Hmv Hsch Hinfo Hiso.
  unfold setQueryInfoIfMvEnable, bind, getTask, getSchema, getSR, gets, call, ret, fail, panic.
  cbn. rewrite Hmv, Hsch. cbn.
  destruct (GetPartitionKeyFieldSchema sch) as [field|msg]; [|reflexivity]. cbn.
  destruct (IsFieldDataTypeSupportMaterializedView field); [|reflexivity]. cbn.
  rewrite Hinfo, Hiso. cbn.
  destruct (ParseExprFromPlan plan) as [expr|msg]; [|reflexivity]. cbn.
  destruct (ValidatePartitionKeyIsolation expr) as [[]|msg]; reflexivity.
Qed.

Lemma initSearchRequest_check_fails (ctx0 : Context) (s : State) (sch : SchemaInfo)
    (info : collectionInfo) (plan : PlanNode) (queryInfo : QueryInfo) (offset : int64)
    (iter : bool) (msg : string) :
  partitionKeyMode (task s) = true ->
  enableMaterializedView (task s) = true ->
  schema (task s) = Some sch ->
  cachedInfo s = ExtOk info ->
  partitionKeyIsolation info = true ->
  fst (tryGeneratePlan (req_SearchParams (request (task s))) (req_Dsl (request (task s)))
         (req_ExprTemplateValues (request (task s))) s) = Ok (plan, queryInfo, offset, iter) ->
  isolationCheck plan = ExtErr msg ->
  exists e, fst (initSearchRequest ctx0 s) = Err e.
Proof.
  intros Hpk Hmv Hsch Hinfo Hiso Hgen Hcheck.
  unfold initSearchRequest.
  rewrite bind_run. cbn [getTask gets fst snd].
  rewrite bind_run, Hgen, tryGeneratePlan_reads.
  rewrite bind_run, getSchema_run with (sch := sch) by exact Hsch. cbn [fst snd].
  rewrite bind_run.
  match goal with
  | |- context [fst (?block s)] =>
      assert (Hk : keeps (fun s1 => partitionKeyMode (task s1) = true
                                    /\ enableMaterializedView (task s1) = true
                                    /\ schema (task s1) = Some sch
                                    /\ cachedInfo s1 = ExtOk info) block)
        by (unfold cachedInfo; keeps_tac);
      assert (Hnp : fst (block s) <> Panic);
      [| specialize (Hk s (conj Hpk (conj Hmv (conj Hsch Hinfo))));
         destruct (fst (block s)) as [u|e|]; [|eexists; reflexivity|congruence];
         generalize dependent (snd (block s)) ]
  end.
  { destruct (req_FunctionScore (request (task s))) as [desc|]; [|discriminate].
    rewrite bind_run. destruct (NewFunctionScore sch desc) as [fs|m]; cbn; [|discriminate].
    destruct (negb _ && _); discriminate. }
  intros s1 (Hpk1 & Hmv1 & Hsch1 & Hinfo1).
  rewrite bind_run. cbn [modTask modify fst snd].
  rewrite bind_run. cbn [modSR modTask modify fst snd].
  rewrite bind_run. cbn [modSR modTask modify fst snd].
  rewrite bind_run. cbn [getTask gets fst snd].
  cbn [task set_task partitionKeyMode set_SearchRequest set_isIterator].
  rewrite Hpk1.
  match goal with
  | |- exists e, fst (bind _ _ ?s2) = Err e =>
      assert (Hfail : exists e, fst (setQueryInfoIfMvEnable queryInfo plan s2) = Err e)
  end.
  { rewrite setQueryInfoIfMvEnable_isolated with (sch := sch) (info := info);
      [| exact Hmv1 | exact Hsch1 | exact Hinfo1 | exact Hiso].
    rewrite Hcheck.
    destruct (GetPartitionKeyFieldSchema sch) as [field|m]; [|eexists; reflexivity].
    destruct (IsFieldDataTypeSupportMaterializedView field); eexists; reflexivity. }
  destruct Hfail as [e He]. exists e.
  rewrite bind_run, bind_run, He. reflexivity.
Qed.

(** X2: a single search in partition key mode whose compiled filter does
    not pin one partition key ends request composition with an error. *)
Lemma initSearchRequest_isolation_violated (ctx0 : Context) (s : State) (sch : SchemaInfo)
    (info : collectionInfo) (plan : PlanNode) (queryInfo : QueryInfo) (offset : int64)
    (iter : bool) (msg : string) :
  partitionKeyMode (task s) = true ->
  enableMaterializedView (task s) = true ->
  schema (task s) = Some sch ->
  cachedInfo s = ExtOk info ->
  partitionKeyIsolation info = true ->
  fst (tryGeneratePlan (req_SearchParams (request (task s))) (req_Dsl (request (task s)))
         (req_ExprTemplateValues (request (task s))) s) = Ok (plan, queryInfo, offset, iter) ->
  isolationCheck plan = ExtErr msg ->
  exists e, fst (initSearchRequest ctx0 s) = Err e.
Proof. apply initSearchRequest_check_fails. Qed.

(** *** needRequery *)


Definition nonEmpty {A} (l : list A) : bool := (0 <? List.length l)%nat.


Lemma initSearchRequest_needRequery (ctx0 : Context) (s : State) (sch : SchemaInfo) :
  schema (task s) = Some sch ->
  fst (initSearchRequest ctx0 s) = Ok tt ->
  needRequery (task (snd (initSearchRequest ctx0 s))) =
    nonEmpty (vectorOutputFields sch (task s)).
Proof.
  intros Hsch H. unfold initSearchRequest in H |- *.
  ok_step H t Ht. cbn in Ht. inversion Ht; subst t; clear Ht. cbn [getTask gets snd] in H |- *.
  ok_step H gen Hgen. rewrite tryGeneratePlan_reads in H |- *.
  destruct gen as [[[plan queryInfo] offset] isIterator0].
  ok_step H sch' Hsch'. rewrite getSchema_reads in H |- *.
  rewrite getSchema_run with (sch := sch) in Hsch' by exact Hsch.
  inversion Hsch'; subst sch'; clear Hsch'.
  ok_step H u Hu.
  match type of Hu with
  | fst (?block s) = _ =>
      assert (Hk1 : keeps (fun s1 => schema (task s1) = Some sch
                                     /\ translatedOutputFields (task s1) = translatedOutputFields (task s))
                          block) by keeps_tac;
      specialize (Hk1 s (conj Hsch eq_refl));
      generalize dependent (snd (block s))
  end.
  intros s1 H [Hsch1 Htof1]. clear Hu.
  ok_step H u1 Hu1. cbn [modTask modify snd] in H |- *. clear Hu1.
  ok_step H u2 Hu2. cbn [modSR modTask modify snd] in H |- *. clear Hu2.
  ok_step H u3 Hu3. cbn [modSR modTask modify snd] in H |- *. clear Hu3.
  ok_step H t Ht. cbn in Ht. inversion Ht; subst t; clear Ht. cbn [getTask gets snd] in H |- *.
  ok_step H queryInfo' Hq.
  match type of Hq with
  | fst (?block ?s0) = _ =>
      assert (Hk2 : keeps (fun s2 => schema (task s2) = Some sch
                                     /\ translatedOutputFields (task s2) = translatedOutputFields (task s))
                          block) by keeps_tac;
      specialize (Hk2 s0 (conj Hsch1 Htof1));
      generalize dependent (snd (block s0))
  end.
  intros s2 H [Hsch2 Htof2]. clear Hq.
  ok_step H sch' Hsch'. rewrite getSchema_reads in H |- *.
  rewrite getSchema_run with (sch := sch) in Hsch' by exact Hsch2.
  inversion Hsch'; subst sch'; clear Hsch'.
  ok_step H t Ht. cbn in Ht. inversion Ht; subst t; clear Ht. cbn [getTask gets snd] in H |- *.
  ok_step H u4 Hu4. cbn [modTask modify snd] in H |- *. clear Hu4 H.
  match goal with
  | |- needRequery (task (snd (?tail ?s0))) = ?v =>
      refine (_ : (fun s3 => needRequery (task s3) = v) (snd (tail s0)));
      assert (Hkeeps : keeps (fun s3 => needRequery (task s3) = v) tail)
  end.
  { pose proof callFunctionUdf_keeps_needRequery as Hudf. keeps_tac. }
  apply Hkeeps. cbn. unfold nonEmpty, vectorOutputFields. rewrite Htof2. reflexivity.
Qed.



(** *** PreExecute *)

(** The fields of the request that the steps after the resolution of the
    guarantee timestamp leave alone. *)
Definition resolved (s : State) : Timestamp * Timestamp * bool * MilvusSearchRequest :=
  (sr_GuaranteeTimestamp (SearchRequest_ (task s)), sr_MvccTimestamp (SearchRequest_ (task s)),
   isIterator (task s), request (task s)).

Lemma after_resolution_keeps v ctx0 info :
  keeps (fun s => resolved s = v)
        (setTimeoutAndUser ctx0 ;; checkCollectionTTL info ;; finishPreExecute).
Proof.
  unfold setTimeoutAndUser, checkCollectionTTL, finishPreExecute, resolved. keeps_tac.
Qed.

Lemma BeginTs_reads : reads BeginTs.
Proof.
  unfold BeginTs, derefBase. repeat (reads_step || apply getSR_reads).
  intros s. destruct (sr_Base a); [|reflexivity]. destruct (bases s p); reflexivity.
Qed.

(** The guarantee timestamp [resolveGuaranteeTs] writes: the timestamp of
    the consistency level raised to the schema update of the collection,
    unless the task is an iterator that carries a timestamp. *)
Definition guaranteeTsOf (t : searchTask) (beginTs : Timestamp) (info : collectionInfo) : Timestamp :=
  if isIterator t && (0 <? req_GuaranteeTimestamp (request t))
  then req_GuaranteeTimestamp (request t)
  else Z.max (fst (resolveConsistency (request t) beginTs info)) (updateTimestamp info).

Lemma resolveGuaranteeTs_run (info : collectionInfo) (s : State) (beginTs : Timestamp) :
  fst (BeginTs s) = Ok beginTs ->
  fst (resolveGuaranteeTs info s) = Ok tt
  /\ resolved (snd (resolveGuaranteeTs info s)) =
       (guaranteeTsOf (task s) beginTs info,
        (if isIterator (task s) && (0 <? req_GuaranteeTimestamp (request (task s)))
         then req_GuaranteeTimestamp (request (task s))
         else sr_MvccTimestamp (SearchRequest_ (task s))),
        isIterator (task s), request (task s)).
Proof.
  intros Hb. unfold resolveGuaranteeTs, guaranteeTsOf.
  rewrite bind_run. cbn [getTask gets fst snd].
  rewrite bind_run, Hb, BeginTs_reads.
  destruct (resolveConsistency (request (task s)) beginTs info) as [T level].
  cbn [fst].
  assert (Hmax : (if T <? updateTimestamp info then updateTimestamp info else T)
                 = Z.max T (updateTimestamp info)).
  { destruct (Z.ltb_spec T (updateTimestamp info)); lia. }
  rewrite Hmax.
  destruct (isIterator (task s) && (0 <? req_GuaranteeTimestamp (request (task s)))) eqn:Hpin;
    cbn; split; reflexivity.
Qed.

(** C1 (amended): when PreExecute succeeds, the guarantee timestamp of the
    internal request is the greater of the timestamp the consistency level
    resolves to and the schema update timestamp of the collection, unless
    the task is an iterator whose request carries a guarantee timestamp:
    then that timestamp is the guarantee timestamp and the MVCC timestamp,
    whatever the schema update timestamp is. *)
Theorem PreExecute_guarantee_timestamp (ctx0 : Context) (s : State) :
  fst (PreExecute ctx0 s) = Ok tt ->
  exists info beginTs,
    let s0 := snd (prepareRequest ctx0 s) in
    let s' := snd (PreExecute ctx0 s) in
    let T := fst (resolveConsistency (request (task s0)) beginTs info) in
    let U := updateTimestamp info in
    let G := sr_GuaranteeTimestamp (SearchRequest_ (task s')) in
    let pinned := isIterator (task s0) && (0 <? req_GuaranteeTimestamp (request (task s0))) in
    fst (prepareRequest ctx0 s) = Ok info
    /\ fst (BeginTs s0) = Ok beginTs
    /\ (pinned = false -> G = Z.max T U /\ T <= G /\ U <= G)
    /\ (pinned = true ->
        G = req_GuaranteeTimestamp (request (task s0))
        /\ sr_MvccTimestamp (SearchRequest_ (task s')) = req_GuaranteeTimestamp (request (task s0))).
Proof.
  intros H. unfold PreExecute in H |- *.
  ok_step H info Hinfo. exists info.
  set (s0 := snd (prepareRequest ctx0 s)) in *.
  destruct (bind_Ok_inv _ _ _ _ H) as [u [Hu _]].
  assert (Hb : exists beginTs, fst (BeginTs s0) = Ok beginTs).
  { unfold resolveGuaranteeTs in Hu. rewrite bind_run in Hu. cbn [getTask gets fst snd] in Hu.
    rewrite bind_run in Hu. destruct (fst (BeginTs s0)) as [b|e|]; try discriminate.
    exists b. reflexivity. }
  destruct Hb as [beginTs Hb]. exists beginTs. cbv zeta.
  destruct (resolveGuaranteeTs_run info s0 beginTs Hb) as [Hok Hres].
  rewrite (bind_Ok _ _ _ _ Hok).
  pose proof (after_resolution_keeps _ ctx0 info _ Hres) as Hkeep.
  unfold resolved in Hkeep.
  pose proof (f_equal (fun v => fst (fst (fst v))) Hkeep) as HG.
  pose proof (f_equal (fun v => snd (fst (fst v))) Hkeep) as HM.
  cbn [fst snd] in HG, HM. clear Hkeep.
  rewrite HG, HM. unfold guaranteeTsOf.
  split; [exact Hinfo|]. split; [exact Hb|]. split; intros Hpin; rewrite Hpin.
  - split; [reflexivity|]. lia.
  - split; reflexivity.
Qed.

(** [PreExecute] up to the check of the collection's time to live. *)
Definition beforeTTL (ctx0 : Context) : M collectionInfo :=
  info <- prepareRequest ctx0 ;;
  resolveGuaranteeTs info ;;
  setTimeoutAndUser ctx0 ;;
  ret info.

Lemma PreExecute_beforeTTL (ctx0 : Context) (s : State) :
  PreExecute ctx0 s =
    bind (beforeTTL ctx0) (fun info => checkCollectionTTL info ;; finishPreExecute) s.
Proof.
  unfold PreExecute, beforeTTL. rewrite !bind_assoc.
  rewrite (bind_run (prepareRequest ctx0)). symmetry. rewrite (bind_run (prepareRequest ctx0)).
  destruct (fst (prepareRequest ctx0 s)) as [info|e|]; try reflexivity.
  rewrite !bind_assoc.
  rewrite (bind_run (resolveGuaranteeTs info)). symmetry. rewrite (bind_run (resolveGuaranteeTs info)).
  destruct (fst (resolveGuaranteeTs info _)) as [u|e|]; try reflexivity.
  rewrite !bind_assoc.
  rewrite (bind_run (setTimeoutAndUser ctx0)). symmetry. rewrite (bind_run (setTimeoutAndUser ctx0)).
  destruct (fst (setTimeoutAndUser ctx0 _)) as [u'|e|]; reflexivity.
Qed.

Lemma finishPreExecute_run (s : State) :
  finishPreExecute s =
    (match ValidateTask (set_resultBuf (Some cs_New) (task s)) with
     | ExtOk u => Ok u
     | ExtErr msg => Err (External msg)
     end,
     set_task (set_resultBuf (Some cs_New) (task s)) s).
Proof.
  unfold finishPreExecute, bind, modTask, modify, getTask, gets, call. cbn.
  destruct (ValidateTask _); reflexivity.
Qed.

(** The state in which the expiry cutoff is recorded on the request. *)
Definition withCutoff (info : collectionInfo) (s : State) : State :=
  set_task
    (set_SearchRequest
       (set_sr_CollectionTtlTimestamps (ttlCutoff (GetBaseTimestamp s) (collectionTTL info))
          (SearchRequest_ (task s)))
       (task s))
    s.

Lemma checkCollectionTTL_run (info : collectionInfo) (s : State) :
  collectionTTL info <> 0 ->
  (checkCollectionTTL info ;; finishPreExecute) s =
    if GetBaseTimestamp s <? ttlCutoff (GetBaseTimestamp s) (collectionTTL info)
    then (Err ttlOverflow, withCutoff info s)
    else finishPreExecute (withCutoff info s).
Proof.
  intros Httl. apply Z.eqb_neq in Httl.
  unfold checkCollectionTTL. rewrite Httl. cbn [negb].
  unfold bind, gets, modSR, modTask, modify, getSR, fail, ret. cbn.
  fold (withCutoff info s).
  change (GetBaseTimestamp (withCutoff info s)) with (GetBaseTimestamp s).
  destruct (GetBaseTimestamp s <? ttlCutoff (GetBaseTimestamp s) (collectionTTL info));
    reflexivity.
Qed.

(** C8: for a task that reaches the check of a collection with a time to
    live that is not zero, PreExecute records on the request the cutoff
    computed from the task's timestamp and the time to live, and it ends
    with the service-internal overflow error exactly when the cutoff is
    above the task's timestamp (the result buffer is then not created);
    otherwise it goes on: it creates the result buffer and ends with what
    the validation of the task says. *)
Theorem PreExecute_collection_ttl (ctx0 : Context) (s : State) (info : collectionInfo) :
  fst (beforeTTL ctx0 s) = Ok info ->
  collectionTTL info <> 0 ->
  let s1 := snd (beforeTTL ctx0 s) in
  let base := GetBaseTimestamp s1 in
  let cutoff := ttlCutoff base (collectionTTL info) in
  let r := fst (PreExecute ctx0 s) in
  let s' := snd (PreExecute ctx0 s) in
  sr_CollectionTtlTimestamps (SearchRequest_ (task s')) = cutoff
  /\ (r = Err ttlOverflow <-> base < cutoff)
  /\ (base < cutoff -> resultBuf (task s') = resultBuf (task s1))
  /\ (cutoff <= base ->
      resultBuf (task s') = Some cs_New
      /\ r = match ValidateTask (task s') with
             | ExtOk u => Ok u
             | ExtErr msg => Err (External msg)
             end).
Proof.
  intros Hbefore Httl s1 base cutoff r s'.
  subst r s'. rewrite PreExecute_beforeTTL.
  rewrite bind_run, Hbefore. fold s1.
  rewrite (checkCollectionTTL_run info s1 Httl). fold base. fold cutoff.
  destruct (Z.ltb_spec base cutoff) as [Hlt|Hge].
  - cbn. split; [reflexivity|]. split; [tauto|]. split; [reflexivity|]. lia.
  - rewrite finishPreExecute_run. cbn.
    split; [reflexivity|]. split.
    + split; [|lia]. destruct (ValidateTask _); discriminate.
    + split; [lia|]. intros _. split; reflexivity.
Qed.

(** *** The header of the task *)

(** The request of the task points to the header [b], allocated at [p]. *)
Definition hasHeader (s : State) (p : ptr) (b : MsgBase) : Prop :=
  sr_Base (SearchRequest_ (task s)) = Some p /\ bases s p = Some b /\ (p < next s)%nat.

Lemma store_update_same (p : ptr) (b : MsgBase) (h : ptr -> option MsgBase) :
  store_update p b h p = Some b.
Proof. unfold store_update. rewrite Nat.eqb_refl. reflexivity. Qed.

Lemma store_update_other (p q : ptr) (b : MsgBase) (h : ptr -> option MsgBase) :
  q <> p -> store_update p b h q = h q.
Proof. intros H. unfold store_update. destruct (Nat.eqb_spec q p); congruence. Qed.

Lemma derefBase_run (s : State) (p : ptr) (b : MsgBase) :
  hasHeader s p b -> derefBase (SearchRequest_ (task s)) s = (Ok (p, b), s).
Proof. intros (Hp & Hb & _). unfold derefBase. rewrite Hp, Hb. reflexivity. Qed.

Lemma modBase_run (s : State) (p : ptr) (b : MsgBase) (f : MsgBase -> MsgBase) :
  hasHeader s p b ->
  modBase f s = (Ok tt, set_bases (store_update p (f b) (bases s)) s).
Proof.
  intros H. unfold modBase, modBaseOf, getSR, gets, bind at 1.
  unfold bind. rewrite (derefBase_run s p b H). reflexivity.
Qed.

Lemma hasHeader_modBase (s : State) (p : ptr) (b : MsgBase) (f : MsgBase -> MsgBase) :
  hasHeader s p b -> hasHeader (snd (modBase f s)) p (f b).
Proof.
  intros H. rewrite (modBase_run s p b f H). destruct H as (Hp & Hb & Hlt).
  unfold hasHeader, store_update. cbn. rewrite Nat.eqb_refl. tauto.
Qed.

Lemma ID_run (s : State) (p : ptr) (b : MsgBase) :
  hasHeader s p b -> ID s = (Ok (base_MsgID b), s).
Proof.
  intros H. unfold ID, getSR, gets, bind at 1. unfold bind.
  rewrite (derefBase_run s p b H). reflexivity.
Qed.

Lemma BeginTs_run (s : State) (p : ptr) (b : MsgBase) :
  hasHeader s p b -> BeginTs s = (Ok (base_Timestamp b), s).
Proof.
  intros H. unfold BeginTs, getSR, gets, bind at 1. unfold bind.
  rewrite (derefBase_run s p b H). reflexivity.
Qed.

Lemma EndTs_run (s : State) (p : ptr) (b : MsgBase) :
  hasHeader s p b -> EndTs s = (Ok (base_Timestamp b), s).
Proof. exact (BeginTs_run s p b). Qed.

Lemma Type_run (s : State) (p : ptr) (b : MsgBase) :
  hasHeader s p b -> Type_ s = (Ok (base_MsgType b), s).
Proof.
  intros H. unfold Type_, getSR, gets, bind at 1. unfold bind.
  rewrite (derefBase_run s p b H). reflexivity.
Qed.

(** X4: on a task with a header, the identifier and the timestamp are two
    independent cells of the header.  SetID followed by ID gives the
    identifier back and leaves the timestamp and the message type; SetTs
    followed by BeginTs or EndTs gives the timestamp back and leaves the
    identifier and the message type.  Both write the header of the task and
    nothing else. *)
Theorem header_accessors_round_trip (s : State) (p : ptr) (b : MsgBase)
    (uid : UniqueID) (ts : Timestamp) :
  hasHeader s p b ->
  let s1 := snd (SetID uid s) in
  let s2 := snd (SetTs ts s) in
  (fst (SetID uid s) = Ok tt
   /\ fst (ID s1) = Ok uid
   /\ fst (BeginTs s1) = fst (BeginTs s)
   /\ fst (Type_ s1) = fst (Type_ s))
  /\ (fst (SetTs ts s) = Ok tt
      /\ fst (BeginTs s2) = Ok ts
      /\ fst (EndTs s2) = Ok ts
      /\ fst (ID s2) = fst (ID s)
      /\ fst (Type_ s2) = fst (Type_ s))
  /\ (task s1 = task s /\ task s2 = task s)
  /\ (forall q, q <> p -> bases s1 q = bases s q /\ bases s2 q = bases s q).
Proof.
  intros H s1 s2.
  pose proof (hasHeader_modBase s p b (set_base_MsgID uid) H) as H1.
  pose proof (hasHeader_modBase s p b (set_base_Timestamp ts) H) as H2.
  fold (SetID uid) in H1. fold (SetTs ts) in H2. fold s1 in H1. fold s2 in H2.
  rewrite (ID_run s1 _ _ H1), (BeginTs_run s1 _ _ H1), (Type_run s1 _ _ H1).
  rewrite (ID_run s2 _ _ H2), (BeginTs_run s2 _ _ H2), (EndTs_run s2 _ _ H2), (Type_run s2 _ _ H2).
  rewrite (ID_run s _ _ H), (BeginTs_run s _ _ H), (Type_run s _ _ H).
  subst s1 s2. unfold SetID, SetTs.
  rewrite !(modBase_run s p b _ H). cbn.
  repeat split; try reflexivity;
    unfold store_update; destruct (Nat.eqb_spec q p); congruence.
Qed.

(** X5: OnEnqueue never fails.  It gives the task a header of its own, at
    an address that was not in use: a new message header with the type
    Search and this node as its source.  The headers that existed are left
    as they were, the old header of the task among them, and nothing of the
    task changes but the pointer to its header; what SetID or SetTs wrote
    into an earlier header is not carried over. *)
Theorem OnEnqueue_fresh_header (s : State) :
  let s' := snd (OnEnqueue s) in
  let header := set_base_SourceID GetNodeID (set_base_MsgType MsgType_Search NewMsgBase) in
  fst (OnEnqueue s) = Ok tt
  /\ sr_Base (SearchRequest_ (task s')) = Some (next s)
  /\ bases s' (next s) = Some header
  /\ next s' = S (next s)
  /\ (forall q, q <> next s -> bases s' q = bases s q)
  /\ task s' = set_SearchRequest (set_sr_Base (Some (next s)) (SearchRequest_ (task s))) (task s)
  /\ fst (Type_ s') = Ok MsgType_Search
  /\ fst (ID s') = Ok (base_MsgID NewMsgBase)
  /\ fst (BeginTs s') = Ok (base_Timestamp NewMsgBase).
Proof.
  intros s' header.
  assert (Hrun : OnEnqueue s =
                 (Ok tt,
                  mkState (set_SearchRequest (set_sr_Base (Some (next s)) (SearchRequest_ (task s)))
                                             (task s))
                          (store_update (next s) header
                             (store_update (next s) (set_base_MsgType MsgType_Search NewMsgBase)
                                (store_update (next s) NewMsgBase (bases s))))
                          (S (next s)) (deprecatedShardCache s) (costMetrics s))).
  { unfold OnEnqueue. rewrite bind_run. cbn [alloc fst snd].
    rewrite bind_run. cbn [modSR modTask modify fst snd].
    match goal with
    | |- context [bind (modBase _) _ ?s1] =>
        assert (H1 : hasHeader s1 (next s) NewMsgBase)
          by (unfold hasHeader; cbn; rewrite store_update_same; repeat split; lia);
        pose proof (hasHeader_modBase _ _ _ (set_base_MsgType MsgType_Search) H1) as H2;
        rewrite (modBase_run _ _ _ (set_base_MsgType MsgType_Search) H1) in H2;
        rewrite bind_run, (modBase_run _ _ _ (set_base_MsgType MsgType_Search) H1)
    end.
    cbn [fst snd] in H2 |- *.
    rewrite bind_run, (modBase_run _ _ _ (set_base_SourceID GetNodeID) H2).
    reflexivity. }
  assert (Hheader : hasHeader s' (next s) header).
  { subst s'. rewrite Hrun. unfold hasHeader. cbn.
    rewrite store_update_same. repeat split. lia. }
  rewrite (Type_run s' _ _ Hheader), (ID_run s' _ _ Hheader), (BeginTs_run s' _ _ Hheader).
  destruct Hheader as (Hp & Hb & _).
  split; [rewrite Hrun; reflexivity|]. split; [exact Hp|]. split; [exact Hb|].
  subst s'. rewrite Hrun. cbn.
  repeat split.
  intros q Hq. rewrite !store_update_other by exact Hq. reflexivity.
Qed.

(** X6: a task that was not enqueued has no header, and every method that
    reads or writes the header panics on it: the accessors, PreExecute
    (which sets the message type first), the per-shard call and Execute. *)
Theorem methods_panic_without_header (s : State) (ctx0 : Context) (lb : LBPolicy)
    (uid : UniqueID) (ts : Timestamp) (nodeID : int64) (qn : QueryNodeClient) (channel : string) :
  sr_Base (SearchRequest_ (task s)) = None ->
  fst (ID s) = Panic
  /\ fst (SetID uid s) = Panic
  /\ fst (BeginTs s) = Panic
  /\ fst (EndTs s) = Panic
  /\ fst (SetTs ts s) = Panic
  /\ fst (Type_ s) = Panic
  /\ fst (PreExecute ctx0 s) = Panic
  /\ fst (searchShard nodeID qn channel s) = Panic
  /\ fst (Execute lb ctx0 s) = Panic.
Proof.
  intros Hnil.
  assert (Hderef : forall s0, sr_Base (SearchRequest_ (task s0)) = None ->
                              derefBase (SearchRequest_ (task s0)) s0 = (Panic, s0)).
  { intros s0 H0. unfold derefBase. rewrite H0. reflexivity. }
  assert (Hmod : forall f s0, sr_Base (SearchRequest_ (task s0)) = None ->
                              modBase f s0 = (Panic, s0)).
  { intros f s0 H0. unfold modBase, modBaseOf, getSR, gets, bind at 1. unfold bind.
    rewrite (Hderef s0 H0). reflexivity. }
  assert (Hid : ID s = (Panic, s)).
  { unfold ID, getSR, gets, bind at 1. unfold bind. rewrite (Hderef s Hnil). reflexivity. }
  repeat split.
  - rewrite Hid. reflexivity.
  - unfold SetID. rewrite Hmod by exact Hnil. reflexivity.
  - unfold BeginTs, getSR, gets, bind at 1. unfold bind. rewrite (Hderef s Hnil). reflexivity.
  - unfold EndTs, getSR, gets, bind at 1. unfold bind. rewrite (Hderef s Hnil). reflexivity.
  - unfold SetTs. rewrite Hmod by exact Hnil. reflexivity.
  - unfold Type_, getSR, gets, bind at 1. unfold bind. rewrite (Hderef s Hnil). reflexivity.
  - unfold PreExecute, prepareRequest, resolveCollection.
    rewrite !bind_assoc. rewrite bind_run. cbn [getTask gets fst snd].
    rewrite !bind_assoc. rewrite bind_run. cbn [modSR modTask modify fst snd].
    rewrite !bind_assoc. rewrite bind_run. rewrite Hmod; [reflexivity|].
    cbn. destruct (task s); exact Hnil.
  - unfold searchShard, Clone. rewrite bind_run. cbn [getTask gets fst snd].
    rewrite Hnil. rewrite bind_run. cbn [ret fst snd].
    rewrite bind_run. unfold modBaseOf. rewrite bind_run.
    unfold derefBase. rewrite Hnil. reflexivity.
  - unfold Execute. rewrite bind_run, Hid. reflexivity.
Qed.

(** *** CanSkipAllocTimestamp *)

(** X7: CanSkipAllocTimestamp only reads the task and always gives an
    answer.  For a request with a consistency level of its own the answer
    is yes exactly when the level is not Strong or the request carries a
    guarantee timestamp; for a request that takes the default of the
    collection it is yes exactly when the meta cache knows the collection
    and its level is not Strong, so a lookup that fails answers no. *)
Theorem CanSkipAllocTimestamp_cases (s : State) :
  let req := request (task s) in
  snd (CanSkipAllocTimestamp s) = s
  /\ exists answer,
       fst (CanSkipAllocTimestamp s) = Ok answer
       /\ (req_UseDefaultConsistency req = false ->
           (answer = true <->
            req_ConsistencyLevel req <> ConsistencyLevel_Strong
            \/ 0 < req_GuaranteeTimestamp req))
       /\ (req_UseDefaultConsistency req = true ->
           (answer = true <->
            exists collID info,
              GetCollectionID (req_DbName req) (req_CollectionName req) = ExtOk collID
              /\ GetCollectionInfo (req_DbName req) (req_CollectionName req) collID = ExtOk info
              /\ consistencyLevel info <> ConsistencyLevel_Strong)).
Proof.
  intros req. unfold CanSkipAllocTimestamp.
  rewrite !bind_run. cbn [getTask gets fst snd]. fold req.
  destruct (req_UseDefaultConsistency req) eqn:Hdefault; cbn [negb].
  - destruct (GetCollectionID (req_DbName req) (req_CollectionName req)) as [collID|msg] eqn:Hid.
    + destruct (GetCollectionInfo (req_DbName req) (req_CollectionName req) collID)
        as [info|msg] eqn:Hinfo.
      * split; [reflexivity|]. eexists. split; [reflexivity|]. split; [discriminate|].
        intros _. rewrite negb_true_iff, Z.eqb_neq. split.
        -- intros Hne. exists collID, info. tauto.
        -- intros (collID' & info' & Hid' & Hinfo' & Hne).
           inversion Hid'; subst collID'. rewrite Hinfo in Hinfo'. inversion Hinfo'; subst info'.
           exact Hne.
      * split; [reflexivity|]. eexists. split; [reflexivity|]. split; [discriminate|].
        intros _. split; [discriminate|].
        intros (collID' & info' & Hid' & Hinfo' & _).
        inversion Hid'; subst collID'. rewrite Hinfo in Hinfo'. discriminate.
    + split; [reflexivity|]. eexists. split; [reflexivity|]. split; [discriminate|].
      intros _. split; [discriminate|].
      intros (collID' & info' & Hid' & _). discriminate.
  - destruct (Z.eqb_spec (req_ConsistencyLevel req) ConsistencyLevel_Strong) as [Hs|Hs];
      destruct (Z.ltb_spec 0 (req_GuaranteeTimestamp req)) as [Hg|Hg]; cbn;
      (split; [reflexivity|]); eexists; (split; [reflexivity|]);
      (split; [|discriminate]); intros _; split; try tauto; try discriminate.
    intros [H|H]; [contradiction | lia].
Qed.

(** *** setQueryInfoIfMvEnable outside the isolation check *)

(** X8: what setQueryInfoIfMvEnable does when no isolation check is due.
    With materialized views disabled the query info is returned as it
    came.  With materialized views enabled, a partition key field that
    cannot be found or whose type is not supported is an error; when the
    collection info cannot be read from the meta cache the call ends
    without an error and without marking the query info; on a collection
    without partition key isolation the query info is marked as involving
    a materialized view and its hints are kept, whatever the plan is. *)
Theorem setQueryInfoIfMvEnable_without_isolation (queryInfo : QueryInfo) (plan : PlanNode)
    (s : State) (sch : SchemaInfo) :
  schema (task s) = Some sch ->
  let r := fst (setQueryInfoIfMvEnable queryInfo plan s) in
  (enableMaterializedView (task s) = false -> r = Ok queryInfo)
  /\ (enableMaterializedView (task s) = true ->
      (forall msg, GetPartitionKeyFieldSchema sch = ExtErr msg -> r = Err (External msg))
      /\ (forall field, GetPartitionKeyFieldSchema sch = ExtOk field ->
            (IsFieldDataTypeSupportMaterializedView field = false ->
             r = Err (errors_New "partition key field data type is not supported in materialized view"))
            /\ (IsFieldDataTypeSupportMaterializedView field = true ->
                (forall msg, cachedInfo s = ExtErr msg -> r = Ok queryInfo)
                /\ (forall info, cachedInfo s = ExtOk info ->
                      partitionKeyIsolation info = false ->
                      r = Ok (set_qi_MaterializedViewInvolved true queryInfo)
                      /\ qi_Hints (set_qi_MaterializedViewInvolved true queryInfo)
                         = qi_Hints queryInfo)))).
Proof.
  intros Hsch r. subst r. unfold cachedInfo.
  unfold setQueryInfoIfMvEnable, bind, getTask, getSchema, getSR, gets, call, ret, fail, panic.
  cbn.
  split.
  - intros Hmv. rewrite Hmv. reflexivity.
  - intros Hmv. rewrite Hmv, Hsch. cbn. split.
    + intros msg Hf. rewrite Hf. reflexivity.
    + intros field Hf. rewrite Hf. cbn. split.
      * intros Hsup. rewrite Hsup. reflexivity.
      * intros Hsup. rewrite Hsup. cbn. split.
        -- intros msg Hinfo. rewrite Hinfo. reflexivity.
        -- intros info Hinfo Hiso. rewrite Hinfo, Hiso. cbn. split; reflexivity.
Qed.

(** *** checkNq on the legs of an advanced search *)

(** The nq of the legs, as getNqFromSubSearch reads them. *)
Definition legsNq (reqs : list (SubSearchReq TemplateValues)) (ks : list int64) : Prop :=
  Forall2 (fun req k => getNqFromSubSearch req = ExtOk k) reqs ks.

Definition nqMismatch (expected actual : int64) : error :=
  WrapErrParameterInvalid expected actual "sub search request nq should be the same".

(** Legs that all carry [n], after a request that names [n] or no nq. *)
Lemma checkNq_loop_equal (reqs : list (SubSearchReq TemplateValues)) (n : int64) :
  forall nq,
  Forall (fun req => getNqFromSubSearch req = ExtOk n) reqs ->
  nq = 0 \/ nq = n ->
  checkNq_loop nq reqs =
    (Ok (match reqs with [] => nq | _ :: _ => n end), map (set_sub_Nq n) reqs).
Proof.
  induction reqs as [|req rest IH]; intros nq Hall Hnq; [reflexivity|].
  inversion Hall as [|? ? Hreq Hrest]; subst.
  cbn [checkNq_loop map]. rewrite Hreq.
  destruct (Z.eqb_spec nq 0) as [Hz|Hnz].
  - rewrite (IH n Hrest (or_intror eq_refl)). destruct rest; reflexivity.
  - assert (nq = n) by tauto. subst nq. rewrite Z.eqb_refl. cbn [negb].
    rewrite (IH n Hrest (or_intror eq_refl)). destruct rest; reflexivity.
Qed.

(** Once a nq is known, the first leg that carries another one ends the
    loop. *)
Lemma checkNq_loop_known (reqs : list (SubSearchReq TemplateValues)) :
  forall nq ks,
  nq <> 0 ->
  legsNq reqs ks ->
  Exists (fun k => k <> nq) ks ->
  exists k, In k ks /\ k <> nq /\ fst (checkNq_loop nq reqs) = Err (nqMismatch nq k).
Proof.
  induction reqs as [|req rest IH]; intros nq ks Hnz Hlegs Hex.
  - inversion Hlegs; subst. inversion Hex.
  - inversion Hlegs as [|? k ? ks' Hreq Hrest]; subst.
    cbn [checkNq_loop]. rewrite Hreq.
    apply Z.eqb_neq in Hnz. rewrite Hnz. apply Z.eqb_neq in Hnz.
    destruct (Z.eqb_spec k nq) as [Heq|Hne]; cbn [negb].
    + subst k. inversion Hex as [? ? Hk|? ? Hk]; subst; [contradiction|].
      destruct (IH nq ks' Hnz Hrest Hk) as (k & Hin & Hne & Hr).
      exists k. split; [right; exact Hin|]. split; [exact Hne|].
      destruct (checkNq_loop nq rest) as [r rest']. exact Hr.
    + exists k. split; [left; reflexivity|]. split; [exact Hne | reflexivity].
Qed.

(** Two legs that carry different nq, neither of them zero, end the loop
    with a mismatch, whatever the request names. *)
Lemma checkNq_loop_different (reqs : list (SubSearchReq TemplateValues)) :
  forall nq ks k1 k2,
  legsNq reqs ks ->
  In k1 ks -> In k2 ks -> k1 <> 0 -> k2 <> 0 -> k1 <> k2 ->
  exists a b, a <> b /\ fst (checkNq_loop nq reqs) = Err (nqMismatch a b).
Proof.
  induction reqs as [|req rest IH]; intros nq ks k1 k2 Hlegs H1 H2 Hz1 Hz2 Hne.
  - inversion Hlegs; subst. destruct H1.
  - inversion Hlegs as [|? k ? ks' Hreq Hrest]; subst.
    destruct (Z.eq_dec nq 0) as [Hz|Hnz].
    + subst nq. cbn [checkNq_loop]. rewrite Hreq. cbn.
      destruct (Z.eq_dec k 0) as [Hk|Hk].
      * subst k.
        destruct H1 as [H1|H1]; [congruence|]. destruct H2 as [H2|H2]; [congruence|].
        destruct (IH 0 ks' k1 k2 Hrest H1 H2 Hz1 Hz2 Hne) as (a & b & Hab & Hr).
        exists a, b. split; [exact Hab|].
        destruct (checkNq_loop 0 rest) as [r rest']. exact Hr.
      * assert (Hex : Exists (fun k0 => k0 <> k) ks').
        { apply Exists_exists.
          destruct (Z.eq_dec k1 k) as [E1|E1].
          - exists k2. split; [|congruence].
            destruct H2 as [H2|H2]; [congruence | exact H2].
          - exists k1. split; [|exact E1].
            destruct H1 as [H1|H1]; [congruence | exact H1]. }
        destruct (checkNq_loop_known rest k ks' Hk Hrest Hex) as (k' & _ & Hne' & Hr).
        exists k, k'. split; [congruence|].
        destruct (checkNq_loop k rest) as [r rest']. exact Hr.
    + assert (Hex : Exists (fun k0 => k0 <> nq) (k :: ks')).
      { apply Exists_exists.
        destruct (Z.eq_dec k1 nq) as [E1|E1].
        - exists k2. split; [exact H2 | congruence].
        - exists k1. split; [exact H1 | exact E1]. }
      destruct (checkNq_loop_known (req :: rest) nq (k :: ks') Hnz Hlegs Hex)
        as (k' & _ & Hne' & Hr).
      exists nq, k'. split; [congruence | exact Hr].
Qed.

Lemma checkNq_advanced_run (s : State) :
  sr_IsAdvanced (SearchRequest_ (task s)) = true ->
  let loop := checkNq_loop (req_Nq (request (task s))) (req_SubReqs (request (task s))) in
  let s1 := set_task (set_request (set_req_SubReqs (snd loop) (request (task s))) (task s)) s in
  checkNq s =
    match fst loop with
    | Ok nq =>
        (match validateNQLimit nq with
         | ExtErr msg => Err (fmt_Errorf "%s [%d] is invalid, %w" (External msg))
         | ExtOk _ => Ok nq
         end,
         set_task (set_request (set_req_Nq nq (request (task s1))) (task s1)) s1)
    | Err e => (Err e, s1)
    | Panic => (Panic, s1)
    end.
Proof.
  intros Hadv loop s1. subst s1 loop.
  unfold checkNq, bind at 1. cbn [getSR gets]. unfold bind at 1. cbn [getTask gets].
  rewrite Hadv.
  destruct (checkNq_loop _ _) as [r reqs']. cbn [fst snd].
  unfold bind at 1. unfold bind at 1. cbn [modTask modify].
  destruct r as [nq|e|]; [|reflexivity|reflexivity].
  unfold bind at 1. cbn [modTask modify ret].
  destruct (validateNQLimit nq); reflexivity.
Qed.

(** X9: checkNq on an advanced search whose legs all give a nq.  Legs
    that all carry the nq [n], under a request that names [n] or no nq,
    are accepted when [n] is within the limit: [n] is returned and written
    to the request and to every leg.  A leg that differs from the nq the
    request names, or two legs with different nq that are not zero, are
    rejected with the parameter-invalid error of a nq mismatch. *)
Theorem checkNq_advanced_legs (s : State) (ks : list int64) :
  sr_IsAdvanced (SearchRequest_ (task s)) = true ->
  legsNq (req_SubReqs (request (task s))) ks ->
  let nq0 := req_Nq (request (task s)) in
  let legs := req_SubReqs (request (task s)) in
  let s' := snd (checkNq s) in
  (forall n, ks <> [] -> Forall (eq n) ks -> nq0 = 0 \/ nq0 = n ->
     validateNQLimit n = ExtOk tt ->
     fst (checkNq s) = Ok n
     /\ req_Nq (request (task s')) = n
     /\ req_SubReqs (request (task s')) = map (set_sub_Nq n) legs)
  /\ (forall k, nq0 <> 0 -> In k ks -> k <> nq0 ->
        exists b, b <> nq0 /\ fst (checkNq s) = Err (nqMismatch nq0 b))
  /\ (forall k1 k2, In k1 ks -> In k2 ks -> k1 <> 0 -> k2 <> 0 -> k1 <> k2 ->
        exists a b, a <> b /\ fst (checkNq s) = Err (nqMismatch a b)).
Proof.
  intros Hadv Hlegs nq0 legs s'. subst s'.
  rewrite (checkNq_advanced_run s Hadv). cbv zeta. fold nq0 legs. fold legs in Hlegs.
  clearbody nq0 legs.
  split; [|split].
  - intros n Hne Hall Hnq Hlimit.
    assert (Hreqs : Forall (fun req => getNqFromSubSearch req = ExtOk n) legs).
    { clear - Hlegs Hall. induction Hlegs as [|req k reqs ks' Hreq _ IH]; constructor.
      - inversion Hall; subst. exact Hreq.
      - apply IH. inversion Hall; assumption. }
    rewrite (checkNq_loop_equal legs n nq0 Hreqs Hnq). cbn [fst snd].
    assert (Hlegs' : legs <> []).
    { intros Hnil. rewrite Hnil in Hlegs. inversion Hlegs; subst. congruence. }
    destruct legs as [|leg0 rest]; [congruence|].
    rewrite Hlimit. cbn. repeat split; reflexivity.
  - intros k Hnz Hin Hne.
    assert (Hex : Exists (fun k0 => k0 <> nq0) ks) by (apply Exists_exists; exists k; tauto).
    destruct (checkNq_loop_known legs nq0 ks Hnz Hlegs Hex) as (b & _ & Hb & Hr).
    exists b. split; [exact Hb|]. rewrite Hr. reflexivity.
  - intros k1 k2 H1 H2 Hz1 Hz2 Hne.
    destruct (checkNq_loop_different legs nq0 ks k1 k2 Hlegs H1 H2 Hz1 Hz2 Hne)
      as (a & b & Hab & Hr).
    exists a, b. split; [exact Hab|]. rewrite Hr. reflexivity.
Qed.

Lemma checkNq_loop_never_panics (reqs : list (SubSearchReq TemplateValues)) :
  forall nq, fst (checkNq_loop nq reqs) <> Panic.
Proof.
  induction reqs as [|req rest IH]; intros nq; cbn [checkNq_loop]; [discriminate|].
  destruct (getNqFromSubSearch req) as [subNq|msg]; [|discriminate].
  destruct (nq =? 0).
  - specialize (IH subNq). destruct (checkNq_loop subNq rest). exact IH.
  - destruct (negb (subNq =? nq)); [discriminate|].
    specialize (IH nq). destruct (checkNq_loop nq rest). exact IH.
Qed.

Lemma checkNq_single_run (s : State) :
  sr_IsAdvanced (SearchRequest_ (task s)) = false ->
  checkNq s =
    match getNq (request (task s)) with
    | ExtErr msg => (Err (External msg), s)
    | ExtOk nq =>
        (match validateNQLimit nq with
         | ExtErr msg => Err (fmt_Errorf "%s [%d] is invalid, %w" (External msg))
         | ExtOk _ => Ok nq
         end,
         set_task (set_request (set_req_Nq nq (request (task s))) (task s)) s)
    end.
Proof.
  intros Hadv.
  unfold checkNq, bind at 1. cbn [getSR gets]. unfold bind at 1. cbn [getTask gets].
  rewrite Hadv. unfold bind at 1. unfold bind at 1. unfold call.
  destruct (getNq (request (task s))) as [nq|msg]; [|reflexivity].
  cbn [ret]. unfold bind at 1. cbn [modTask modify ret].
  destruct (validateNQLimit nq); reflexivity.
Qed.

Lemma checkNq_loop_errors (reqs : list (SubSearchReq TemplateValues)) :
  forall nq e,
  fst (checkNq_loop nq reqs) = Err e ->
  (exists a b, e = nqMismatch a b) \/ (exists msg, e = External msg).
Proof.
  induction reqs as [|req rest IH]; intros nq e; cbn [checkNq_loop]; [discriminate|].
  destruct (getNqFromSubSearch req) as [subNq|msg].
  - destruct (nq =? 0).
    + specialize (IH subNq e). destruct (checkNq_loop subNq rest). exact IH.
    + destruct (negb (subNq =? nq)).
      * cbn. intros H. inversion H. left. eexists. eexists. reflexivity.
      * specialize (IH nq e). destruct (checkNq_loop nq rest). exact IH.
  - cbn. intros H. inversion H. right. eexists. reflexivity.
Qed.

(** X10: checkNq never panics, and the nq it returns was accepted by the
    limit check and is the nq the request carries afterwards; an nq that
    the limit check refuses comes back as an error that wraps the one of
    the check.  Nothing of the task but its request is written, and of
    the request only the nq and the legs. *)
Theorem checkNq_result (s : State) :
  let r := fst (checkNq s) in
  let s' := snd (checkNq s) in
  r <> Panic
  /\ (forall nq, r = Ok nq ->
        validateNQLimit nq = ExtOk tt /\ req_Nq (request (task s')) = nq)
  /\ (forall e, r = Err e ->
        (exists nq msg, validateNQLimit nq = ExtErr msg
                        /\ e = fmt_Errorf "%s [%d] is invalid, %w" (External msg))
        \/ (exists a b, e = nqMismatch a b)
        \/ (exists msg, e = External msg))
  /\ task s' =
       set_request
         (set_req_Nq (req_Nq (request (task s')))
            (set_req_SubReqs (req_SubReqs (request (task s'))) (request (task s))))
         (task s)
  /\ bases s' = bases s.
Proof.
  intros r s'. subst r s'.
  destruct (sr_IsAdvanced (SearchRequest_ (task s))) eqn:Hadv.
  - rewrite (checkNq_advanced_run s Hadv). cbv zeta.
    pose proof (checkNq_loop_never_panics (req_SubReqs (request (task s)))
                  (req_Nq (request (task s)))) as Hnp.
    pose proof (checkNq_loop_errors (req_SubReqs (request (task s)))
                  (req_Nq (request (task s)))) as Herr.
    destruct (checkNq_loop _ _) as [[nq|e|] reqs']; cbn [fst snd] in *.
    + destruct (validateNQLimit nq) as [[]|msg] eqn:Hlimit; cbn.
      * split; [discriminate|]. split; [intros n Hn; inversion Hn; subst; tauto|].
        split; [discriminate|]. split; [destruct (task s) as []; reflexivity | reflexivity].
      * split; [discriminate|]. split; [discriminate|].
        split; [|split; [destruct (task s) as []; reflexivity | reflexivity]].
        intros e He. inversion He. left. exists nq, msg. tauto.
    + split; [discriminate|]. split; [discriminate|].
      split; [|split; [destruct (task s) as [? ? ? []]; reflexivity | reflexivity]].
      intros e' He. inversion He; subst. right. apply Herr. reflexivity.
    + congruence.
  - rewrite (checkNq_single_run s Hadv).
    destruct (getNq (request (task s))) as [nq|msg]; cbn.
    + destruct (validateNQLimit nq) as [[]|msg] eqn:Hlimit; cbn.
      * split; [discriminate|]. split; [intros n Hn; inversion Hn; subst; tauto|].
        split; [discriminate|].
        split; [destruct (task s) as [? ? ? []]; reflexivity | reflexivity].
      * split; [discriminate|]. split; [discriminate|].
        split; [|split; [destruct (task s) as [? ? ? []]; reflexivity | reflexivity]].
        intros e He. inversion He. left. exists nq, msg. tauto.
    + split; [discriminate|]. split; [discriminate|].
      split; [|split; [destruct (task s) as [? ? ? []]; reflexivity | reflexivity]].
      intros e He. inversion He. right. right. eexists. reflexivity.
Qed.

(** *** tryGeneratePlan *)

(** The vector field the search parameters name: a parameter that is
    missing or empty names none. *)
Definition namedAnnsField (params : KeyValuePairs) : option string :=
  match GetAttrByKeyFromRepeatedKV AnnsFieldKey params with
  | ExtOk name => if (String.length name =? 0)%nat then None else Some name
  | ExtErr _ => None
  end.

Definition collectionMismatch : error :=
  WrapErrParameterInvalidMsg
    ("collection id:%d in the request is not consistent to that in the search context,"
     ++ "alias or database may have been changed: %d").

Definition groupByBinaryVector : error :=
  errors_New "not support search_group_by operation based on binary vector column".

(** What tryGeneratePlan does once the vector field is known. *)
Definition planOn (s : State) (sch : SchemaInfo) (params : KeyValuePairs) (dsl : string)
    (exprTemplateValues : TemplateValues) (annsFieldName : string)
  : res (PlanNode * QueryInfo * int64 * bool) :=
  match parseSearchInfo params sch (rankParams (task s)) with
  | ExtErr msg => Err (External msg)
  | ExtOk searchInfo =>
      if (0 <? info_collectionID searchInfo)
         && negb (info_collectionID searchInfo =? sr_CollectionID (SearchRequest_ (task s)))
      then Err collectionMismatch
      else
        let annField := GetFieldByName sch annsFieldName in
        if negb (qi_GroupByFieldId (info_planInfo searchInfo) =? -1)
           && DataType_eqb (field_GetDataType annField) DataType_BinaryVector
        then Err groupByBinaryVector
        else
          let planInfo := set_qi_QueryFieldId (field_GetFieldID annField) (info_planInfo searchInfo) in
          match CreateSearchPlan sch dsl annsFieldName planInfo exprTemplateValues with
          | ExtErr _ => Err (WrapErrParameterInvalidMsg "failed to create query plan: %v")
          | ExtOk plan => Ok (plan, planInfo, info_offset searchInfo, info_isIterator searchInfo)
          end
  end.

Lemma tryGeneratePlan_run (params : KeyValuePairs) (dsl : string) (tv : TemplateValues)
    (s : State) (sch : SchemaInfo) :
  schema (task s) = Some sch ->
  fst (tryGeneratePlan params dsl tv s) =
    match namedAnnsField params with
    | Some name => planOn s sch params dsl tv name
    | None =>
        match GetVectorFieldSchemas sch with
        | [] => Err (errors_New (AnnsFieldKey ++ " not found in schema"))
        | first :: rest =>
            if enableMultipleVectorFields && (1 <? Z.of_nat (List.length (first :: rest)))
            then Err (errors_New "multiple anns_fields exist, please specify a anns_field in search_params")
            else planOn s sch params dsl tv (field_Name first)
        end
    end.
Proof.
  intros Hsch. unfold tryGeneratePlan, namedAnnsField.
  rewrite bind_run, (getSchema_run s sch Hsch). cbn [fst snd].
  rewrite bind_run. cbn [getTask gets fst snd].
  rewrite bind_run. cbn [getSR gets fst snd].
  assert (Htail : forall name,
            fst (bind (ret name)
                   (fun annsFieldName =>
                      searchInfo <- call (parseSearchInfo params sch (rankParams (task s))) ;;
                      if (0 <? info_collectionID searchInfo)
                         && negb (info_collectionID searchInfo
                                  =? sr_CollectionID (SearchRequest_ (task s)))
                      then fail collectionMismatch
                      else
                        let annField := GetFieldByName sch annsFieldName in
                        if negb (qi_GroupByFieldId (info_planInfo searchInfo) =? -1)
                           && DataType_eqb (field_GetDataType annField) DataType_BinaryVector
                        then fail groupByBinaryVector
                        else
                          let planInfo :=
                            set_qi_QueryFieldId (field_GetFieldID annField)
                              (info_planInfo searchInfo) in
                          match CreateSearchPlan sch dsl annsFieldName planInfo tv with
                          | ExtErr _ =>
                              fail (WrapErrParameterInvalidMsg "failed to create query plan: %v")
                          | ExtOk plan =>
                              ret (plan, planInfo, info_offset searchInfo,
                                   info_isIterator searchInfo)
                          end) s)
            = planOn s sch params dsl tv name).
  { intros name. unfold planOn. rewrite bind_run. cbn [ret fst snd].
    rewrite bind_run. unfold call.
    destruct (parseSearchInfo params sch (rankParams (task s))) as [info|msg]; [|reflexivity].
    cbn [ret fst snd].
    destruct (_ && _); [reflexivity|].
    cbv zeta. destruct (_ && _); [reflexivity|].
    destruct (CreateSearchPlan _ _ _ _ _); reflexivity. }
  unfold collectionMismatch, groupByBinaryVector in Htail.
  destruct (GetAttrByKeyFromRepeatedKV AnnsFieldKey params) as [name|msg].
  - destruct (String.length name =? 0)%nat.
    + cbv zeta. destruct (GetVectorFieldSchemas sch) as [|first rest]; [reflexivity|].
      destruct (enableMultipleVectorFields && _); [reflexivity|]. apply Htail.
    + apply Htail.
  - cbv zeta. destruct (GetVectorFieldSchemas sch) as [|first rest]; [reflexivity|].
    destruct (enableMultipleVectorFields && _); [reflexivity|]. apply Htail.
Qed.

Lemma DataType_eqb_eq (a b : DataType) : DataType_eqb a b = true <-> a = b.
Proof.
  destruct a, b; cbn; try (split; [discriminate | congruence]); try tauto.
  rewrite Z.eqb_eq. split; congruence.
Qed.

Lemma planOn_Ok (s : State) (sch : SchemaInfo) (params : KeyValuePairs) (dsl : string)
    (tv : TemplateValues) (name : string) plan queryInfo offset iter :
  planOn s sch params dsl tv name = Ok (plan, queryInfo, offset, iter) ->
  exists searchInfo,
    parseSearchInfo params sch (rankParams (task s)) = ExtOk searchInfo
    /\ (info_collectionID searchInfo <= 0
        \/ info_collectionID searchInfo = sr_CollectionID (SearchRequest_ (task s)))
    /\ (qi_GroupByFieldId (info_planInfo searchInfo) = -1
        \/ field_GetDataType (GetFieldByName sch name) <> DataType_BinaryVector)
    /\ queryInfo = set_qi_QueryFieldId (field_GetFieldID (GetFieldByName sch name))
                     (info_planInfo searchInfo)
    /\ CreateSearchPlan sch dsl name queryInfo tv = ExtOk plan
    /\ offset = info_offset searchInfo
    /\ iter = info_isIterator searchInfo.
Proof.
  unfold planOn.
  destruct (parseSearchInfo params sch (rankParams (task s))) as [info|msg]; [|discriminate].
  destruct ((0 <? info_collectionID info) && _) eqn:Hid; [discriminate|].
  cbv zeta.
  destruct (negb _ && _) eqn:Hgroup; [discriminate|].
  destruct (CreateSearchPlan _ _ _ _ _) as [plan'|msg] eqn:Hplan; [|discriminate].
  intros H. inversion H; subst. exists info.
  split; [reflexivity|]. split; [|split].
  - apply andb_false_iff in Hid. destruct Hid as [Hid|Hid].
    + left. apply Z.ltb_ge in Hid. exact Hid.
    + right. apply negb_false_iff, Z.eqb_eq in Hid. exact Hid.
  - apply andb_false_iff in Hgroup. destruct Hgroup as [Hg|Hg].
    + left. apply negb_false_iff, Z.eqb_eq in Hg. exact Hg.
    + right. intros Heq. apply DataType_eqb_eq in Heq. congruence.
  - repeat split. exact Hplan.
Qed.

(** X11: the vector field of a search whose parameters name none.  On a
    schema without a vector field such a search is an error, and so is it
    on a schema with several when multiple vector fields are enabled;
    otherwise the search runs on the first vector field of the schema: a
    plan that comes back was compiled for that field, and the query info
    carries the identifier of the field of that name. *)
Theorem tryGeneratePlan_default_anns_field (params : KeyValuePairs) (dsl : string)
    (tv : TemplateValues) (s : State) (sch : SchemaInfo) :
  schema (task s) = Some sch ->
  namedAnnsField params = None ->
  let r := fst (tryGeneratePlan params dsl tv s) in
  (GetVectorFieldSchemas sch = [] ->
   r = Err (errors_New (AnnsFieldKey ++ " not found in schema")))
  /\ (enableMultipleVectorFields = true ->
      (1 < List.length (GetVectorFieldSchemas sch))%nat ->
      r = Err (errors_New "multiple anns_fields exist, please specify a anns_field in search_params"))
  /\ (forall first rest plan queryInfo offset iter,
        GetVectorFieldSchemas sch = first :: rest ->
        r = Ok (plan, queryInfo, offset, iter) ->
        (enableMultipleVectorFields = true -> rest = [])
        /\ CreateSearchPlan sch dsl (field_Name first) queryInfo tv = ExtOk plan
        /\ qi_QueryFieldId queryInfo = field_GetFieldID (GetFieldByName sch (field_Name first))).
Proof.
  intros Hsch Hnone r. subst r.
  rewrite (tryGeneratePlan_run params dsl tv s sch Hsch), Hnone.
  split; [|split].
  - intros Hvec. rewrite Hvec. reflexivity.
  - intros Hmulti Hlen. destruct (GetVectorFieldSchemas sch) as [|first rest]; [cbn in Hlen; lia|].
    rewrite Hmulti. cbn [andb].
    destruct (Z.ltb_spec 1 (Z.of_nat (List.length (first :: rest)))); [reflexivity | lia].
  - intros first rest plan queryInfo offset iter Hvec. rewrite Hvec.
    destruct (enableMultipleVectorFields && _) eqn:Hmulti; [discriminate|].
    intros Hok.
    destruct (planOn_Ok _ _ _ _ _ _ _ _ _ _ Hok) as (info & _ & _ & _ & Hq & Hplan & _).
    split; [|split; [exact Hplan | rewrite Hq; reflexivity]].
    intros Hen. rewrite Hen in Hmulti. cbn [andb] in Hmulti.
    apply Z.ltb_ge in Hmulti. destruct rest; [reflexivity | cbn [List.length] in Hmulti; lia].
Qed.

(** X12: tryGeneratePlan only reads the task.  For a search on a named
    vector field: a collection identifier in the search parameters that is
    positive and differs from the one of the task is refused as a
    parameter error, before the plan is compiled; so is a group-by on a
    binary vector field; a plan that the compiler refuses is a parameter
    error; and a plan that comes back was compiled with the query info
    that is returned, which is the one parsed from the parameters with the
    identifier of the vector field filled in. *)
Theorem tryGeneratePlan_checks (params : KeyValuePairs) (dsl : string) (tv : TemplateValues)
    (s : State) (sch : SchemaInfo) (name : string) (searchInfo : SearchInfo) :
  schema (task s) = Some sch ->
  namedAnnsField params = Some name ->
  parseSearchInfo params sch (rankParams (task s)) = ExtOk searchInfo ->
  let r := fst (tryGeneratePlan params dsl tv s) in
  let id := info_collectionID searchInfo in
  let annField := GetFieldByName sch name in
  let queryInfo := set_qi_QueryFieldId (field_GetFieldID annField) (info_planInfo searchInfo) in
  snd (tryGeneratePlan params dsl tv s) = s
  /\ (0 < id -> id <> sr_CollectionID (SearchRequest_ (task s)) -> r = Err collectionMismatch)
  /\ (id <= 0 \/ id = sr_CollectionID (SearchRequest_ (task s)) ->
      (qi_GroupByFieldId (info_planInfo searchInfo) <> -1 ->
       field_GetDataType annField = DataType_BinaryVector ->
       r = Err groupByBinaryVector)
      /\ (qi_GroupByFieldId (info_planInfo searchInfo) = -1
          \/ field_GetDataType annField <> DataType_BinaryVector ->
          r = match CreateSearchPlan sch dsl name queryInfo tv with
              | ExtErr _ => Err (WrapErrParameterInvalidMsg "failed to create query plan: %v")
              | ExtOk plan =>
                  Ok (plan, queryInfo, info_offset searchInfo, info_isIterator searchInfo)
              end)).
Proof.
  intros Hsch Hname Hinfo r id annField queryInfo. subst r.
  split; [apply tryGeneratePlan_reads|].
  rewrite (tryGeneratePlan_run params dsl tv s sch Hsch), Hname.
  unfold planOn. rewrite Hinfo. fold id. cbv zeta. fold annField. fold queryInfo.
  split.
  - intros Hpos Hne. apply Z.ltb_lt in Hpos. apply Z.eqb_neq in Hne. rewrite Hpos, Hne. reflexivity.
  - intros Hid.
    assert (Hpass : (0 <? id) && negb (id =? sr_CollectionID (SearchRequest_ (task s))) = false).
    { apply andb_false_iff. destruct Hid as [Hid|Hid].
      - left. apply Z.ltb_ge. exact Hid.
      - right. apply negb_false_iff, Z.eqb_eq. exact Hid. }
    rewrite Hpass. split.
    + intros Hgroup Hbin. apply Z.eqb_neq in Hgroup. rewrite Hgroup, Hbin. reflexivity.
    + intros Hgroup.
      assert (Hpass2 : negb (qi_GroupByFieldId (info_planInfo searchInfo) =? -1)
                       && DataType_eqb (field_GetDataType annField) DataType_BinaryVector = false).
      { apply andb_false_iff. destruct Hgroup as [Hg|Hg].
        - left. apply negb_false_iff, Z.eqb_eq. exact Hg.
        - right. destruct (DataType_eqb _ _) eqn:Heq; [|reflexivity].
          apply DataType_eqb_eq in Heq. contradiction. }
      rewrite Hpass2. reflexivity.
Qed.

(** *** The fields a single search asks the shards for *)

Lemma set_insert_In (xs s : list int64) (x : int64) :
  In x (set_insert xs s) <-> In x xs \/ In x s.
Proof.
  unfold set_insert. revert s.
  induction xs as [|y rest IH]; intros s; cbn [fold_left].
  - cbn. tauto.
  - rewrite IH, set_add_iff. cbn. intuition congruence.
Qed.

Lemma set_insert_NoDup (xs s : list int64) : NoDup s -> NoDup (set_insert xs s).
Proof.
  unfold set_insert. revert s.
  induction xs as [|y rest IH]; intros s Hs; cbn [fold_left]; [exact Hs|].
  apply IH. apply set_add_nodup. exact Hs.
Qed.


(** *** estimateResultSize *)

Lemma initSearchRequest_keeps_outputs (ctx0 : Context) (sch : option SchemaInfo)
    (fields : list string) :
  keeps (fun s => schema (task s) = sch /\ translatedOutputFields (task s) = fields)
        (initSearchRequest ctx0).
Proof.
  unfold initSearchRequest, callFunctionUdf. keeps_tac.
Qed.

(** X14: the size estimate agrees with the requery flag.  After a single
    search was composed, estimateResultSize gives the largest int64 when
    the task needs a requery and zero when it does not, whatever nq and
    top-k it is asked about, and it only reads the task. *)
Theorem estimateResultSize_needRequery (ctx0 : Context) (s : State) (sch : SchemaInfo)
    (nq topK : int64) :
  schema (task s) = Some sch ->
  fst (initSearchRequest ctx0 s) = Ok tt ->
  let s' := snd (initSearchRequest ctx0 s) in
  estimateResultSize nq topK s' =
    (Ok (if needRequery (task s') then 2 ^ 63 - 1 else 0), s').
Proof.
  intros Hsch Hok s'.
  pose proof (initSearchRequest_needRequery ctx0 s sch Hsch Hok) as Hneed.
  destruct (initSearchRequest_keeps_outputs ctx0 (Some sch) (translatedOutputFields (task s)) s
              (conj Hsch eq_refl)) as [Hsch' Hfields].
  fold s' in Hneed, Hsch', Hfields.
  unfold estimateResultSize. rewrite bind_run, (getSchema_run s' sch Hsch'). cbn [fst snd].
  rewrite bind_run. cbn [getTask gets fst snd].
  rewrite Hneed. unfold nonEmpty, vectorOutputFields. rewrite Hfields.
  destruct (0 <? _)%nat; reflexivity.
Qed.

(** *** Execute *)

















(** *** collectSearchResults *)




(** *** PreExecute *)

Lemma bind_Err {A B} (m : M A) (k : A -> M B) (s : State) (e : error) :
  fst (m s) = Err e -> fst (bind m k s) = Err e.
Proof. intros H. rewrite bind_run, H. reflexivity. Qed.

Lemma modBase_keeps (I : State -> Prop) (f : MsgBase -> MsgBase) :
  (forall s h, I s -> I (set_bases h s)) -> keeps I (modBase f).
Proof.
  intros H s Hs. unfold modBase, modBaseOf, bind, getSR, gets, derefBase, modify. cbn.
  destruct (sr_Base (SearchRequest_ (task s))) as [p|]; [|exact Hs].
  destruct (bases s p) as [b|]; [|exact Hs]. cbn. apply H. exact Hs.
Qed.

(** The request as the client sent it: the nq of the request and of its
    legs, which checkNq writes, are set aside. *)
Definition asSent (r : MilvusSearchRequest) : MilvusSearchRequest :=
  set_req_Nq 0 (set_req_SubReqs (map (set_sub_Nq 0) (req_SubReqs r)) r).

Lemma checkNq_loop_asSent (reqs : list (SubSearchReq TemplateValues)) :
  forall nq, map (set_sub_Nq 0) (snd (checkNq_loop nq reqs)) = map (set_sub_Nq 0) reqs.
Proof.
  induction reqs as [|req rest IH]; intros nq; cbn [checkNq_loop]; [reflexivity|].
  destruct (getNqFromSubSearch req) as [subNq|msg]; [|reflexivity].
  destruct (nq =? 0).
  - specialize (IH subNq). destruct (checkNq_loop subNq rest). cbn in *. rewrite IH. reflexivity.
  - destruct (negb (subNq =? nq)); [reflexivity|].
    specialize (IH nq). destruct (checkNq_loop nq rest). cbn in *. rewrite IH. reflexivity.
Qed.

(** What checkNq leaves of the task: all but the nq of its request. *)
Lemma checkNq_task (s : State) :
  exists nq legs,
    map (set_sub_Nq 0) legs = map (set_sub_Nq 0) (req_SubReqs (request (task s)))
    /\ snd (checkNq s) =
         set_task (set_request (set_req_Nq nq (set_req_SubReqs legs (request (task s)))) (task s)) s.
Proof.
  destruct (sr_IsAdvanced (SearchRequest_ (task s))) eqn:Hadv.
  - rewrite (checkNq_advanced_run s Hadv). cbv zeta.
    pose proof (checkNq_loop_asSent (req_SubReqs (request (task s))) (req_Nq (request (task s))))
      as Hlegs.
    destruct (checkNq_loop _ _) as [[nq|e|] reqs']; cbn [fst snd] in *.
    + exists nq, reqs'. split; [exact Hlegs|]. destruct s as [[]]; reflexivity.
    + exists (req_Nq (request (task s))), reqs'. split; [exact Hlegs|].
      destruct s as [[? ? ? []]]; reflexivity.
    + exists (req_Nq (request (task s))), reqs'. split; [exact Hlegs|].
      destruct s as [[? ? ? []]]; reflexivity.
  - rewrite (checkNq_single_run s Hadv).
    destruct (getNq (request (task s))) as [nq|msg]; cbn [snd].
    + exists nq, (req_SubReqs (request (task s))). split; [reflexivity|].
      destruct s as [[? ? ? []]]; reflexivity.
    + exists (req_Nq (request (task s))), (req_SubReqs (request (task s))).
      split; [reflexivity|]. destruct s as [[? ? ? []]]; reflexivity.
Qed.

(** What of the task the composition of the request does not write. *)
Definition settled (s : State)
  : string * option SchemaInfo * bool * bool * bool * Context * MilvusSearchRequest
    * (list string * list string * list string * bool) :=
  (collectionName (task s), schema (task s), partitionKeyMode (task s),
   mustUsePartitionKey (task s), enableMaterializedView (task s), ctx (task s),
   asSent (request (task s)),
   (translatedOutputFields (task s), userOutputFields (task s), userDynamicFields (task s),
    userRequestedPkFieldExplicitly (task s))).

(** What no step of PreExecute after its first lines writes: the store of
    headers, and the services the task reports to. *)
Definition frame (s : State)
  : (ptr -> option MsgBase) * ptr * list (string * string) * list (int64 * option CostAggregation) :=
  (bases s, next s, deprecatedShardCache s, costMetrics s).

Lemma checkNq_keeps_settled v w :
  keeps (fun s => settled s = v /\ frame s = w) checkNq.
Proof.
  intros s [Hs Hf]. destruct (checkNq_task s) as (nq & legs & Hlegs & Hrun).
  rewrite Hrun. rewrite <- Hs, <- Hf. unfold settled, frame, asSent. cbn. rewrite Hlegs.
  destruct s as [[]]; split; reflexivity.
Qed.

Lemma initAdvanced_loop_keeps_settled v w subReqs :
  forall index ids,
  keeps (fun s => settled s = v /\ frame s = w) (initAdvanced_loop index subReqs ids).
Proof.
  induction subReqs as [|subReq rest IH]; intros index ids; cbn [initAdvanced_loop].
  - keeps_tac.
  - unfold settled, frame. unfold settled, frame in IH. keeps_tac.
Qed.

Lemma composeRequest_keeps_settled v w ctx0 :
  keeps (fun s => settled s = v /\ frame s = w) (composeRequest ctx0).
Proof.
  pose proof (checkNq_keeps_settled v w) as HcheckNq.
  pose proof (initAdvanced_loop_keeps_settled v w) as Hloop.
  unfold composeRequest, initSearchRequest, initAdvancedSearchRequest, callFunctionUdf.
  unfold settled, frame in *. keeps_tac.
Qed.

(** The function executor of the schema leaves the header pointer of the
    request it rewrites. *)
Definition executorKeepsHeader : Prop :=
  forall exec ctx0 sr sr', ProcessSearch exec ctx0 sr = ExtOk sr' -> sr_Base sr' = sr_Base sr.

Lemma callFunctionUdf_keeps_header ctx0 ids (p : option ptr) :
  executorKeepsHeader ->
  keeps (fun s => sr_Base (SearchRequest_ (task s)) = p) (callFunctionUdf ctx0 ids).
Proof.
  intros Hexec s Hs. unfold callFunctionUdf.
  rewrite bind_run. pose proof (getSchema_reads s) as Hr.
  destruct (getSchema s) as [[sch|e|] s0]; cbn [fst snd] in *; subst s0; try exact Hs.
  destruct (HasNonBM25Functions sch ids); [|exact Hs].
  rewrite bind_run. unfold call.
  destruct (NewFunctionExecutor sch) as [exec|msg]; cbn [ret fail fst snd]; [|exact Hs].
  rewrite bind_run. cbn [getSR gets fst snd].
  rewrite bind_run.
  destruct (ProcessSearch exec ctx0 (SearchRequest_ (task s))) as [sr'|msg] eqn:Hp;
    cbn [ret fail fst snd]; [|exact Hs].
  cbn. rewrite (Hexec _ _ _ _ Hp). exact Hs.
Qed.

Lemma checkNq_keeps_header (p : option ptr) :
  keeps (fun s => sr_Base (SearchRequest_ (task s)) = p) checkNq.
Proof.
  intros s Hs. destruct (checkNq_task s) as (nq & legs & _ & Hrun).
  rewrite Hrun. exact Hs.
Qed.

Lemma initAdvanced_loop_keeps_header (p : option ptr) subReqs :
  forall index ids,
  keeps (fun s => sr_Base (SearchRequest_ (task s)) = p) (initAdvanced_loop index subReqs ids).
Proof.
  induction subReqs as [|subReq rest IH]; intros index ids; cbn [initAdvanced_loop].
  - keeps_tac.
  - keeps_tac.
Qed.

Lemma composeRequest_keeps_header (p : option ptr) ctx0 :
  executorKeepsHeader ->
  keeps (fun s => sr_Base (SearchRequest_ (task s)) = p) (composeRequest ctx0).
Proof.
  intros Hexec.
  pose proof (checkNq_keeps_header p) as HcheckNq.
  pose proof (initAdvanced_loop_keeps_header p) as Hloop.
  pose proof (fun ids => callFunctionUdf_keeps_header ctx0 ids p Hexec) as Hudf.
  unfold composeRequest, initSearchRequest, initAdvancedSearchRequest.
  keeps_tac.
Qed.

(** The projections of the records of the state, applied to updated
    records, are computed. *)
Ltac norm_state H :=
  cbn [ctx SearchRequest_ result request collectionName schema needRequery partitionKeyMode
       enableMaterializedView mustUsePartitionKey resultSizeInsufficient isTopkReduce
       isRecallEvaluation translatedOutputFields userOutputFields userDynamicFields resultBuf
       partitionIDsSet queryChannelsTs queryInfos relatedDataSize functionScore rankParams
       isIterator userRequestedPkFieldExplicitly sr_Base sr_DbID sr_CollectionID
       sr_PartitionIDs sr_Dsl sr_PlaceholderGroup sr_DslType sr_SerializedExprPlan
       sr_OutputFieldsId sr_MvccTimestamp sr_GuaranteeTimestamp sr_TimeoutTimestamp sr_Nq
       sr_Topk sr_MetricType sr_IgnoreGrowing sr_Username sr_SubReqs sr_IsAdvanced sr_Offset
       sr_ConsistencyLevel sr_GroupByFieldId sr_GroupSize sr_FieldId sr_IsIterator
       sr_AnalyzerName sr_CollectionTtlTimestamps req_DbName req_CollectionName
       req_PartitionNames req_Dsl req_PlaceholderGroup req_SearchParams req_OutputFields
       req_GuaranteeTimestamp req_Nq req_UseDefaultConsistency req_ConsistencyLevel req_SubReqs
       req_ExprTemplateValues req_FunctionScore task bases next deprecatedShardCache
       costMetrics set_base_MsgType set_base_MsgID set_base_Timestamp set_base_SourceID
       set_base_TargetID set_qi_QueryFieldId set_qi_Hints set_qi_MaterializedViewInvolved
       set_isub_SerializedExprPlan set_isub_PartitionIDs set_isub_AnalyzerName set_isub_FieldId
       set_sr_Base set_sr_DbID set_sr_CollectionID set_sr_PartitionIDs set_sr_PlaceholderGroup
       set_sr_DslType set_sr_SerializedExprPlan set_sr_OutputFieldsId set_sr_MvccTimestamp
       set_sr_GuaranteeTimestamp set_sr_TimeoutTimestamp set_sr_Nq set_sr_Topk
       set_sr_MetricType set_sr_IgnoreGrowing set_sr_Username set_sr_SubReqs set_sr_IsAdvanced
       set_sr_Offset set_sr_ConsistencyLevel set_sr_GroupByFieldId set_sr_GroupSize
       set_sr_FieldId set_sr_IsIterator set_sr_AnalyzerName set_sr_CollectionTtlTimestamps
       set_sub_Nq set_out_CollectionName set_plan_OutputFieldIds set_plan_DynamicFields
       set_req_Nq set_req_SubReqs set_SearchRequest set_result set_request set_collectionName
       set_schema set_needRequery set_partitionKeyMode set_resultSizeInsufficient
       set_translatedOutputFields set_userOutputFields set_userDynamicFields set_resultBuf
       set_partitionIDsSet set_queryInfos set_functionScore set_rankParams set_isIterator
       set_userRequestedPkFieldExplicitly set_task set_bases set_next set_deprecatedShardCache
       set_costMetrics] in H |- *.

(** A branch that cannot have been taken by a computation that succeeded. *)
Ltac dead H :=
  repeat (repeat rewrite bind_assoc in H;
          rewrite bind_run in H;
          cbn [getTask getSR gets modSR modTask modify ret fail call fst snd] in H);
  discriminate H.

Ltac fwd H :=
  repeat rewrite bind_assoc in H |- *;
  rewrite bind_run in H |- *;
  cbn [getTask getSR gets modSR modTask modify ret fail call fst snd] in H |- *;
  norm_state H.

(** The same on the goal alone. *)
Ltac norm_goal :=
  cbn [ctx SearchRequest_ result request collectionName schema needRequery partitionKeyMode
       enableMaterializedView mustUsePartitionKey resultSizeInsufficient isTopkReduce
       isRecallEvaluation translatedOutputFields userOutputFields userDynamicFields resultBuf
       partitionIDsSet queryChannelsTs queryInfos relatedDataSize functionScore rankParams
       isIterator userRequestedPkFieldExplicitly sr_Base sr_DbID sr_CollectionID
       sr_PartitionIDs sr_Dsl sr_PlaceholderGroup sr_DslType sr_SerializedExprPlan
       sr_OutputFieldsId sr_MvccTimestamp sr_GuaranteeTimestamp sr_TimeoutTimestamp sr_Nq
       sr_Topk sr_MetricType sr_IgnoreGrowing sr_Username sr_SubReqs sr_IsAdvanced sr_Offset
       sr_ConsistencyLevel sr_GroupByFieldId sr_GroupSize sr_FieldId sr_IsIterator
       sr_AnalyzerName sr_CollectionTtlTimestamps req_DbName req_CollectionName
       req_PartitionNames req_Dsl req_PlaceholderGroup req_SearchParams req_OutputFields
       req_GuaranteeTimestamp req_Nq req_UseDefaultConsistency req_ConsistencyLevel req_SubReqs
       req_ExprTemplateValues req_FunctionScore task bases next deprecatedShardCache
       costMetrics set_base_MsgType set_base_MsgID set_base_Timestamp set_base_SourceID
       set_base_TargetID set_qi_QueryFieldId set_qi_Hints set_qi_MaterializedViewInvolved
       set_isub_SerializedExprPlan set_isub_PartitionIDs set_isub_AnalyzerName set_isub_FieldId
       set_sr_Base set_sr_DbID set_sr_CollectionID set_sr_PartitionIDs set_sr_PlaceholderGroup
       set_sr_DslType set_sr_SerializedExprPlan set_sr_OutputFieldsId set_sr_MvccTimestamp
       set_sr_GuaranteeTimestamp set_sr_TimeoutTimestamp set_sr_Nq set_sr_Topk
       set_sr_MetricType set_sr_IgnoreGrowing set_sr_Username set_sr_SubReqs set_sr_IsAdvanced
       set_sr_Offset set_sr_ConsistencyLevel set_sr_GroupByFieldId set_sr_GroupSize
       set_sr_FieldId set_sr_IsIterator set_sr_AnalyzerName set_sr_CollectionTtlTimestamps
       set_sub_Nq set_out_CollectionName set_plan_OutputFieldIds set_plan_DynamicFields
       set_req_Nq set_req_SubReqs set_SearchRequest set_result set_request set_collectionName
       set_schema set_needRequery set_partitionKeyMode set_resultSizeInsufficient
       set_translatedOutputFields set_userOutputFields set_userDynamicFields set_resultBuf
       set_partitionIDsSet set_queryInfos set_functionScore set_rankParams set_isIterator
       set_userRequestedPkFieldExplicitly set_task set_bases set_next set_deprecatedShardCache
       set_costMetrics].

Ltac run :=
  repeat rewrite bind_assoc;
  rewrite bind_run;
  cbn [getTask getSR gets modSR modTask modify ret fail call fst snd];
  norm_goal.

(** The header of a task that went through the first lines of
    PreExecute. *)
Definition searchHeader (b : MsgBase) : MsgBase :=
  set_base_SourceID GetNodeID (set_base_MsgType MsgType_Search b).

Definition partitionNamesInKeyMode : error :=
  errors_New "not support manually specifying the partition names if partition key mode is used".

Definition partitionKeyRequired : error :=
  WrapErrAsInputError
    (WrapErrParameterInvalidMsg
       ("must use partition key in the search request "
        ++ "because the mustUsePartitionKey config is true")).

(** What the meta cache and the translation of the output fields say of
    the collection of a request. *)
Record Resolved := mkResolved {
  res_collID : UniqueID;
  res_schema : SchemaInfo;
  res_mode : bool;
  res_outputs : list string * list string * list string * bool
}.

Definition resolvedBy (req : MilvusSearchRequest) (c : Resolved) : Prop :=
  GetCollectionID (req_DbName req) (req_CollectionName req) = ExtOk (res_collID c)
  /\ GetCollectionSchema (req_DbName req) (req_CollectionName req) = ExtOk (res_schema c)
  /\ isPartitionKeyMode (req_DbName req) (req_CollectionName req) = ExtOk (res_mode c)
  /\ translateOutputFields (req_OutputFields req) (res_schema c) true = ExtOk (res_outputs c).

Lemma resolveCollection_Ok (ctx0 : Context) (s : State) (p : ptr) (b : MsgBase) :
  hasHeader s p b ->
  fst (resolveCollection ctx0 s) = Ok tt ->
  let s1 := snd (resolveCollection ctx0 s) in
  let req := request (task s) in
  exists c,
    resolvedBy req c
    /\ (res_mode c = true -> req_PartitionNames req = [])
    /\ (mustUsePartitionKey (task s) = true -> res_mode c = true)
    /\ hasHeader s1 p (searchHeader b)
    /\ (forall q, q <> p -> bases s1 q = bases s q)
    /\ settled s1 =
         (req_CollectionName req, Some (res_schema c), res_mode c, mustUsePartitionKey (task s),
          enableMaterializedView (task s), ctx (task s), asSent req, res_outputs c)
    /\ request (task s1) = req
    /\ sr_IsAdvanced (SearchRequest_ (task s1)) = (0 <? List.length (req_SubReqs req))%nat
    /\ sr_CollectionID (SearchRequest_ (task s1)) = res_collID c
    /\ isIterator (task s1) = isIterator (task s)
    /\ resultBuf (task s1) = resultBuf (task s).
Proof.
  intros H Hok s1 req. subst s1. unfold resolveCollection in Hok |- *.
  rewrite bind_run in Hok |- *. cbn [getTask gets fst snd] in Hok |- *.
  rewrite bind_run in Hok |- *. cbn [modSR modTask modify fst snd] in Hok |- *.
  match type of Hok with
  | fst (bind _ _ ?s0) = _ =>
      assert (H0 : hasHeader s0 p b)
        by (destruct H as (Hp & Hb & Hlt); unfold hasHeader; cbn;
            split; [destruct (task s); exact Hp | tauto]);
      pose proof (hasHeader_modBase s0 p b (set_base_MsgType MsgType_Search) H0) as H1;
      rewrite (modBase_run s0 p b _ H0) in H1;
      rewrite bind_run, (modBase_run s0 p b _ H0) in Hok |- *
  end.
  cbn [fst snd] in H1, Hok |- *.
  match type of Hok with
  | fst (bind _ _ ?s0) = _ =>
      pose proof (hasHeader_modBase s0 _ _ (set_base_SourceID GetNodeID) H1) as H2;
      rewrite (modBase_run s0 _ _ _ H1) in H2;
      rewrite bind_run, (modBase_run s0 _ _ _ H1) in Hok |- *
  end.
  cbn [fst snd] in H2, Hok |- *.
  fold (searchHeader b) in H2, Hok |- *.
  rewrite bind_run in Hok |- *. cbn [modTask modify fst snd] in Hok |- *.
  fold req in Hok |- *.
  match type of Hok with
  | fst (bind _ _ ?s0) = _ =>
      assert (Htask2 : task s0 =
                       set_collectionName (req_CollectionName req)
                         (set_SearchRequest
                            (set_sr_IsAdvanced (0 <? List.length (req_SubReqs req))%nat
                               (SearchRequest_ (task s)))
                            (task s))) by reflexivity;
      assert (Hh2 : hasHeader s0 p (searchHeader b))
        by (destruct H2 as (Hp2 & Hb2 & Hlt2); unfold hasHeader; cbn in *; tauto);
      assert (Hb2 : forall q, q <> p -> bases s0 q = bases s q)
        by (intros q Hq; cbn; rewrite !store_update_other by exact Hq; reflexivity);
      generalize dependent s0
  end.
  intros s2 Hok Htask2 Hh2 Hb2. clear H0 H1 H2.
  destruct (GetCollectionID (req_DbName req) (req_CollectionName req)) as [collID|msg] eqn:Hid;
    [|dead Hok].
  fwd Hok. fwd Hok. fwd Hok.
  destruct (GetCollectionSchema (req_DbName req) (req_CollectionName req)) as [sch|msg] eqn:Hsch;
    [|dead Hok].
  fwd Hok. fwd Hok.
  destruct (isPartitionKeyMode (req_DbName req) (req_CollectionName req)) as [mode|msg] eqn:Hmode;
    [|dead Hok].
  fwd Hok. fwd Hok.
  rewrite Htask2 in Hok |- *. norm_state Hok. fold req in Hok |- *.
  destruct (mode && negb (List.length (req_PartitionNames req) =? 0)%nat) eqn:Hc1;
    [discriminate|].
  destruct (mustUsePartitionKey (task s) && negb mode) eqn:Hc2; [discriminate|].
  assert (Hnames : res_mode (mkResolved collID sch mode ([], [], [], false)) = true ->
                   req_PartitionNames req = []).
  { cbn. intros ->. cbn in Hc1. apply negb_false_iff, Nat.eqb_eq in Hc1.
    destruct (req_PartitionNames req); [reflexivity | discriminate]. }
  assert (Hmust : mustUsePartitionKey (task s) = true -> mode = true).
  { intros Hm. rewrite Hm in Hc2. destruct mode; [reflexivity | discriminate]. }
  destruct (negb mode && (0 <? List.length (req_PartitionNames req))%nat) eqn:Hc3;
    [destruct (getPartitionIDs (req_DbName req) (req_CollectionName req) (req_PartitionNames req))
       as [ids|msg] eqn:Hids; [|dead Hok]|];
    fwd Hok;
    (destruct (translateOutputFields (req_OutputFields req) sch true)
       as [[[[translated userOutput] userDynamic] pkExplicit]|msg] eqn:Hout;
     [|dead Hok]);
    fwd Hok; fwd Hok; fwd Hok;
    exists (mkResolved collID sch mode (translated, userOutput, userDynamic, pkExplicit));
    unfold resolvedBy, hasHeader, settled, asSent in *;
    rewrite Htask2 in Hh2; cbn in Hh2, Hnames |- *;
    (split; [tauto|]); (split; [exact Hnames|]); (split; [exact Hmust|]);
    (split; [exact Hh2|]); (split; [exact Hb2|]);
    repeat split; reflexivity.
Qed.

Lemma composeRequest_legs (ctx0 : Context) (s : State) :
  fst (composeRequest ctx0 s) = Ok tt ->
  sr_IsAdvanced (SearchRequest_ (task s)) = true ->
  Z.of_nat (List.length (req_SubReqs (request (task s)))) <= defaultMaxSearchRequest.
Proof.
  intros Hok Hadv. unfold composeRequest in Hok.
  rewrite bind_run in Hok. cbn [getSR gets fst snd] in Hok.
  rewrite bind_run in Hok. cbn [getTask gets fst snd] in Hok.
  rewrite Hadv in Hok. cbn [andb] in Hok.
  destruct (Z.ltb_spec defaultMaxSearchRequest
              (Z.of_nat (List.length (req_SubReqs (request (task s)))))) as [Hlt|Hge];
    [discriminate | exact Hge].
Qed.

(** The level of consistency a read is made at. *)
Definition levelOf (req : MilvusSearchRequest) (info : collectionInfo) : Z :=
  if req_UseDefaultConsistency req then consistencyLevel info else req_ConsistencyLevel req.

Lemma resolveConsistency_level (req : MilvusSearchRequest) (beginTs : Timestamp)
    (info : collectionInfo) :
  snd (resolveConsistency req beginTs info) = levelOf req info.
Proof.
  unfold resolveConsistency, levelOf.
  destruct (req_UseDefaultConsistency req); [reflexivity|].
  cbv zeta. destruct (_ && _); reflexivity.
Qed.

(** What the resolution of the guarantee timestamp writes besides the
    timestamps. *)
Definition marks (s : State) : bool * Z * bool :=
  (sr_IsIterator (SearchRequest_ (task s)), sr_ConsistencyLevel (SearchRequest_ (task s)),
   isIterator (task s)).

Lemma resolveGuaranteeTs_marks (info : collectionInfo) (s : State) :
  fst (resolveGuaranteeTs info s) = Ok tt ->
  marks (snd (resolveGuaranteeTs info s)) =
    (isIterator (task s), levelOf (request (task s)) info, isIterator (task s)).
Proof.
  intros Hok. unfold resolveGuaranteeTs in Hok |- *.
  rewrite bind_run in Hok |- *. cbn [getTask gets fst snd] in Hok |- *.
  rewrite bind_run in Hok |- *. rewrite BeginTs_reads in Hok |- *.
  destruct (fst (BeginTs s)) as [beginTs|e|]; try discriminate.
  rewrite <- (resolveConsistency_level (request (task s)) beginTs info).
  destruct (resolveConsistency (request (task s)) beginTs info) as [T level].
  cbn [snd]. clear Hok.
  destruct (isIterator (task s) && (0 <? req_GuaranteeTimestamp (request (task s))));
    reflexivity.
Qed.

Lemma after_resolution_keeps_marks v ctx0 info :
  keeps (fun s => marks s = v)
        (setTimeoutAndUser ctx0 ;; checkCollectionTTL info ;; finishPreExecute).
Proof.
  unfold setTimeoutAndUser, checkCollectionTTL, finishPreExecute, marks. keeps_tac.
Qed.

Lemma after_composition_keeps v w pb ctx0 info :
  keeps (fun s => settled s = v /\ frame s = w /\ sr_Base (SearchRequest_ (task s)) = pb)
        (resolveGuaranteeTs info ;; setTimeoutAndUser ctx0 ;; checkCollectionTTL info ;;
         finishPreExecute).
Proof.
  pose proof (fun I => reads_keeps I BeginTs BeginTs_reads) as HB.
  unfold resolveGuaranteeTs, setTimeoutAndUser, checkCollectionTTL, finishPreExecute,
    settled, frame.
  keeps_tac.
Qed.

Lemma prepareRequest_Ok (ctx0 : Context) (s : State) (p : ptr) (b : MsgBase)
    (info : collectionInfo) :
  hasHeader s p b ->
  fst (prepareRequest ctx0 s) = Ok info ->
  let s2 := snd (prepareRequest ctx0 s) in
  let req := request (task s) in
  exists c,
    resolvedBy req c
    /\ (res_mode c = true -> req_PartitionNames req = [])
    /\ (mustUsePartitionKey (task s) = true -> res_mode c = true)
    /\ (req_SubReqs req <> [] ->
        Z.of_nat (List.length (req_SubReqs req)) <= defaultMaxSearchRequest)
    /\ settled s2 =
         (req_CollectionName req, Some (res_schema c), res_mode c, mustUsePartitionKey (task s),
          enableMaterializedView (task s), ctx (task s), asSent req, res_outputs c)
    /\ bases s2 p = Some (searchHeader b)
    /\ (forall q, q <> p -> bases s2 q = bases s q)
    /\ (next s2, deprecatedShardCache s2, costMetrics s2)
       = (next s, deprecatedShardCache s, costMetrics s)
    /\ (executorKeepsHeader -> sr_Base (SearchRequest_ (task s2)) = Some p).
Proof.
  intros H Hok s2 req. subst s2. unfold prepareRequest in Hok |- *.
  ok_step Hok u1 H1. destruct u1.
  destruct (resolveCollection_Ok ctx0 s p b H H1)
    as (c & Hc & Hnames & Hmust & Hh1 & Hb1 & Hsettled & Hreq & Hadv & _).
  fold req in Hc, Hnames, Hsettled, Hreq, Hadv.
  assert (Hframe1 : next (snd (resolveCollection ctx0 s)) = next s
                    /\ deprecatedShardCache (snd (resolveCollection ctx0 s))
                       = deprecatedShardCache s
                    /\ costMetrics (snd (resolveCollection ctx0 s)) = costMetrics s).
  { assert (Hk : keeps (fun s0 => (next s0, deprecatedShardCache s0, costMetrics s0)
                                  = (next s, deprecatedShardCache s, costMetrics s))
                       (resolveCollection ctx0)).
    { pose proof (fun f => modBase_keeps
                    (fun s0 => (next s0, deprecatedShardCache s0, costMetrics s0)
                               = (next s, deprecatedShardCache s, costMetrics s)) f
                    (fun s0 h Hs0 => Hs0)) as Hmod.
      unfold resolveCollection. keeps_tac. }
    specialize (Hk s eq_refl). inversion Hk as [[Hn Hd Hcm]]. rewrite Hn, Hd, Hcm. tauto. }
  generalize dependent (snd (resolveCollection ctx0 s)). intros s1 Hok Hh1 Hb1 Hsettled Hreq Hadv Hframe1.
  ok_step Hok u2 H2. destruct u2.
  assert (Hlegs : req_SubReqs req <> [] ->
                  Z.of_nat (List.length (req_SubReqs req)) <= defaultMaxSearchRequest).
  { intros Hne. rewrite <- Hreq. apply (composeRequest_legs ctx0 s1 H2).
    rewrite Hadv. destruct (req_SubReqs req); [congruence | reflexivity]. }
  destruct (composeRequest_keeps_settled _ _ ctx0 s1 (conj Hsettled eq_refl)) as [Hsettled2 Hframe2].
  pose proof (fun Hexec => composeRequest_keeps_header (Some p) ctx0 Hexec s1 (proj1 Hh1))
    as Hbase2.
  generalize dependent (snd (composeRequest ctx0 s1)). intros s2 Hok Hsettled2 Hframe2 Hbase2.
  assert (Hreads : reads (t <- getTask ;;
                          sr <- getSR ;;
                          call (GetCollectionInfo (req_DbName (request t)) (collectionName t)
                                  (sr_CollectionID sr)))).
  { repeat (reads_step || apply getTask_reads || apply getSR_reads). }
  rewrite Hreads. clear Hok Hreads.
  exists c. unfold frame in Hframe2. inversion Hframe2 as [[Hbs Hn Hd Hcm]].
  destruct Hh1 as (_ & Hbp & _). destruct Hframe1 as (Hn1 & Hd1 & Hcm1).
  rewrite Hbs, Hn, Hd, Hcm, Hn1, Hd1, Hcm1.
  split; [exact Hc|]. repeat split; try assumption.
Qed.

Lemma PreExecute_Ok_steps (ctx0 : Context) (s : State) :
  fst (PreExecute ctx0 s) = Ok tt ->
  exists info s3 s4,
    fst (prepareRequest ctx0 s) = Ok info
    /\ fst (resolveGuaranteeTs info (snd (prepareRequest ctx0 s))) = Ok tt
    /\ s3 = snd (resolveGuaranteeTs info (snd (prepareRequest ctx0 s)))
    /\ snd (PreExecute ctx0 s)
       = snd ((resolveGuaranteeTs info ;; setTimeoutAndUser ctx0 ;; checkCollectionTTL info ;;
               finishPreExecute) (snd (prepareRequest ctx0 s)))
    /\ snd (PreExecute ctx0 s)
       = snd ((setTimeoutAndUser ctx0 ;; checkCollectionTTL info ;; finishPreExecute) s3)
    /\ snd (PreExecute ctx0 s) = set_task (set_resultBuf (Some cs_New) (task s4)) s4
    /\ ValidateTask (set_resultBuf (Some cs_New) (task s4)) = ExtOk tt.
Proof.
  intros Hok. unfold PreExecute in Hok |- *.
  destruct (bind_Ok_inv _ _ _ _ Hok) as [info [Hinfo Heq]].
  rewrite Heq in Hok |- *. clear Heq.
  exists info. set (s2 := snd (prepareRequest ctx0 s)) in *.
  destruct (bind_Ok_inv _ _ _ _ Hok) as [u [Hu Heq]].
  exists (snd (resolveGuaranteeTs info s2)).
  assert (Htail : exists s4,
            snd ((resolveGuaranteeTs info ;; setTimeoutAndUser ctx0 ;; checkCollectionTTL info ;;
                  finishPreExecute) s2)
            = set_task (set_resultBuf (Some cs_New) (task s4)) s4
            /\ ValidateTask (set_resultBuf (Some cs_New) (task s4)) = ExtOk tt).
  { clear Heq Hu. ok_step Hok u1 H1. ok_step Hok u2 H2. ok_step Hok u3 H3.
    match goal with
    | |- context [finishPreExecute ?s0] => exists s0; rewrite finishPreExecute_run in Hok |- *
    end.
    cbn [fst snd] in Hok |- *. split; [reflexivity|].
    destruct (ValidateTask _) as [[]|msg]; [reflexivity | discriminate]. }
  destruct Htail as [s4 [Hs4 Hvalid]]. exists s4.
  split; [exact Hinfo|]. destruct u. split; [exact Hu|]. split; [reflexivity|].
  split; [reflexivity|]. split; [rewrite Heq; reflexivity|]. split; assumption.
Qed.

(** X17: what a PreExecute that succeeded has established, on a task with
    a header.  The meta cache knows the collection, its schema and its
    partition key mode, and the output fields were translated; no
    partition was named in partition key mode, and partition key mode is
    on when the task must use it; an advanced search has no more legs than
    allowed.  The task carries the name of the collection, its schema, its
    mode and the translated output fields, and its request is as the client
    sent it but for nq; the result buffer is there and empty; the task
    passed its validation; the internal request carries the iterator flag
    of the task and the consistency level of the read.  The header of the
    task has the message type Search and this node as its source, and is
    otherwise as it was; no other header was written or allocated, and
    nothing was reported to the meta cache or the load balancer. *)
Theorem PreExecute_success (ctx0 : Context) (s : State) (p : ptr) (b : MsgBase) :
  hasHeader s p b ->
  fst (PreExecute ctx0 s) = Ok tt ->
  let s' := snd (PreExecute ctx0 s) in
  let req := request (task s) in
  exists c info,
    resolvedBy req c
    /\ fst (prepareRequest ctx0 s) = Ok info
    /\ (res_mode c = true -> req_PartitionNames req = [])
    /\ (mustUsePartitionKey (task s) = true -> res_mode c = true)
    /\ (req_SubReqs req <> [] ->
        Z.of_nat (List.length (req_SubReqs req)) <= defaultMaxSearchRequest)
    /\ settled s' =
         (req_CollectionName req, Some (res_schema c), res_mode c, mustUsePartitionKey (task s),
          enableMaterializedView (task s), ctx (task s), asSent req, res_outputs c)
    /\ resultBuf (task s') = Some cs_New
    /\ ValidateTask (task s') = ExtOk tt
    /\ sr_IsIterator (SearchRequest_ (task s')) = isIterator (task s')
    /\ sr_ConsistencyLevel (SearchRequest_ (task s')) = levelOf req info
    /\ bases s' p = Some (searchHeader b)
    /\ (forall q, q <> p -> bases s' q = bases s q)
    /\ (next s', deprecatedShardCache s', costMetrics s')
       = (next s, deprecatedShardCache s, costMetrics s)
    /\ (executorKeepsHeader -> hasHeader s' p (searchHeader b)).
Proof.
  intros H Hok s' req.
  destruct (PreExecute_Ok_steps ctx0 s Hok)
    as (info & s3 & s4 & Hinfo & HrG & Hs3 & Htail2 & Htail3 & Hs4 & Hvalid).
  destruct (prepareRequest_Ok ctx0 s p b info H Hinfo)
    as (c & Hc & Hnames & Hmust & Hlegs & Hsettled & Hbp & Hbq & Hframe & Hbase).
  fold req in Hc, Hnames, Hlegs, Hsettled.
  set (s2 := snd (prepareRequest ctx0 s)) in *.
  exists c, info.
  assert (Hkeep : forall pb, sr_Base (SearchRequest_ (task s2)) = pb ->
                    settled s' = settled s2 /\ frame s' = frame s2
                    /\ sr_Base (SearchRequest_ (task s')) = pb).
  { intros pb Hpb. subst s'. rewrite Htail2.
    apply (after_composition_keeps (settled s2) (frame s2) pb ctx0 info s2). tauto. }
  destruct (Hkeep _ eq_refl) as (Hsettled' & Hframe' & _).
  pose proof (resolveGuaranteeTs_marks info s2 HrG) as Hmarks. rewrite <- Hs3 in Hmarks.
  pose proof (after_resolution_keeps_marks _ ctx0 info s3 Hmarks) as Hmarks'.
  rewrite <- Htail3 in Hmarks'. fold s' in Hmarks'.
  unfold marks in Hmarks'. inversion Hmarks' as [[Hiter Hlevel Htaskiter]].
  assert (Hreq2 : levelOf (request (task s2)) info = levelOf req info).
  { pose proof (f_equal (fun v => snd (fst v)) Hsettled) as Hsent. cbn in Hsent.
    unfold levelOf.
    change (req_UseDefaultConsistency (request (task s2)))
      with (req_UseDefaultConsistency (asSent (request (task s2)))).
    change (req_ConsistencyLevel (request (task s2)))
      with (req_ConsistencyLevel (asSent (request (task s2)))).
    rewrite Hsent. reflexivity. }
  unfold frame in Hframe'. inversion Hframe' as [[Hbs Hn Hd Hcm]].
  split; [exact Hc|]. split; [exact Hinfo|]. split; [exact Hnames|]. split; [exact Hmust|].
  split; [exact Hlegs|]. split; [rewrite Hsettled'; exact Hsettled|].
  split; [fold s' in Hs4; rewrite Hs4; destruct (task s4); reflexivity|].
  split; [fold s' in Hs4; rewrite Hs4; exact Hvalid|].
  split; [congruence|].
  split; [congruence|].
  split; [rewrite Hbs; exact Hbp|].
  split; [intros q Hq; rewrite Hbs; exact (Hbq q Hq)|].
  split; [rewrite Hn, Hd, Hcm; exact Hframe|].
  intros Hexec. destruct (Hkeep _ (Hbase Hexec)) as (_ & _ & Hbase').
  unfold hasHeader. rewrite Hbs, Hn. split; [exact Hbase'|]. split; [exact Hbp|].
  assert (Hn2 : next s2 = next s) by congruence.
  rewrite Hn2. destruct H as (_ & _ & Hlt). exact Hlt.
Qed.

(** How the resolution of the collection ends, read off the answers of the
    meta cache. *)
Definition resolution (t : searchTask) : res unit :=
  let req := request t in
  let db := req_DbName req in
  let name := req_CollectionName req in
  match GetCollectionID db name with
  | ExtErr msg => Err (WrapErrAsInputErrorWhen (External msg))
  | ExtOk _ =>
      match GetCollectionSchema db name with
      | ExtErr msg => Err (External msg)
      | ExtOk sch =>
          match isPartitionKeyMode db name with
          | ExtErr msg => Err (External msg)
          | ExtOk mode =>
              if mode && negb (List.length (req_PartitionNames req) =? 0)%nat
              then Err partitionNamesInKeyMode
              else if mustUsePartitionKey t && negb mode then Err partitionKeyRequired
              else
                match
                  (if negb mode && (0 <? List.length (req_PartitionNames req))%nat
                   then getPartitionIDs db name (req_PartitionNames req)
                   else ExtOk [])
                with
                | ExtErr msg => Err (External msg)
                | ExtOk _ =>
                    match translateOutputFields (req_OutputFields req) sch true with
                    | ExtErr msg => Err (External msg)
                    | ExtOk _ => Ok tt
                    end
                end
          end
      end
  end.

Lemma resolveCollection_fst (ctx0 : Context) (s : State) (p : ptr) (b : MsgBase) :
  hasHeader s p b ->
  fst (resolveCollection ctx0 s) = resolution (task s).
Proof.
  intros H. unfold resolveCollection, resolution.
  rewrite bind_run. cbn [getTask gets fst snd].
  rewrite bind_run. cbn [modSR modTask modify fst snd].
  match goal with
  | |- fst (bind _ _ ?s0) = _ =>
      assert (H0 : hasHeader s0 p b)
        by (destruct H as (Hp & Hb & Hlt); unfold hasHeader; cbn;
            split; [destruct (task s); exact Hp | tauto]);
      pose proof (hasHeader_modBase s0 p b (set_base_MsgType MsgType_Search) H0) as H1;
      rewrite (modBase_run s0 p b _ H0) in H1;
      rewrite bind_run, (modBase_run s0 p b _ H0)
  end.
  cbn [fst snd] in H1 |- *.
  match goal with
  | |- fst (bind _ _ ?s0) = _ => rewrite bind_run, (modBase_run s0 _ _ _ H1)
  end.
  cbn [fst snd]. clear H0 H1.
  run. cbv zeta.
  set (req := request (task s)).
  destruct (GetCollectionID (req_DbName req) (req_CollectionName req)) as [collID|msg];
    [|repeat run; reflexivity].
  run. run. run.
  destruct (GetCollectionSchema (req_DbName req) (req_CollectionName req)) as [sch|msg];
    [|repeat run; reflexivity].
  run. run.
  destruct (isPartitionKeyMode (req_DbName req) (req_CollectionName req)) as [mode|msg];
    [|repeat run; reflexivity].
  run. run. fold req.
  destruct (mode && negb (List.length (req_PartitionNames req) =? 0)%nat); [reflexivity|].
  destruct (mustUsePartitionKey (task s) && negb mode); [reflexivity|].
  destruct (negb mode && (0 <? List.length (req_PartitionNames req))%nat);
    [destruct (getPartitionIDs (req_DbName req) (req_CollectionName req) (req_PartitionNames req))
       as [ids|msg]; [|repeat run; reflexivity]|];
    run;
    (destruct (translateOutputFields (req_OutputFields req) sch true)
       as [[[[translated userOutput] userDynamic] pkExplicit]|msg];
     [repeat run; reflexivity | repeat run; reflexivity]).
Qed.

Definition tooManyLegs : error := errors_New "maximum of ann search requests is %d".

Lemma PreExecute_resolution_error (ctx0 : Context) (s : State) (e : error) :
  fst (resolveCollection ctx0 s) = Err e -> fst (PreExecute ctx0 s) = Err e.
Proof.
  intros H. unfold PreExecute. apply bind_Err. unfold prepareRequest. apply bind_Err. exact H.
Qed.

(** X18: the requests PreExecute turns down before it composes anything,
    on a task with a header.  A collection the meta cache does not know is
    an input error that wraps the error of the cache.  Naming partitions
    in a search of a collection in partition key mode is an error, and so
    is a search of a collection that is not in partition key mode by a task
    that must use the partition key.  An advanced search of a resolved
    collection with more legs than allowed is an error, before the legs are
    looked at. *)
Theorem PreExecute_early_rejections (ctx0 : Context) (s : State) (p : ptr) (b : MsgBase) :
  hasHeader s p b ->
  let req := request (task s) in
  let db := req_DbName req in
  let name := req_CollectionName req in
  let r := fst (PreExecute ctx0 s) in
  (forall msg, GetCollectionID db name = ExtErr msg ->
     r = Err (WrapErrAsInputErrorWhen (External msg)))
  /\ (forall collID sch,
        GetCollectionID db name = ExtOk collID ->
        GetCollectionSchema db name = ExtOk sch ->
        (isPartitionKeyMode db name = ExtOk true -> req_PartitionNames req <> [] ->
         r = Err partitionNamesInKeyMode)
        /\ (isPartitionKeyMode db name = ExtOk false -> mustUsePartitionKey (task s) = true ->
            r = Err partitionKeyRequired))
  /\ (fst (resolveCollection ctx0 s) = Ok tt ->
      req_SubReqs req <> [] ->
      defaultMaxSearchRequest < Z.of_nat (List.length (req_SubReqs req)) ->
      r = Err tooManyLegs).
Proof.
  intros H req db name r. subst r.
  pose proof (resolveCollection_fst ctx0 s p b H) as Hfst.
  unfold resolution in Hfst. fold req db name in Hfst.
  split; [|split].
  - intros msg Hid. apply PreExecute_resolution_error. rewrite Hfst, Hid. reflexivity.
  - intros collID sch Hid Hsch. rewrite Hid, Hsch in Hfst. split.
    + intros Hmode Hnames. apply PreExecute_resolution_error. rewrite Hfst, Hmode.
      destruct (req_PartitionNames req); [congruence | reflexivity].
    + intros Hmode Hmust. apply PreExecute_resolution_error. rewrite Hfst, Hmode, Hmust.
      reflexivity.
  - intros Hok Hne Hlen.
    destruct (resolveCollection_Ok ctx0 s p b H Hok)
      as (c & _ & _ & _ & _ & _ & _ & Hreq & Hadv & _).
    fold req in Hreq, Hadv.
    unfold PreExecute. apply bind_Err. unfold prepareRequest.
    rewrite (bind_Ok _ _ _ _ Hok). apply bind_Err.
    unfold composeRequest.
    rewrite bind_run. cbn [getSR gets fst snd].
    rewrite bind_run. cbn [getTask gets fst snd].
    rewrite Hadv, Hreq.
    apply Z.ltb_lt in Hlen. rewrite Hlen.
    destruct (req_SubReqs req); [congruence | reflexivity].
Qed.

(** *** The legs of an advanced search *)

(** What setQueryInfoIfMvEnable leaves of a query info: all but the hints
    and the mark of the materialized view. *)
Definition searched (q : QueryInfo) : int64 * string * int64 * int64 * int64 * option SearchIteratorV2Info :=
  (qi_Topk q, qi_MetricType q, qi_QueryFieldId q, qi_GroupByFieldId q, qi_GroupSize q,
   qi_SearchIteratorV2Info q).

Lemma setQueryInfoIfMvEnable_searched (queryInfo : QueryInfo) (plan : PlanNode) (s : State)
    (q : QueryInfo) :
  fst (setQueryInfoIfMvEnable queryInfo plan s) = Ok q -> searched q = searched queryInfo.
Proof.
  intros H. unfold setQueryInfoIfMvEnable in H.
  rewrite bind_run in H. cbn [getTask gets fst snd] in H.
  destruct (enableMaterializedView (task s)); [|inversion H; reflexivity].
  rewrite bind_run, getSchema_reads in H.
  destruct (fst (getSchema s)) as [sch|e|]; try discriminate.
  rewrite bind_run in H. unfold call in H.
  destruct (GetPartitionKeyFieldSchema sch) as [field|msg]; cbn [ret fail fst snd] in H;
    try discriminate.
  destruct (IsFieldDataTypeSupportMaterializedView field); [|discriminate].
  rewrite bind_run in H. cbn [getSR gets fst snd] in H.
  destruct (GetCollectionInfo _ _ _) as [info|msg]; [|inversion H; reflexivity].
  rewrite bind_run in H.
  destruct (partitionKeyIsolation info).
  - rewrite bind_run in H.
    destruct (ParseExprFromPlan plan) as [expr|msg]; cbn [ret fail fst snd] in H;
      try discriminate.
    rewrite bind_run in H.
    destruct (ValidatePartitionKeyIsolation expr) as [[]|msg]; cbn [ret fail fst snd] in H;
      try discriminate.
    inversion H. reflexivity.
  - inversion H. reflexivity.
Qed.

(** The part of the loop over the legs that settles the partitions of a
    leg. *)
Definition legPartitions (queryInfo : QueryInfo) (plan : PlanNode)
    (internalSubReq : SubSearchRequest) (sr : SearchRequest) (t : searchTask)
  : M (QueryInfo * SubSearchRequest) :=
  if partitionKeyMode t then
    queryInfo <- setQueryInfoIfMvEnable queryInfo plan ;;
    partitionIDs <- tryParsePartitionIDsFromPlan plan ;;
    if (0 <? List.length partitionIDs)%nat then
      match partitionIDsSet t with
      | None => panic
      | Some ids =>
          modTask (set_partitionIDsSet (Some (set_insert partitionIDs ids))) ;;
          ret (queryInfo, set_isub_PartitionIDs partitionIDs internalSubReq)
      end
    else ret (queryInfo, internalSubReq)
  else ret (queryInfo, set_isub_PartitionIDs (sr_PartitionIDs sr) internalSubReq).

(** The set of partitions of the task once a leg was added to it. *)
Definition partitionsWith (t : searchTask) (internal : SubSearchRequest) : option (list UniqueID) :=
  if partitionKeyMode t
  then option_map (set_insert (isub_PartitionIDs internal)) (partitionIDsSet t)
  else partitionIDsSet t.

Lemma set_partitionIDsSet_same (t : searchTask) : set_partitionIDsSet (partitionIDsSet t) t = t.
Proof. destruct t; reflexivity. Qed.

Lemma legPartitions_Ok (queryInfo : QueryInfo) (plan : PlanNode) (i0 : SubSearchRequest)
    (sr : SearchRequest) (s : State) (q : QueryInfo) (internal : SubSearchRequest) :
  isub_PartitionIDs i0 = [] ->
  fst (legPartitions queryInfo plan i0 sr (task s) s) = Ok (q, internal) ->
  searched q = searched queryInfo
  /\ set_isub_PartitionIDs [] internal = set_isub_PartitionIDs [] i0
  /\ (partitionKeyMode (task s) = false -> isub_PartitionIDs internal = sr_PartitionIDs sr)
  /\ snd (legPartitions queryInfo plan i0 sr (task s) s)
     = set_task (set_partitionIDsSet (partitionsWith (task s) internal) (task s)) s
  /\ (partitionKeyMode (task s) = true ->
      fst (setQueryInfoIfMvEnable queryInfo plan s) = Ok q).
Proof.
  intros Hnil H. unfold legPartitions, partitionsWith in H |- *.
  destruct (partitionKeyMode (task s)) eqn:Hpk.
  - destruct (bind_Ok_inv _ _ _ _ H) as [q' [Hq Heq]].
    rewrite Heq in H |- *. clear Heq. rewrite setQueryInfoIfMvEnable_reads in H |- *.
    destruct (bind_Ok_inv _ _ _ _ H) as [pids [Hpids Heq]].
    rewrite Heq in H |- *. clear Heq. rewrite tryParsePartitionIDsFromPlan_reads in H |- *.
    pose proof (setQueryInfoIfMvEnable_searched _ _ _ _ Hq) as Hsearched.
    destruct pids as [|pid pids]; cbn [List.length Nat.ltb Nat.leb] in H |- *.
    + cbn in H. inversion H; subst. rewrite Hnil.
      split; [exact Hsearched|]. split; [reflexivity|]. split; [discriminate|].
      split; [|intros _; exact Hq].
      assert (Hid : forall x : option (list UniqueID), option_map (set_insert []) x = x)
        by (intros [l|]; reflexivity).
      cbn [ret snd]. rewrite Hid, set_partitionIDsSet_same. destruct s; reflexivity.
    + destruct (partitionIDsSet (task s)) as [ids|] eqn:Hset; [|discriminate].
      cbn in H. inversion H; subst.
      split; [exact Hsearched|]. split; [reflexivity|]. split; [discriminate|].
      split; [reflexivity | intros _; exact Hq].
  - cbn in H. inversion H; subst.
    split; [reflexivity|]. split; [reflexivity|]. split; [reflexivity|].
    split; [|discriminate].
    cbn [ret snd]. rewrite set_partitionIDsSet_same. destruct s; reflexivity.
Qed.

(** The internal sub-request the loop builds for a leg before it settles
    its partitions and serializes its plan. *)
Definition internalLeg (t : searchTask) (subReq : SubSearchReq TemplateValues)
    (queryInfo : QueryInfo) (offset : int64) (ignoreGrowing : bool) : SubSearchRequest :=
  let internalSubReq :=
    {| isub_Dsl := sub_Dsl subReq;
       isub_PlaceholderGroup := sub_PlaceholderGroup subReq;
       isub_DslType := sub_DslType subReq;
       isub_SerializedExprPlan := [];
       isub_Nq := sub_Nq subReq;
       isub_PartitionIDs := [];
       isub_Topk := qi_Topk queryInfo;
       isub_Offset := offset;
       isub_MetricType := qi_MetricType queryInfo;
       isub_GroupByFieldId := rank_GetGroupByFieldId (rankParams t);
       isub_GroupSize := rank_GetGroupSize (rankParams t);
       isub_IgnoreGrowing := ignoreGrowing;
       isub_AnalyzerName := "";
       isub_FieldId := 0 |} in
  let internalSubReq :=
    match GetAttrByKeyFromRepeatedKV "analyzer_name" (sub_SearchParams subReq) with
    | ExtOk analyzer => set_isub_AnalyzerName analyzer internalSubReq
    | ExtErr _ => internalSubReq
    end in
  set_isub_FieldId (qi_QueryFieldId queryInfo) internalSubReq.

Lemma tryGeneratePlan_frame (params : KeyValuePairs) (dsl : string) (tv : TemplateValues)
    (s1 s2 : State) :
  schema (task s1) = schema (task s2) ->
  rankParams (task s1) = rankParams (task s2) ->
  sr_CollectionID (SearchRequest_ (task s1)) = sr_CollectionID (SearchRequest_ (task s2)) ->
  fst (tryGeneratePlan params dsl tv s1) = fst (tryGeneratePlan params dsl tv s2).
Proof.
  intros Hsch Hrank Hcoll. destruct (schema (task s2)) as [sch|] eqn:Hsch2.
  - rewrite (tryGeneratePlan_run params dsl tv s1 sch Hsch),
      (tryGeneratePlan_run params dsl tv s2 sch Hsch2).
    unfold planOn. rewrite Hrank, Hcoll. reflexivity.
  - unfold tryGeneratePlan. rewrite !bind_run. unfold getSchema.
    rewrite !bind_run. cbn [getTask gets fst snd]. rewrite Hsch, Hsch2. reflexivity.
Qed.

(** What stands for a leg in the internal request: a sub-request with the
    expression, the vectors and the nq of the leg, searched on the field
    and with the top-k and the metric of the query info of the leg, grouped
    as the rank parameters say, searched in the partitions of the request
    when the collection is not in partition key mode, and carrying the
    offset and the plan that tryGeneratePlan makes of the leg, the plan
    marshalled without its output fields and dynamic fields. *)
Definition standsFor (t : searchTask) (leg : SubSearchReq TemplateValues)
    (internal : SubSearchRequest) (queryInfo : QueryInfo) : Prop :=
  isub_Dsl internal = sub_Dsl leg
  /\ isub_PlaceholderGroup internal = sub_PlaceholderGroup leg
  /\ isub_DslType internal = sub_DslType leg
  /\ isub_Nq internal = sub_Nq leg
  /\ isub_FieldId internal = qi_QueryFieldId queryInfo
  /\ isub_Topk internal = qi_Topk queryInfo
  /\ isub_MetricType internal = qi_MetricType queryInfo
  /\ isub_GroupByFieldId internal = rank_GetGroupByFieldId (rankParams t)
  /\ isub_GroupSize internal = rank_GetGroupSize (rankParams t)
  /\ (partitionKeyMode t = false ->
      isub_PartitionIDs internal = sr_PartitionIDs (SearchRequest_ t))
  /\ exists plan generated isIterator0,
       (forall s0 : State,
          schema (task s0) = schema t ->
          rankParams (task s0) = rankParams t ->
          sr_CollectionID (SearchRequest_ (task s0)) = sr_CollectionID (SearchRequest_ t) ->
          fst (tryGeneratePlan (sub_SearchParams leg) (sub_Dsl leg)
                 (sub_ExprTemplateValues leg) s0)
          = Ok (plan, generated, isub_Offset internal, isIterator0))
       /\ searched queryInfo = searched generated
       /\ proto_Marshal (set_plan_DynamicFields [] (set_plan_OutputFieldIds [] plan)) queryInfo
          = ExtOk (isub_SerializedExprPlan internal).

Lemma initAdvanced_loop_step (index : nat) (subReq : SubSearchReq TemplateValues)
    (rest : list (SubSearchReq TemplateValues)) (ids ids' : list int64) (s : State) :
  fst (initAdvanced_loop index (subReq :: rest) ids s) = Ok ids' ->
  exists internal q subReqs' queryInfos',
    initAdvanced_loop index (subReq :: rest) ids s
    = initAdvanced_loop (S index) rest (ids ++ [isub_FieldId internal])%list
        (set_task
           (set_queryInfos queryInfos'
              (set_SearchRequest (set_sr_SubReqs subReqs' (SearchRequest_ (task s)))
                 (set_partitionIDsSet (partitionsWith (task s) internal) (task s))))
           s)
    /\ setIndex index (Some internal) (sr_SubReqs (SearchRequest_ (task s))) = Some subReqs'
    /\ setIndex index (Some q) (queryInfos (task s)) = Some queryInfos'
    /\ standsFor (task s) subReq internal q
    /\ (partitionKeyMode (task s) = true ->
        exists plan generated offset isIterator0,
          fst (tryGeneratePlan (sub_SearchParams subReq) (sub_Dsl subReq)
                 (sub_ExprTemplateValues subReq) s)
          = Ok (plan, generated, offset, isIterator0)
          /\ fst (setQueryInfoIfMvEnable generated plan s) = Ok q).
Proof.
  intros Hok. cbn [initAdvanced_loop] in Hok |- *.
  ok_step Hok gen Hgen. rewrite tryGeneratePlan_reads in Hok |- *.
  destruct gen as [[[plan queryInfo] offset] iter].
  rewrite bind_run in Hok |- *. cbn [getSR gets fst snd] in Hok |- *.
  ok_step Hok ignoreGrowing Hig.
  match type of Hig with
  | fst (?m s) = _ =>
      assert (Hr : reads m) by (destruct (negb _); [apply reads_call | apply reads_ret]);
      rewrite Hr in Hok |- *; clear Hr
  end.
  rewrite bind_run in Hok |- *. cbn [getTask gets fst snd] in Hok |- *.
  cbv zeta in Hok |- *.
  match type of Hok with
  | fst (bind ?blk _ s) = _ =>
      change blk
        with (legPartitions queryInfo plan
                (internalLeg (task s) subReq queryInfo offset ignoreGrowing)
                (SearchRequest_ (task s)) (task s)) in Hok |- *
  end.
  ok_step Hok pr Hpr. destruct pr as [q internal].
  assert (Hnil : isub_PartitionIDs (internalLeg (task s) subReq queryInfo offset ignoreGrowing)
                 = []).
  { unfold internalLeg. destruct (GetAttrByKeyFromRepeatedKV _ _); reflexivity. }
  destruct (legPartitions_Ok queryInfo plan _ _ s q internal Hnil Hpr)
    as (Hsearched & Hsame & Hnonpk & Hsnd & Hchecked).
  rewrite Hsnd in Hok |- *. clear Hsnd Hpr.
  ok_step Hok serialized Hser.
  match type of Hser with
  | fst (call ?c ?s1) = _ =>
      rewrite (reads_call c s1) in Hok |- *;
      assert (Hmarshal : c = ExtOk serialized)
        by (unfold call in Hser; destruct c; [inversion Hser; reflexivity | discriminate])
  end.
  clear Hser.
  rewrite bind_run in Hok |- *. cbn [getTask gets fst snd] in Hok |- *.
  norm_state Hok.
  destruct (setIndex index (Some (set_isub_SerializedExprPlan serialized internal))
              (sr_SubReqs (SearchRequest_ (task s)))) as [subReqs'|] eqn:Hsub;
    [|discriminate].
  destruct (setIndex index (Some q) (queryInfos (task s))) as [queryInfos'|] eqn:Hqi;
    [|discriminate].
  fwd Hok. fwd Hok.
  exists (set_isub_SerializedExprPlan serialized internal), q, subReqs', queryInfos'.
  unfold internalLeg in Hsame, Hnonpk. unfold searched in Hsearched.
  destruct (GetAttrByKeyFromRepeatedKV "analyzer_name" (sub_SearchParams subReq))
    as [analyzer|msg];
    cbn in Hsame; inversion Hsame as [[HDsl HPg HDt HSer HNq HTopk HOff HMt HGb HGs HIg HAn HFid]];
    inversion Hsearched as [[HqTopk HqMt HqFid HqGb HqGs HqIt]];
    (split; [|split; [exact Hsub|split; [exact Hqi|split;
       [|intros Hmode; exists plan, queryInfo, offset, iter;
         split; [first [exact Hgen | rewrite HDsl; exact Hgen] | exact (Hchecked Hmode)]]]]]);
    try (unfold partitionsWith; cbn; rewrite HFid; reflexivity);
    unfold standsFor; cbn;
    repeat (split; [congruence|]);
    (split; [exact Hnonpk|]); exists plan, queryInfo, iter;
    (split; [|split; [exact Hsearched | exact Hmarshal]]);
    intros s0 H1 H2 H3;
    rewrite (tryGeneratePlan_frame _ _ _ s0 s H1 H2 H3), Hgen; congruence.
Qed.

Lemma setIndex_Some {A} (index : nat) (v : A) (l l' : list A) :
  setIndex index v l = Some l' ->
  List.length l' = List.length l
  /\ nth_error l' index = Some v
  /\ (forall j, j <> index -> nth_error l' j = nth_error l j).
Proof.
  revert index l'. induction l as [|x rest IH]; intros index l' H;
    [destruct index; cbn in H; congruence|].
  destruct index as [|i]; cbn [setIndex] in H.
  - inversion H; subst. split; [reflexivity|]. split; [reflexivity|].
    intros [|j] Hj; [congruence | reflexivity].
  - destruct (setIndex i v rest) as [rest'|] eqn:Hrest; [|discriminate].
    inversion H; subst. destruct (IH i rest' Hrest) as (Hlen & Hnth & Hother).
    split; [cbn; rewrite Hlen; reflexivity|]. split; [exact Hnth|].
    intros [|j] Hj; [reflexivity|]. cbn. apply Hother. congruence.
Qed.

(** What the loop over the legs does not write: all of the task but the
    sub-requests, the query infos and the set of partitions. *)
Definition loopFrame (s : State) :=
  (set_partitionIDsSet None
     (set_queryInfos []
        (set_SearchRequest (set_sr_SubReqs [] (SearchRequest_ (task s))) (task s))),
   frame s).

Lemma initAdvanced_loop_Ok (rest : list (SubSearchReq TemplateValues)) :
  forall (index : nat) (ids ids' : list int64) (s : State),
  fst (initAdvanced_loop index rest ids s) = Ok ids' ->
  let s' := snd (initAdvanced_loop index rest ids s) in
  let subReqs s0 := sr_SubReqs (SearchRequest_ (task s0)) in
  loopFrame s' = loopFrame s
  /\ List.length (subReqs s') = List.length (subReqs s)
  /\ List.length (queryInfos (task s')) = List.length (queryInfos (task s))
  /\ (forall j, (j < index)%nat ->
        nth_error (subReqs s') j = nth_error (subReqs s) j
        /\ nth_error (queryInfos (task s')) j = nth_error (queryInfos (task s)) j)
  /\ (forall k leg, nth_error rest k = Some leg ->
        exists internal q,
          nth_error (subReqs s') (index + k) = Some (Some internal)
          /\ nth_error (queryInfos (task s')) (index + k) = Some (Some q)
          /\ standsFor (task s) leg internal q)
  /\ (partitionKeyMode (task s) = true ->
      forall ids0, partitionIDsSet (task s) = Some ids0 ->
      exists ids1,
        partitionIDsSet (task s') = Some ids1
        /\ (NoDup ids0 -> NoDup ids1)
        /\ (forall x, In x ids1 <->
                      In x ids0
                      \/ exists k internal,
                           (k < List.length rest)%nat
                           /\ nth_error (subReqs s') (index + k) = Some (Some internal)
                           /\ In x (isub_PartitionIDs internal))).
Proof.
  induction rest as [|subReq rest IH]; intros index ids ids' s Hok s' subReqs.
  - subst s'. cbn.
    split; [reflexivity|]. split; [reflexivity|]. split; [reflexivity|].
    split; [intros; split; reflexivity|].
    split; [intros [|k] leg Hk; discriminate|].
    intros _ ids0 Hset. exists ids0. split; [exact Hset|]. split; [tauto|].
    intros x. split; [tauto|]. intros [Hx|(k & internal & Hk & _)]; [exact Hx | lia].
  - destruct (initAdvanced_loop_step index subReq rest ids ids' s Hok)
      as (internal & q & subReqs1 & queryInfos1 & Heq & Hsub & Hqi & Hstands & _).
    subst s'. rewrite Heq in Hok |- *. clear Heq.
    destruct (setIndex_Some _ _ _ _ Hsub) as (Hlen1 & Hnth1 & Hother1).
    destruct (setIndex_Some _ _ _ _ Hqi) as (Hlenq1 & Hnthq1 & Hotherq1).
    match type of Hok with
    | fst (initAdvanced_loop _ _ ?ids1 ?s1) = _ =>
        specialize (IH (S index) ids1 ids' s1 Hok); set (s' := snd (initAdvanced_loop (S index) rest ids1 s1)) in *;
        assert (Hsub1 : subReqs s1 = subReqs1) by reflexivity;
        assert (Hq1 : queryInfos (task s1) = queryInfos1) by reflexivity;
        assert (Hframe1 : loopFrame s1 = loopFrame s) by reflexivity;
        assert (Hstands1 : forall leg i0 q0, standsFor (task s1) leg i0 q0
                                             -> standsFor (task s) leg i0 q0)
          by (intros leg i0 q0 Hst; exact Hst);
        assert (Hpk1 : partitionKeyMode (task s1) = partitionKeyMode (task s)) by reflexivity;
        assert (Hset1 : partitionIDsSet (task s1) = partitionsWith (task s) internal)
          by reflexivity;
        generalize dependent s1
    end.
    intros s1 s' IH Hok1 Hsub1 Hq1 Hframe1 Hstands1 Hpk1 Hset1.
    cbv zeta in IH. fold subReqs in IH.
    destruct IH as (Hframe & Hlen & Hlenq & Hbelow & Hlegs & Hparts).
    split; [congruence|].
    split; [rewrite Hlen, Hsub1; exact Hlen1|].
    split; [rewrite Hlenq, Hq1; exact Hlenq1|].
    split; [|split].
    + intros j Hj. destruct (Hbelow j ltac:(lia)) as [Hs Hq].
      rewrite Hs, Hq, Hsub1, Hq1. split; [apply Hother1 | apply Hotherq1]; lia.
    + intros [|k] leg Hk.
      * cbn in Hk. inversion Hk; subst leg.
        destruct (Hbelow index ltac:(lia)) as [Hs Hq].
        exists internal, q. rewrite Nat.add_0_r, Hs, Hq, Hsub1, Hq1. tauto.
      * cbn in Hk. destruct (Hlegs k leg Hk) as (i0 & q0 & Hs & Hq & Hst).
        exists i0, q0. replace (index + S k)%nat with (S index + k)%nat by lia.
        split; [exact Hs|]. split; [exact Hq|]. apply Hstands1. exact Hst.
    + intros Hpk ids0 Hset.
      rewrite Hpk1 in Hparts. unfold partitionsWith in Hset1. rewrite Hpk, Hset in Hset1.
      cbn [option_map] in Hset1.
      destruct (Hparts Hpk _ Hset1) as (ids1 & Hset' & Hnodup & Hin).
      exists ids1. split; [exact Hset'|].
      split; [intros Hnd; apply Hnodup, set_insert_NoDup; exact Hnd|].
      intros x. rewrite Hin, set_insert_In.
      destruct (Hbelow index ltac:(lia)) as [Hs _]. rewrite Hsub1, Hnth1 in Hs.
      split.
      * intros [[Hx|Hx]|(k & i0 & Hk & Hnth & Hx)].
        -- right. exists O, internal. rewrite Nat.add_0_r. cbn. split; [lia|]. tauto.
        -- left. exact Hx.
        -- right. exists (S k), i0. replace (index + S k)%nat with (S index + k)%nat by lia.
           cbn. split; [lia|]. tauto.
      * intros [Hx|(k & i0 & Hk & Hnth & Hx)]; [tauto|].
        destruct k as [|k].
        -- rewrite Nat.add_0_r, Hs in Hnth. inversion Hnth; subst i0. tauto.
        -- right. exists k, i0. replace (S index + k)%nat with (index + S k)%nat by lia.
           cbn in Hk. split; [lia|]. tauto.
Qed.

Lemma standsFor_ext (t t' : searchTask) leg internal q :
  rankParams t' = rankParams t ->
  schema t' = schema t ->
  sr_CollectionID (SearchRequest_ t') = sr_CollectionID (SearchRequest_ t) ->
  (partitionKeyMode t' = false ->
   partitionKeyMode t = false
   /\ sr_PartitionIDs (SearchRequest_ t') = sr_PartitionIDs (SearchRequest_ t)) ->
  standsFor t leg internal q -> standsFor t' leg internal q.
Proof.
  unfold standsFor.
  intros Hrank Hsch Hcoll Hpk (H1 & H2 & H3 & H4 & H5 & H6 & H7 & H8 & H9 & H10 & H11).
  rewrite Hrank, Hsch, Hcoll. repeat (split; [assumption|]).
  split; [|exact H11]. intros Hmode. destruct (Hpk Hmode) as [Hmode' Hids].
  rewrite Hids. exact (H10 Hmode').
Qed.

(** X19: what initAdvancedSearchRequest builds for the legs of an
    advanced search, when it succeeds on a collection whose schema has no
    functions to call but BM25.  The internal request has one sub-request
    and the task one query info per leg of the client's request, at the
    index of the leg; the sub-request carries the expression, the vectors,
    the expression type and the nq of the leg, the field, the top-k and the
    metric type of the query info of the leg, the grouping of the rank
    parameters, the offset tryGeneratePlan returns for the leg, and the
    plan it makes of the leg, marshalled with its output fields and dynamic
    fields removed.  The internal request is grouped as the
    rank parameters say.  Outside partition key mode every sub-request is
    searched in the partitions of the internal request, which stay as they
    were; in partition key mode the partitions of the internal request are,
    without duplicates, exactly those of its sub-requests. *)
Theorem initAdvancedSearchRequest_legs (ctx0 : Context) (s : State) (sch : SchemaInfo) :
  schema (task s) = Some sch ->
  (forall ids, HasNonBM25Functions sch ids = false) ->
  fst (initAdvancedSearchRequest ctx0 s) = Ok tt ->
  let s' := snd (initAdvancedSearchRequest ctx0 s) in
  let legs := req_SubReqs (request (task s)) in
  let internals := sr_SubReqs (SearchRequest_ (task s')) in
  List.length internals = List.length legs
  /\ List.length (queryInfos (task s')) = List.length legs
  /\ (forall k leg, nth_error legs k = Some leg ->
        exists internal q,
          nth_error internals k = Some (Some internal)
          /\ nth_error (queryInfos (task s')) k = Some (Some q)
          /\ standsFor (task s') leg internal q)
  /\ sr_GroupByFieldId (SearchRequest_ (task s')) = rank_GetGroupByFieldId (rankParams (task s'))
  /\ sr_GroupSize (SearchRequest_ (task s')) = rank_GetGroupSize (rankParams (task s'))
  /\ (partitionKeyMode (task s) = true ->
      NoDup (sr_PartitionIDs (SearchRequest_ (task s')))
      /\ forall x, In x (sr_PartitionIDs (SearchRequest_ (task s'))) <->
                   exists k internal,
                     nth_error internals k = Some (Some internal)
                     /\ In x (isub_PartitionIDs internal))
  /\ (partitionKeyMode (task s) = false ->
      sr_PartitionIDs (SearchRequest_ (task s')) = sr_PartitionIDs (SearchRequest_ (task s))).
Proof.
  intros Hsch Hudf Hok s' legs internals. subst s' legs internals.
  unfold initAdvancedSearchRequest in Hok |- *.
  fwd Hok. fwd Hok.
  rewrite bind_run in Hok |- *.
  rewrite (getSchema_run _ sch) in Hok |- * by exact Hsch.
  cbn [fst snd] in Hok |- *.
  destruct (match req_FunctionScore (request (task s)) with
            | Some desc => NewFunctionScore sch desc
            | None => NewFunctionScoreWithlegacy sch (req_SearchParams (request (task s)))
            end) as [fs|msg]; [|dead Hok].
  fwd Hok. fwd Hok. fwd Hok.
  destruct (parseRankParams (req_SearchParams (request (task s))) sch) as [rp|msg];
    [|dead Hok].
  fwd Hok. fwd Hok.
  destruct (negb (IsSupportGroup fs) && (0 <=? rank_GetGroupByFieldId (Some rp)));
    [discriminate Hok|].
  fwd Hok. fwd Hok.
  rewrite bind_run in Hok |- *.
  match type of Hok with
  | context [initAdvanced_loop 0 ?l [] ?st] =>
      set (s0 := st) in *;
      assert (Hsch0 : schema (task s0) = Some sch) by exact Hsch;
      assert (Hrank0 : rankParams (task s0) = Some rp) by reflexivity;
      assert (Hmode0 : partitionKeyMode (task s0) = partitionKeyMode (task s)) by reflexivity;
      assert (Hids0 : sr_PartitionIDs (SearchRequest_ (task s0))
                      = sr_PartitionIDs (SearchRequest_ (task s))) by reflexivity;
      assert (Hset0 : partitionIDsSet (task s0) = Some []) by reflexivity;
      assert (Hlen0 : List.length (sr_SubReqs (SearchRequest_ (task s0)))
                      = List.length (req_SubReqs (request (task s))))
        by (cbn; apply repeat_length);
      assert (Hlenq0 : List.length (queryInfos (task s0))
                       = List.length (req_SubReqs (request (task s))))
        by (cbn; apply repeat_length);
      clearbody s0
  end.
  destruct (fst (initAdvanced_loop 0 (req_SubReqs (request (task s))) [] s0))
    as [ids'| |] eqn:Hloop; try discriminate Hok.
  destruct (initAdvanced_loop_Ok _ _ _ _ _ Hloop)
    as (Hframe & Hlen & Hlenq & _ & Hlegs & Hparts).
  set (s1 := snd (initAdvanced_loop 0 (req_SubReqs (request (task s))) [] s0)) in *.
  assert (Hsch1 : schema (task s1) = Some sch).
  { rewrite <- Hsch0. exact (f_equal (fun p => schema (fst p)) Hframe). }
  assert (Hrank1 : rankParams (task s1) = Some rp).
  { rewrite <- Hrank0. exact (f_equal (fun p => rankParams (fst p)) Hframe). }
  assert (Hmode1 : partitionKeyMode (task s1) = partitionKeyMode (task s)).
  { rewrite <- Hmode0. exact (f_equal (fun p => partitionKeyMode (fst p)) Hframe). }
  assert (Hids1 : sr_PartitionIDs (SearchRequest_ (task s1))
                  = sr_PartitionIDs (SearchRequest_ (task s))).
  { rewrite <- Hids0.
    exact (f_equal (fun p => sr_PartitionIDs (SearchRequest_ (fst p))) Hframe). }
  assert (Hcoll1 : sr_CollectionID (SearchRequest_ (task s1))
                   = sr_CollectionID (SearchRequest_ (task s0))).
  { exact (f_equal (fun p => sr_CollectionID (SearchRequest_ (fst p))) Hframe). }
  clear Hframe. clearbody s1.
  unfold callFunctionUdf in Hok |- *.
  rewrite bind_run in Hok |- *.
  rewrite bind_run in Hok |- *.
  rewrite (getSchema_run _ sch) in Hok |- * by exact Hsch1.
  cbn [fst snd] in Hok |- *. rewrite Hudf in Hok |- *.
  cbn [ret fst snd] in Hok |- *.
  fwd Hok. fwd Hok. fwd Hok.
  rewrite Hmode1 in Hok |- *. rewrite Hmode0 in Hparts.
  assert (Hlegs' : forall t', rankParams t' = Some rp ->
            schema t' = Some sch ->
            sr_CollectionID (SearchRequest_ t') = sr_CollectionID (SearchRequest_ (task s1)) ->
            (partitionKeyMode t' = false ->
             partitionKeyMode (task s) = false
             /\ sr_PartitionIDs (SearchRequest_ t') = sr_PartitionIDs (SearchRequest_ (task s))) ->
            forall k leg, nth_error (req_SubReqs (request (task s))) k = Some leg ->
            exists internal q,
              nth_error (sr_SubReqs (SearchRequest_ (task s1))) k = Some (Some internal)
              /\ nth_error (queryInfos (task s1)) k = Some (Some q)
              /\ standsFor t' leg internal q).
  { intros t' Hr Hs Hc Hm k leg Hk.
    destruct (Hlegs k leg Hk) as (internal & q & H1 & H2 & H3).
    exists internal, q. split; [exact H1|]. split; [exact H2|].
    apply (standsFor_ext (task s0)); [congruence | congruence | congruence | | exact H3].
    intros Hf. destruct (Hm Hf) as [Hf' Hi]. split; [congruence | congruence]. }
  clear Hlegs.
  destruct (partitionKeyMode (task s)) eqn:Hmode.
  - destruct (Hparts eq_refl [] Hset0) as (ids1 & Hset1 & Hnodup & Hin).
    rewrite Hset1 in Hok |- *. cbn [modSR modTask modify fst snd]. norm_goal.
    split; [congruence|]. split; [congruence|].
    split; [apply Hlegs'; [exact Hrank1 | exact Hsch1 | reflexivity
                          | intros Hf; cbn in Hf; congruence]|].
    split; [reflexivity|]. split; [reflexivity|].
    split; [|discriminate].
    intros _. split; [apply Hnodup; constructor|].
    intros x. rewrite Hin. split.
    + intros [[]|(k & internal & _ & Hnth & Hx)]. exists k, internal. tauto.
    + intros (k & internal & Hnth & Hx). right. exists k, internal.
      split; [|tauto]. rewrite <- Hlen0, <- Hlen. apply nth_error_Some. congruence.
  - cbn [ret fst snd]. norm_goal.
    split; [congruence|]. split; [congruence|].
    split; [apply Hlegs'; [exact Hrank1 | exact Hsch1 | reflexivity
                          | intros _; split; [reflexivity | exact Hids1]]|].
    split; [reflexivity|]. split; [reflexivity|].
    split; [discriminate|]. intros _. exact Hids1.
Qed.

(** *** The request of a single search *)

Lemma set_task_set_task (t t' : searchTask) (s : State) :
  set_task t (set_task t' s) = set_task t s.
Proof. destruct s; reflexivity. Qed.

Lemma set_SearchRequest_twice (sr sr' : SearchRequest) (t : searchTask) :
  set_SearchRequest sr (set_SearchRequest sr' t) = set_SearchRequest sr t.
Proof. destruct t; reflexivity. Qed.

Lemma tryParsePartitionIDsFromPlan_task (plan : PlanNode) (s s1 : State) :
  request (task s1) = request (task s) ->
  collectionName (task s1) = collectionName (task s) ->
  fst (tryParsePartitionIDsFromPlan plan s1) = fst (tryParsePartitionIDsFromPlan plan s).
Proof.
  intros Hreq Hname. unfold tryParsePartitionIDsFromPlan.
  rewrite !bind_run. cbn [getTask gets fst snd]. rewrite Hreq, Hname.
  rewrite !bind_run. unfold call.
  destruct (ParseExprFromPlan plan) as [expr|msg]; [|reflexivity].
  cbn [ret fst snd]. rewrite !bind_run.
  destruct (assignPartitionKeys _ _ _) as [names|msg]; [|reflexivity].
  cbn [ret fst snd].
  destruct (0 <? List.length names)%nat; [|reflexivity].
  destruct (getPartitionIDs _ _ _); reflexivity.
Qed.

(** The part of initSearchRequest that settles the partitions of a single
    search. *)
Definition singlePartitions (queryInfo0 : QueryInfo) (plan : PlanNode) (t : searchTask)
  : M QueryInfo :=
  if partitionKeyMode t then
    queryInfo <- setQueryInfoIfMvEnable queryInfo0 plan ;;
    partitionIDs <- tryParsePartitionIDsFromPlan plan ;;
    (if (0 <? List.length partitionIDs)%nat then modSR (set_sr_PartitionIDs partitionIDs)
     else ret tt) ;;
    ret queryInfo
  else ret queryInfo0.

Lemma set_sr_PartitionIDs_same (s : State) :
  set_task (set_SearchRequest (set_sr_PartitionIDs (sr_PartitionIDs (SearchRequest_ (task s)))
                                 (SearchRequest_ (task s))) (task s)) s = s.
Proof. destruct s as [t bs n d c]. destruct t as [c0 sr]. destruct sr. reflexivity. Qed.

Lemma singlePartitions_Ok (queryInfo0 : QueryInfo) (plan : PlanNode) (s : State)
    (q : QueryInfo) :
  fst (singlePartitions queryInfo0 plan (task s) s) = Ok q ->
  searched q = searched queryInfo0
  /\ (partitionKeyMode (task s) = false -> q = queryInfo0)
  /\ exists ids,
       snd (singlePartitions queryInfo0 plan (task s) s)
       = set_task (set_SearchRequest (set_sr_PartitionIDs ids (SearchRequest_ (task s)))
                     (task s)) s
       /\ (partitionKeyMode (task s) = false -> ids = sr_PartitionIDs (SearchRequest_ (task s)))
       /\ (partitionKeyMode (task s) = true ->
           exists partitionIDs,
             fst (tryParsePartitionIDsFromPlan plan s) = Ok partitionIDs
             /\ ids = if (0 <? List.length partitionIDs)%nat then partitionIDs
                      else sr_PartitionIDs (SearchRequest_ (task s))).
Proof.
  intros H. unfold singlePartitions in H |- *.
  destruct (partitionKeyMode (task s)).
  - rewrite bind_run, setQueryInfoIfMvEnable_reads in H |- *.
    destruct (fst (setQueryInfoIfMvEnable queryInfo0 plan s)) as [q1| |] eqn:Hmv;
      try discriminate H.
    rewrite bind_run, tryParsePartitionIDsFromPlan_reads in H |- *.
    destruct (fst (tryParsePartitionIDsFromPlan plan s)) as [partitionIDs| |] eqn:Hp;
      try discriminate H.
    split; [|split; [discriminate|]].
    + assert (q = q1) as ->.
      { destruct (0 <? List.length partitionIDs)%nat; cbn in H; congruence. }
      exact (setQueryInfoIfMvEnable_searched _ _ _ _ Hmv).
    + exists (if (0 <? List.length partitionIDs)%nat then partitionIDs
              else sr_PartitionIDs (SearchRequest_ (task s))).
      split; [|split; [discriminate|]].
      * destruct (0 <? List.length partitionIDs)%nat; cbn; [reflexivity|].
        symmetry. apply set_sr_PartitionIDs_same.
      * intros _. exists partitionIDs. split; reflexivity.
  - cbn in H |- *. inversion H; subst q.
    split; [reflexivity|]. split; [reflexivity|].
    exists (sr_PartitionIDs (SearchRequest_ (task s))).
    split; [symmetry; apply set_sr_PartitionIDs_same|]. split; [reflexivity | discriminate].
Qed.

Lemma firstPassPlan_body (sch : SchemaInfo) (t : searchTask) (plan plan' : PlanNode)
    (s : State) :
  fst (firstPassPlan sch t plan s) = Ok plan' ->
  set_plan_DynamicFields [] (set_plan_OutputFieldIds [] plan')
  = set_plan_DynamicFields [] (set_plan_OutputFieldIds [] plan).
Proof.
  unfold firstPassPlan. destruct (needRequery t).
  - cbn. intros H. inversion H. reflexivity.
  - rewrite bind_run. unfold call. destruct (GetPkField sch) as [pk|msg]; cbn; intros H;
      [inversion H; reflexivity | discriminate H].
Qed.

Lemma callFunctionUdf_none (ctx0 : Context) (ids : list int64) (sch : SchemaInfo) (s : State) :
  schema (task s) = Some sch ->
  HasNonBM25Functions sch ids = false ->
  callFunctionUdf ctx0 ids s = (Ok tt, s).
Proof.
  intros Hsch Hudf. unfold callFunctionUdf.
  rewrite bind_run, (getSchema_run _ sch Hsch). cbn [fst snd]. rewrite Hudf. reflexivity.
Qed.

Lemma task_set_task (t : searchTask) (s : State) : task (set_task t s) = t.
Proof. reflexivity. Qed.

Lemma SearchRequest_set_SearchRequest (sr : SearchRequest) (t : searchTask) :
  SearchRequest_ (set_SearchRequest sr t) = sr.
Proof. reflexivity. Qed.

Lemma SearchRequest_set_queryInfos (q : list (option QueryInfo)) (t : searchTask) :
  SearchRequest_ (set_queryInfos q t) = SearchRequest_ t.
Proof. reflexivity. Qed.

Lemma queryInfos_set_SearchRequest (sr : SearchRequest) (t : searchTask) :
  queryInfos (set_SearchRequest sr t) = queryInfos t.
Proof. reflexivity. Qed.

(** A step of a computation whose writes are gathered by rewriting. *)
Ltac step :=
  repeat rewrite bind_assoc;
  rewrite bind_run;
  cbn [getTask getSR gets modSR modTask modify ret fail call fst snd];
  rewrite ?task_set_task, ?set_task_set_task, ?SearchRequest_set_SearchRequest,
    ?set_SearchRequest_twice, ?SearchRequest_set_queryInfos, ?queryInfos_set_SearchRequest.

(** X20: what initSearchRequest builds for a single search, when it
    succeeds on a collection whose schema has no functions to call but
    BM25.  The plan and the query info are those tryGeneratePlan makes of
    the search parameters, the expression and the template values of the
    client's request, and the offset of the internal request and the
    iterator flag of the task are the ones it returns.  The task records
    one more query info, which differs from the generated one at most in
    its hints and its mark of the materialized view, and the internal
    request agrees with it on the field, the top-k, the metric type, the
    group-by field and the group size.  The internal request carries the
    vectors of the client's request, the expression type BoolExprV1 and the
    marshalled plan, which differs from the generated plan only in its
    output fields and dynamic fields.  Outside partition key mode the query
    info is the generated one and the partitions of the internal request
    stay as they were; in partition key mode the partitions are those
    parsed from the plan when there are any, and stay as they were when
    there are none. *)
Theorem initSearchRequest_request (ctx0 : Context) (s : State) (sch : SchemaInfo) :
  schema (task s) = Some sch ->
  (forall ids, HasNonBM25Functions sch ids = false) ->
  fst (initSearchRequest ctx0 s) = Ok tt ->
  let s' := snd (initSearchRequest ctx0 s) in
  let sr := SearchRequest_ (task s) in
  let sr' := SearchRequest_ (task s') in
  exists plan queryInfo0 queryInfo plan',
    fst (tryGeneratePlan (req_SearchParams (request (task s))) (req_Dsl (request (task s)))
           (req_ExprTemplateValues (request (task s))) s)
    = Ok (plan, queryInfo0, sr_Offset sr', isIterator (task s'))
    /\ searched queryInfo = searched queryInfo0
    /\ queryInfos (task s') = (queryInfos (task s) ++ [Some queryInfo])%list
    /\ sr_FieldId sr' = qi_QueryFieldId queryInfo
    /\ sr_Topk sr' = qi_Topk queryInfo
    /\ sr_MetricType sr' = qi_MetricType queryInfo
    /\ sr_GroupByFieldId sr' = qi_GroupByFieldId queryInfo
    /\ sr_GroupSize sr' = qi_GroupSize queryInfo
    /\ sr_PlaceholderGroup sr' = req_PlaceholderGroup (request (task s))
    /\ sr_DslType sr' = DslType_BoolExprV1
    /\ set_plan_DynamicFields [] (set_plan_OutputFieldIds [] plan')
       = set_plan_DynamicFields [] (set_plan_OutputFieldIds [] plan)
    /\ proto_Marshal plan' queryInfo = ExtOk (sr_SerializedExprPlan sr')
    /\ (partitionKeyMode (task s) = false ->
        queryInfo = queryInfo0 /\ sr_PartitionIDs sr' = sr_PartitionIDs sr)
    /\ (partitionKeyMode (task s) = true ->
        exists partitionIDs,
          fst (tryParsePartitionIDsFromPlan plan s) = Ok partitionIDs
          /\ sr_PartitionIDs sr' = if (0 <? List.length partitionIDs)%nat then partitionIDs
                                   else sr_PartitionIDs sr).
Proof.
  intros Hsch Hudf Hok s' sr sr'. subst s' sr sr'.
  pattern (snd (initSearchRequest ctx0 s)).
  match goal with |- ?P _ => set (post := P) end.
  unfold initSearchRequest in Hok |- *.
  fwd Hok.
  rewrite bind_run in Hok |- *. rewrite tryGeneratePlan_reads in Hok |- *.
  destruct (fst (tryGeneratePlan (req_SearchParams (request (task s)))
                   (req_Dsl (request (task s))) (req_ExprTemplateValues (request (task s))) s))
    as [[[[plan queryInfo0] offset] isIterator0]| |] eqn:Hgen; try discriminate Hok.
  rewrite bind_run in Hok |- *.
  rewrite (getSchema_run _ sch) in Hok |- * by exact Hsch.
  cbn [fst snd] in Hok |- *.
  rewrite bind_run in Hok |- *.
  match type of Hok with
  | context [snd (?B s)] =>
      assert (Hb : fst (B s) = Ok tt ->
                   exists fs, snd (B s) = set_task (set_functionScore fs (task s)) s);
      [|destruct (fst (B s)) as [[]| |] eqn:Hscore; try discriminate Hok;
        destruct (Hb eq_refl) as [fs Hs1]; rewrite Hs1 in Hok |- *; clear Hb Hs1 Hscore]
  end.
  { intros Hb. destruct (req_FunctionScore (request (task s))) as [desc|].
    - destruct (NewFunctionScore sch desc) as [fs|msg]; [|dead Hb].
      fwd Hb. fwd Hb.
      destruct (negb (IsSupportGroup fs) && (0 <? qi_GroupByFieldId queryInfo0));
        [discriminate Hb|].
      exists fs. reflexivity.
    - exists (functionScore (task s)). cbn. destruct s as [t bs n d c]. destruct t. reflexivity. }
  fwd Hok. fwd Hok. fwd Hok. fwd Hok.
  rewrite bind_run in Hok |- *.
  match type of Hok with
  | context [fst (?B ?st)] =>
      let T := type of B in
      unify T (M QueryInfo);
      change B with (singlePartitions queryInfo0 plan (task st)) in Hok |- *;
      set (s1 := st) in *;
      assert (Hreq1 : request (task s1) = request (task s)) by reflexivity;
      assert (Hname1 : collectionName (task s1) = collectionName (task s)) by reflexivity;
      assert (Hmode1 : partitionKeyMode (task s1) = partitionKeyMode (task s)) by reflexivity;
      assert (Hids1 : sr_PartitionIDs (SearchRequest_ (task s1))
                      = sr_PartitionIDs (SearchRequest_ (task s))) by reflexivity;
      assert (Hsch1 : schema (task s1) = Some sch) by exact Hsch;
      assert (Hit1 : isIterator (task s1) = isIterator0) by reflexivity;
      assert (Hoff1 : sr_Offset (SearchRequest_ (task s1)) = offset) by reflexivity;
      assert (Hfid1 : sr_FieldId (SearchRequest_ (task s1)) = qi_QueryFieldId queryInfo0)
        by reflexivity;
      assert (Hqis1 : queryInfos (task s1) = queryInfos (task s)) by reflexivity;
      clearbody s1
  end.
  destruct (fst (singlePartitions queryInfo0 plan (task s1) s1)) as [queryInfo| |] eqn:Hpart;
    try discriminate Hok.
  destruct (singlePartitions_Ok _ _ _ _ Hpart) as (Hsearched & Hq & ids & Hs2 & Hfree & Hkey).
  rewrite Hs2 in Hok |- *. rewrite Hmode1, Hids1 in Hfree, Hkey. rewrite Hmode1 in Hq.
  rewrite (tryParsePartitionIDsFromPlan_task plan s s1 Hreq1 Hname1) in Hkey.
  clear Hs2 Hpart Hname1 Hmode1 Hids1.
  rewrite bind_run in Hok |- *.
  rewrite (getSchema_run _ sch) in Hok |- * by exact Hsch1.
  cbn [fst snd] in Hok |- *.
  fwd Hok. fwd Hok. fwd Hok.
  rewrite bind_run in Hok |- *. rewrite firstPassPlan_reads in Hok |- *.
  match type of Hok with
  | context [fst (firstPassPlan sch ?t plan ?st)] =>
      destruct (fst (firstPassPlan sch t plan st)) as [plan'| |] eqn:Hplan;
        try discriminate Hok;
      apply firstPassPlan_body in Hplan
  end.
  destruct (proto_Marshal plan' queryInfo) as [serialized|msg] eqn:Hmarshal; [|dead Hok].
  clear Hok.
  match goal with
  | |- post (snd (_ ?st)) =>
      set (s2 := st) in *;
      assert (Hreq2 : request (task s2) = request (task s)) by exact Hreq1;
      assert (Hsch2 : schema (task s2) = Some sch) by exact Hsch1;
      assert (Hit2 : isIterator (task s2) = isIterator0) by exact Hit1;
      assert (Hoff2 : sr_Offset (SearchRequest_ (task s2)) = offset) by exact Hoff1;
      assert (Hfid2 : sr_FieldId (SearchRequest_ (task s2)) = qi_QueryFieldId queryInfo0)
        by exact Hfid1;
      assert (Hqis2 : queryInfos (task s2) = queryInfos (task s)) by exact Hqis1;
      assert (Hids2 : sr_PartitionIDs (SearchRequest_ (task s2)) = ids) by reflexivity;
      clearbody s2
  end.
  assert (Hfield : qi_QueryFieldId queryInfo0 = qi_QueryFieldId queryInfo)
    by (unfold searched in Hsearched; congruence).
  destruct (qi_MetricType queryInfo =? metric_BM25)%string;
    [destruct (GetAttrByKeyFromRepeatedKV "analyzer_name" _)|];
    repeat step;
    rewrite (callFunctionUdf_none ctx0 _ sch) by (try exact Hsch2; apply Hudf);
    cbn [fst snd]; subst post; cbv beta; norm_goal;
    rewrite ?Hit2, ?Hoff2, ?Hfid2, ?Hqis2, ?Hreq2, ?Hreq1, ?Hids2;
    exists plan, queryInfo0, queryInfo, plan';
    (split; [reflexivity|]); (split; [exact Hsearched|]);
    (split; [reflexivity|]); (split; [exact Hfield|]);
    do 6 (split; [reflexivity|]);
    (split; [exact Hplan|]); (split; [exact Hmarshal|]);
    (split; [intros Hmode; split; [exact (Hq Hmode) | exact (Hfree Hmode)] | exact Hkey]).
Qed.

(** *** The parts of the composition of a single search *)

(** What initSearchRequest does once the partitions are settled, for the
    plan and the query info it has by then. *)
Definition singleTail (ctx0 : Context) (plan : PlanNode) (queryInfo : QueryInfo) : M unit :=
  sch <- getSchema ;;
  t <- getTask ;;
  modTask (set_needRequery (0 <? List.length (vectorOutputFields sch t))%nat) ;;
  t <- getTask ;;
  plan <- firstPassPlan sch t plan ;;
  match proto_Marshal plan queryInfo with
  | ExtErr msg => modSR (set_sr_SerializedExprPlan []) ;; fail (External msg)
  | ExtOk serialized => modSR (set_sr_SerializedExprPlan serialized)
  end ;;
  modSR (set_sr_PlaceholderGroup (req_PlaceholderGroup (request t))) ;;
  modSR (set_sr_Topk (qi_Topk queryInfo)) ;;
  modSR (set_sr_MetricType (qi_MetricType queryInfo)) ;;
  modTask (fun t => set_queryInfos (queryInfos t ++ [Some queryInfo])%list t) ;;
  modSR (set_sr_DslType DslType_BoolExprV1) ;;
  modSR (set_sr_GroupByFieldId (qi_GroupByFieldId queryInfo)) ;;
  modSR (set_sr_GroupSize (qi_GroupSize queryInfo)) ;;
  (if String.eqb (qi_MetricType queryInfo) metric_BM25 then
     match GetAttrByKeyFromRepeatedKV "analyzer_name" (req_SearchParams (request t)) with
     | ExtOk analyzer => modSR (set_sr_AnalyzerName analyzer)
     | ExtErr _ => ret tt
     end
   else ret tt) ;;
  callFunctionUdf ctx0 [qi_QueryFieldId queryInfo].

(** The state in which initSearchRequest settles the partitions. *)
Definition beforePartitions (s : State) (fs : option FunctionScore) (queryInfo0 : QueryInfo)
    (offset : int64) (isIterator0 : bool) : State :=
  set_task
    (set_SearchRequest
       (set_sr_FieldId (qi_QueryFieldId queryInfo0)
          (set_sr_Offset offset (SearchRequest_ (task s))))
       (set_isIterator isIterator0 (set_functionScore fs (task s))))
    s.

Lemma initSearchRequest_parts (ctx0 : Context) (s : State) (sch : SchemaInfo) :
  schema (task s) = Some sch ->
  fst (initSearchRequest ctx0 s) = Ok tt ->
  exists plan queryInfo0 offset isIterator0 fs queryInfo,
    fst (tryGeneratePlan (req_SearchParams (request (task s))) (req_Dsl (request (task s)))
           (req_ExprTemplateValues (request (task s))) s)
    = Ok (plan, queryInfo0, offset, isIterator0)
    /\ fst (singlePartitions queryInfo0 plan
              (task (beforePartitions s fs queryInfo0 offset isIterator0))
              (beforePartitions s fs queryInfo0 offset isIterator0)) = Ok queryInfo
    /\ initSearchRequest ctx0 s
       = singleTail ctx0 plan queryInfo
           (snd (singlePartitions queryInfo0 plan
                   (task (beforePartitions s fs queryInfo0 offset isIterator0))
                   (beforePartitions s fs queryInfo0 offset isIterator0))).
Proof.
  intros Hsch Hok.
  pattern (initSearchRequest ctx0 s).
  match goal with |- ?P _ => set (post := P) end.
  unfold initSearchRequest in Hok |- *.
  fwd Hok.
  rewrite bind_run in Hok |- *. rewrite tryGeneratePlan_reads in Hok |- *.
  destruct (fst (tryGeneratePlan (req_SearchParams (request (task s)))
                   (req_Dsl (request (task s))) (req_ExprTemplateValues (request (task s))) s))
    as [[[[plan queryInfo0] offset] isIterator0]| |] eqn:Hgen; try discriminate Hok.
  rewrite bind_run in Hok |- *.
  rewrite (getSchema_run _ sch) in Hok |- * by exact Hsch.
  cbn [fst snd] in Hok |- *.
  rewrite bind_run in Hok |- *.
  match type of Hok with
  | context [snd (?B s)] =>
      assert (Hb : fst (B s) = Ok tt ->
                   exists fs, snd (B s) = set_task (set_functionScore fs (task s)) s);
      [|destruct (fst (B s)) as [[]| |] eqn:Hscore; try discriminate Hok;
        destruct (Hb eq_refl) as [fs Hs1]; rewrite Hs1 in Hok |- *; clear Hb Hs1 Hscore]
  end.
  { intros Hb. destruct (req_FunctionScore (request (task s))) as [desc|].
    - destruct (NewFunctionScore sch desc) as [fs|msg]; [|dead Hb].
      fwd Hb. fwd Hb.
      destruct (negb (IsSupportGroup fs) && (0 <? qi_GroupByFieldId queryInfo0));
        [discriminate Hb|].
      exists fs. reflexivity.
    - exists (functionScore (task s)). cbn. destruct s as [t bs n d c]. destruct t. reflexivity. }
  fwd Hok. fwd Hok. fwd Hok. fwd Hok.
  rewrite bind_run in Hok |- *.
  match type of Hok with
  | context [fst (?B ?st)] =>
      let T := type of B in
      unify T (M QueryInfo);
      change B with (singlePartitions queryInfo0 plan (task st)) in Hok |- *;
      change st with (beforePartitions s fs queryInfo0 offset isIterator0) in Hok |- *
  end.
  destruct (fst (singlePartitions queryInfo0 plan
                   (task (beforePartitions s fs queryInfo0 offset isIterator0))
                   (beforePartitions s fs queryInfo0 offset isIterator0)))
    as [queryInfo| |] eqn:Hpart; try discriminate Hok.
  subst post. cbv beta.
  exists plan, queryInfo0, offset, isIterator0, fs, queryInfo.
  split; [reflexivity|]. split; [exact Hpart|]. reflexivity.
Qed.

Lemma singleTail_Ok (ctx0 : Context) (plan : PlanNode) (queryInfo : QueryInfo) (s : State)
    (sch : SchemaInfo) :
  schema (task s) = Some sch ->
  fst (singleTail ctx0 plan queryInfo s) = Ok tt ->
  exists s2,
    singleTail ctx0 plan queryInfo s = callFunctionUdf ctx0 [qi_QueryFieldId queryInfo] s2
    /\ queryInfos (task s2) = (queryInfos (task s) ++ [Some queryInfo])%list
    /\ sr_Topk (SearchRequest_ (task s2)) = qi_Topk queryInfo
    /\ sr_Offset (SearchRequest_ (task s2)) = sr_Offset (SearchRequest_ (task s))
    /\ schema (task s2) = Some sch.
Proof.
  intros Hsch Hok.
  pattern (singleTail ctx0 plan queryInfo s).
  match goal with |- ?P _ => set (post := P) end.
  unfold singleTail in Hok |- *.
  rewrite bind_run in Hok |- *.
  rewrite (getSchema_run _ sch) in Hok |- * by exact Hsch.
  cbn [fst snd] in Hok |- *.
  fwd Hok. fwd Hok. fwd Hok.
  rewrite bind_run in Hok |- *. rewrite firstPassPlan_reads in Hok |- *.
  match type of Hok with
  | context [fst (firstPassPlan sch ?t plan ?st)] =>
      destruct (fst (firstPassPlan sch t plan st)) as [plan'| |]; try discriminate Hok
  end.
  destruct (proto_Marshal plan' queryInfo) as [serialized|msg]; [|dead Hok].
  clear Hok.
  destruct (qi_MetricType queryInfo =? metric_BM25)%string;
    [destruct (GetAttrByKeyFromRepeatedKV "analyzer_name" _)|];
    repeat step;
    subst post; cbv beta; eexists; (split; [reflexivity|]); norm_goal;
    (split; [reflexivity|]); (split; [reflexivity|]); (split; [reflexivity|]); exact Hsch.
Qed.

(** In partition key mode the query info of a single search is the one
    setQueryInfoIfMvEnable returns. *)
Lemma singlePartitions_checked (queryInfo0 : QueryInfo) (plan : PlanNode) (s : State)
    (q : QueryInfo) :
  partitionKeyMode (task s) = true ->
  fst (singlePartitions queryInfo0 plan (task s) s) = Ok q ->
  fst (setQueryInfoIfMvEnable queryInfo0 plan s) = Ok q.
Proof.
  intros Hmode H. unfold singlePartitions in H. rewrite Hmode in H.
  rewrite bind_run, setQueryInfoIfMvEnable_reads in H.
  destruct (fst (setQueryInfoIfMvEnable queryInfo0 plan s)) as [q1| |]; try discriminate H.
  rewrite bind_run, tryParsePartitionIDsFromPlan_reads in H.
  destruct (fst (tryParsePartitionIDsFromPlan plan s)) as [partitionIDs| |];
    try discriminate H.
  destruct (0 <? List.length partitionIDs)%nat; cbn in H; congruence.
Qed.

Lemma callFunctionUdf_keeps_queryInfos (v : list (option QueryInfo)) ctx0 ids :
  keeps (fun s => queryInfos (task s) = v) (callFunctionUdf ctx0 ids).
Proof. unfold callFunctionUdf. keeps_tac. Qed.

(** *** Partition key isolation in the composition of a request *)

(** What the generation of a plan and the isolation check read of the
    state. *)
Definition checkFrame (s : State) :=
  (schema (task s), rankParams (task s), sr_CollectionID (SearchRequest_ (task s)),
   enableMaterializedView (task s), req_DbName (request (task s)), collectionName (task s)).

Lemma checkFrame_inv (s1 s2 : State) :
  checkFrame s1 = checkFrame s2 ->
  schema (task s1) = schema (task s2)
  /\ rankParams (task s1) = rankParams (task s2)
  /\ sr_CollectionID (SearchRequest_ (task s1)) = sr_CollectionID (SearchRequest_ (task s2))
  /\ enableMaterializedView (task s1) = enableMaterializedView (task s2)
  /\ req_DbName (request (task s1)) = req_DbName (request (task s2))
  /\ collectionName (task s1) = collectionName (task s2).
Proof. unfold checkFrame. intros H. inversion H. repeat split; assumption. Qed.

Lemma setQueryInfoIfMvEnable_frame (queryInfo : QueryInfo) (plan : PlanNode) (s1 s2 : State) :
  checkFrame s1 = checkFrame s2 ->
  fst (setQueryInfoIfMvEnable queryInfo plan s1) = fst (setQueryInfoIfMvEnable queryInfo plan s2).
Proof.
  intros H. destruct (checkFrame_inv s1 s2 H) as (Hsch & _ & Hcoll & Hmv & Hdb & Hname).
  unfold setQueryInfoIfMvEnable.
  rewrite !bind_run. cbn [getTask gets fst snd]. rewrite Hmv.
  destruct (enableMaterializedView (task s2)); [|reflexivity].
  rewrite !bind_run. unfold getSchema. rewrite !bind_run. cbn [getTask gets fst snd].
  rewrite Hsch. destruct (schema (task s2)) as [sch|]; [|reflexivity].
  cbn [ret fst snd]. rewrite !bind_run. unfold call.
  destruct (GetPartitionKeyFieldSchema sch) as [field|msg]; [|reflexivity].
  cbn [ret fst snd].
  destruct (IsFieldDataTypeSupportMaterializedView field); [|reflexivity].
  rewrite !bind_run. cbn [getSR gets fst snd]. rewrite Hdb, Hname, Hcoll.
  destruct (GetCollectionInfo _ _ _) as [info|msg]; [|reflexivity].
  rewrite !bind_run.
  destruct (partitionKeyIsolation info); [|reflexivity].
  rewrite !bind_run.
  destruct (ParseExprFromPlan plan) as [expr|msg]; [|reflexivity].
  cbn [ret fst snd]. rewrite !bind_run.
  destruct (ValidatePartitionKeyIsolation expr) as [[]|msg]; reflexivity.
Qed.

(** The query info [q] is what setQueryInfoIfMvEnable makes of the query
    info generated for the leg, in the state [s]. *)
Definition legChecked (s : State) (leg : SubSearchReq TemplateValues) (q : QueryInfo) : Prop :=
  exists plan generated offset isIterator0,
    fst (tryGeneratePlan (sub_SearchParams leg) (sub_Dsl leg) (sub_ExprTemplateValues leg) s)
    = Ok (plan, generated, offset, isIterator0)
    /\ fst (setQueryInfoIfMvEnable generated plan s) = Ok q.

Lemma legChecked_frame (s1 s2 : State) leg q :
  checkFrame s1 = checkFrame s2 -> legChecked s1 leg q -> legChecked s2 leg q.
Proof.
  intros H (plan & generated & offset & iter & Hgen & Hmv).
  destruct (checkFrame_inv s1 s2 H) as (Hsch & Hrank & Hcoll & _).
  exists plan, generated, offset, iter. split.
  - rewrite <- Hgen. symmetry. apply tryGeneratePlan_frame; assumption.
  - rewrite <- Hmv. symmetry. apply setQueryInfoIfMvEnable_frame. exact H.
Qed.

Lemma initAdvanced_loop_checked (rest : list (SubSearchReq TemplateValues)) :
  forall (index : nat) (ids ids' : list int64) (s : State),
  fst (initAdvanced_loop index rest ids s) = Ok ids' ->
  partitionKeyMode (task s) = true ->
  forall k leg, nth_error rest k = Some leg ->
  exists q,
    nth_error (queryInfos (task (snd (initAdvanced_loop index rest ids s)))) (index + k)
    = Some (Some q)
    /\ legChecked s leg q.
Proof.
  induction rest as [|subReq rest IH]; intros index ids ids' s Hok Hmode k leg Hk.
  - destruct k; discriminate.
  - destruct (initAdvanced_loop_step index subReq rest ids ids' s Hok)
      as (internal & q & subReqs1 & queryInfos1 & Heq & _ & Hqi & _ & Hchecked).
    rewrite Heq in Hok |- *. clear Heq.
    destruct (setIndex_Some _ _ _ _ Hqi) as (_ & Hnthq1 & _).
    match type of Hok with
    | fst (initAdvanced_loop _ _ ?ids1 ?s1) = _ =>
        pose proof (initAdvanced_loop_Ok rest (S index) ids1 ids' s1 Hok) as Hrest;
        specialize (IH (S index) ids1 ids' s1 Hok Hmode);
        assert (Hq1 : queryInfos (task s1) = queryInfos1) by reflexivity;
        assert (Hframe1 : checkFrame s1 = checkFrame s) by reflexivity;
        generalize dependent s1
    end.
    intros s1 IH Hok1 Hrest Hq1 Hframe1.
    cbv zeta in Hrest. destruct Hrest as (_ & _ & _ & Hbelow & _).
    destruct k as [|k].
    + cbn in Hk. inversion Hk; subst leg. exists q. split.
      * rewrite Nat.add_0_r. destruct (Hbelow index ltac:(lia)) as [_ Hq].
        rewrite Hq, Hq1. exact Hnthq1.
      * exact (Hchecked Hmode).
    + cbn in Hk. destruct (IH k leg Hk) as (q0 & Hnth & Hch).
      exists q0. replace (index + S k)%nat with (S index + k)%nat by lia.
      split; [exact Hnth|]. exact (legChecked_frame s1 s leg q0 Hframe1 Hch).
Qed.

(** What initAdvancedSearchRequest does once the legs are composed. *)
Definition advancedTail (ctx0 : Context) (queryFieldIDs : list int64) : M unit :=
  callFunctionUdf ctx0 queryFieldIDs ;;
  t <- getTask ;;
  modSR (set_sr_GroupByFieldId (rank_GetGroupByFieldId (rankParams t))) ;;
  modSR (set_sr_GroupSize (rank_GetGroupSize (rankParams t))) ;;
  (if partitionKeyMode t then
     match partitionIDsSet t with
     | None => panic
     | Some ids => modSR (set_sr_PartitionIDs ids)
     end
   else ret tt).

(** The state in which initAdvancedSearchRequest enters the loop over the
    legs. *)
Definition beforeLegs (s : State) (fs : option FunctionScore) (rp : RankParams) : State :=
  let n := List.length (req_SubReqs (request (task s))) in
  set_task
    (set_queryInfos (repeat None n)
       (set_SearchRequest (set_sr_SubReqs (repeat None n) (SearchRequest_ (task s)))
          (set_rankParams (Some rp)
             (set_needRequery
                ((0 <? List.length (req_OutputFields (request (task s))))%nat
                 || (0 <? List.length (GetAllInputFieldNames fs))%nat)
                (set_functionScore fs (set_partitionIDsSet (Some []) (task s)))))))
    s.

Lemma initAdvancedSearchRequest_parts (ctx0 : Context) (s : State) (sch : SchemaInfo) :
  schema (task s) = Some sch ->
  fst (initAdvancedSearchRequest ctx0 s) = Ok tt ->
  exists fs rp ids',
    parseRankParams (req_SearchParams (request (task s))) sch = ExtOk rp
    /\ fst (initAdvanced_loop 0 (req_SubReqs (request (task s))) [] (beforeLegs s fs rp))
       = Ok ids'
    /\ initAdvancedSearchRequest ctx0 s
       = advancedTail ctx0 ids'
           (snd (initAdvanced_loop 0 (req_SubReqs (request (task s))) [] (beforeLegs s fs rp))).
Proof.
  intros Hsch Hok.
  pattern (initAdvancedSearchRequest ctx0 s).
  match goal with |- ?P _ => set (post := P) end.
  unfold initAdvancedSearchRequest in Hok |- *.
  fwd Hok. fwd Hok.
  rewrite bind_run in Hok |- *.
  rewrite (getSchema_run _ sch) in Hok |- * by exact Hsch.
  cbn [fst snd] in Hok |- *.
  destruct (match req_FunctionScore (request (task s)) with
            | Some desc => NewFunctionScore sch desc
            | None => NewFunctionScoreWithlegacy sch (req_SearchParams (request (task s)))
            end) as [fs|msg]; [|dead Hok].
  fwd Hok. fwd Hok. fwd Hok.
  destruct (parseRankParams (req_SearchParams (request (task s))) sch) as [rp|msg] eqn:Hrank;
    [|dead Hok].
  fwd Hok. fwd Hok.
  destruct (negb (IsSupportGroup fs) && (0 <=? rank_GetGroupByFieldId (Some rp)));
    [discriminate Hok|].
  fwd Hok. fwd Hok.
  rewrite bind_run in Hok |- *.
  match type of Hok with
  | context [initAdvanced_loop 0 ?l [] ?st] =>
      change st with (beforeLegs s fs rp) in Hok |- *
  end.
  destruct (fst (initAdvanced_loop 0 (req_SubReqs (request (task s))) [] (beforeLegs s fs rp)))
    as [ids'| |] eqn:Hloop; try discriminate Hok.
  subst post. cbv beta. exists fs, rp, ids'.
  split; [first [exact Hrank | reflexivity]|]. split; [exact Hloop|]. reflexivity.
Qed.

Lemma advancedTail_keeps_queryInfos (v : list (option QueryInfo)) ctx0 ids :
  keeps (fun s => queryInfos (task s) = v) (advancedTail ctx0 ids).
Proof. unfold advancedTail, callFunctionUdf. keeps_tac. Qed.

(** The composition of an advanced search does not panic on a task
    with a schema. *)
Lemma planOn_no_panic (s : State) (sch : SchemaInfo) (params : KeyValuePairs) (dsl : string)
    (tv : TemplateValues) (name : string) :
  planOn s sch params dsl tv name <> Panic.
Proof.
  unfold planOn.
  destruct (parseSearchInfo params sch (rankParams (task s))) as [info|msg]; [|discriminate].
  destruct ((0 <? info_collectionID info) && _); [discriminate|].
  cbv zeta. destruct (negb _ && _); [discriminate|].
  destruct (CreateSearchPlan _ _ _ _ _); discriminate.
Qed.

Lemma tryGeneratePlan_no_panic (params : KeyValuePairs) (dsl : string) (tv : TemplateValues)
    (s : State) (sch : SchemaInfo) :
  schema (task s) = Some sch -> fst (tryGeneratePlan params dsl tv s) <> Panic.
Proof.
  intros Hsch. rewrite (tryGeneratePlan_run params dsl tv s sch Hsch).
  destruct (namedAnnsField params); [apply planOn_no_panic|].
  destruct (GetVectorFieldSchemas sch) as [|first rest]; [discriminate|].
  destruct (enableMultipleVectorFields && _); [discriminate | apply planOn_no_panic].
Qed.

Lemma setQueryInfoIfMvEnable_no_panic (queryInfo : QueryInfo) (plan : PlanNode) (s : State)
    (sch : SchemaInfo) :
  schema (task s) = Some sch -> fst (setQueryInfoIfMvEnable queryInfo plan s) <> Panic.
Proof.
  intros Hsch.
  unfold setQueryInfoIfMvEnable, bind, getTask, getSchema, getSR, gets, call, ret, fail, panic.
  cbn. destruct (enableMaterializedView (task s)); [|discriminate].
  rewrite Hsch. cbn.
  destruct (GetPartitionKeyFieldSchema sch) as [field|msg]; [|discriminate]. cbn.
  destruct (IsFieldDataTypeSupportMaterializedView field); [|discriminate]. cbn.
  destruct (GetCollectionInfo _ _ _) as [info|msg]; [|discriminate].
  destruct (partitionKeyIsolation info); cbn; [|discriminate].
  destruct (ParseExprFromPlan plan) as [expr|msg]; [|discriminate]. cbn.
  destruct (ValidatePartitionKeyIsolation expr) as [u|msg]; discriminate.
Qed.

Lemma tryParsePartitionIDsFromPlan_no_panic (plan : PlanNode) (s : State) :
  fst (tryParsePartitionIDsFromPlan plan s) <> Panic.
Proof.
  unfold tryParsePartitionIDsFromPlan, bind, getTask, gets, call, ret, fail. cbn.
  destruct (ParseExprFromPlan plan) as [expr|msg]; [|discriminate]. cbn.
  destruct (assignPartitionKeys _ _ _) as [names|msg]; [|discriminate]. cbn.
  destruct names as [|name names]; [discriminate|].
  destruct (getPartitionIDs _ _ _); discriminate.
Qed.

Lemma legPartitions_no_panic (queryInfo : QueryInfo) (plan : PlanNode) (i0 : SubSearchRequest)
    (sr : SearchRequest) (s : State) (sch : SchemaInfo) :
  schema (task s) = Some sch ->
  partitionIDsSet (task s) <> None ->
  fst (legPartitions queryInfo plan i0 sr (task s) s) <> Panic.
Proof.
  intros Hsch Hset. unfold legPartitions.
  destruct (partitionKeyMode (task s)); [|discriminate].
  rewrite bind_run, setQueryInfoIfMvEnable_reads.
  pose proof (setQueryInfoIfMvEnable_no_panic queryInfo plan s sch Hsch) as Hmv.
  destruct (fst (setQueryInfoIfMvEnable queryInfo plan s)) as [q| |];
    [|discriminate|congruence].
  rewrite bind_run, tryParsePartitionIDsFromPlan_reads.
  pose proof (tryParsePartitionIDsFromPlan_no_panic plan s) as Hp.
  destruct (fst (tryParsePartitionIDsFromPlan plan s)) as [pids| |];
    [|discriminate|congruence].
  destruct (0 <? List.length pids)%nat; [|discriminate].
  destruct (partitionIDsSet (task s)); [discriminate | congruence].
Qed.

Lemma setIndex_None {A} (index : nat) (v : A) (l : list A) :
  setIndex index v l = None -> (List.length l <= index)%nat.
Proof.
  revert index. induction l as [|x rest IH]; intros index H; [cbn; lia|].
  destruct index as [|i]; cbn [setIndex] in H; [discriminate|].
  destruct (setIndex i v rest) eqn:Hrest; [discriminate|].
  specialize (IH i Hrest). cbn. lia.
Qed.

Lemma initAdvanced_loop_no_panic (rest : list (SubSearchReq TemplateValues)) :
  forall (index : nat) (ids : list int64) (s : State) (sch : SchemaInfo),
  schema (task s) = Some sch ->
  partitionIDsSet (task s) <> None ->
  (index + List.length rest <= List.length (sr_SubReqs (SearchRequest_ (task s))))%nat ->
  (index + List.length rest <= List.length (queryInfos (task s)))%nat ->
  fst (initAdvanced_loop index rest ids s) <> Panic.
Proof.
  induction rest as [|subReq rest IH]; intros index ids s sch Hsch Hset Hlen Hlenq H.
  - discriminate H.
  - cbn [initAdvanced_loop] in H.
    rewrite bind_run, tryGeneratePlan_reads in H.
    destruct (fst (tryGeneratePlan (sub_SearchParams subReq) (sub_Dsl subReq)
                     (sub_ExprTemplateValues subReq) s))
      as [[[[plan queryInfo] offset] iter]|e|] eqn:Hgen;
      [|discriminate H|exact (tryGeneratePlan_no_panic _ _ _ _ _ Hsch Hgen)].
    rewrite bind_run in H. cbn [getSR gets fst snd] in H.
    rewrite bind_run in H.
    match type of H with
    | context [fst (?m s)] =>
        assert (Hr : reads m) by (destruct (negb _); [apply reads_call | apply reads_ret]);
        rewrite Hr in H; clear Hr;
        assert (Hig : fst (m s) <> Panic)
          by (destruct (negb _); [unfold call; destruct (isIgnoreGrowing _)|]; discriminate);
        destruct (fst (m s)) as [ignoreGrowing|e|]; [|discriminate H|congruence]; clear Hig
    end.
    rewrite bind_run in H. cbn [getTask gets fst snd] in H.
    cbv zeta in H.
    match type of H with
    | fst (bind ?blk _ s) = _ =>
        change blk
          with (legPartitions queryInfo plan
                  (internalLeg (task s) subReq queryInfo offset ignoreGrowing)
                  (SearchRequest_ (task s)) (task s)) in H
    end.
    rewrite bind_run in H.
    assert (Hnil : isub_PartitionIDs (internalLeg (task s) subReq queryInfo offset ignoreGrowing)
                   = []).
    { unfold internalLeg. destruct (GetAttrByKeyFromRepeatedKV _ _); reflexivity. }
    pose proof (legPartitions_no_panic queryInfo plan
                  (internalLeg (task s) subReq queryInfo offset ignoreGrowing)
                  (SearchRequest_ (task s)) s sch Hsch Hset) as Hnp.
    destruct (fst (legPartitions queryInfo plan
                     (internalLeg (task s) subReq queryInfo offset ignoreGrowing)
                     (SearchRequest_ (task s)) (task s) s))
      as [[q internal]|e|] eqn:Hpr; [|discriminate H|congruence].
    destruct (legPartitions_Ok queryInfo plan _ _ s q internal Hnil Hpr)
      as (_ & _ & _ & Hsnd & _).
    rewrite Hsnd in H. clear Hsnd Hpr Hnp.
    rewrite bind_run in H.
    match type of H with
    | context [fst (call ?c ?s1)] =>
        rewrite (reads_call c s1) in H;
        destruct c as [serialized|msg]; cbn [call ret fail fst snd] in H; [|discriminate H]
    end.
    rewrite bind_run in H. cbn [getTask gets fst snd] in H.
    norm_state H.
    destruct (setIndex index (Some (set_isub_SerializedExprPlan serialized internal))
                (sr_SubReqs (SearchRequest_ (task s)))) as [subReqs'|] eqn:Hsub;
      [|apply setIndex_None in Hsub; cbn [List.length] in Hlen; lia].
    destruct (setIndex index (Some q) (queryInfos (task s))) as [queryInfos'|] eqn:Hqi;
      [|apply setIndex_None in Hqi; cbn [List.length] in Hlenq; lia].
    rewrite bind_run in H. cbn [modSR modTask modify fst snd] in H.
    rewrite bind_run in H. cbn [modSR modTask modify fst snd] in H.
    norm_state H.
    destruct (setIndex_Some _ _ _ _ Hsub) as (Hlen1 & _).
    destruct (setIndex_Some _ _ _ _ Hqi) as (Hlenq1 & _).
    revert H. apply (IH (S index) _ _ sch).
    + exact Hsch.
    + cbn. unfold partitionsWith.
      destruct (partitionKeyMode (task s)); [|exact Hset].
      destruct (partitionIDsSet (task s)); [discriminate | congruence].
    + cbn. rewrite Hlen1. cbn [List.length] in Hlen. lia.
    + cbn. rewrite Hlenq1. cbn [List.length] in Hlenq. lia.
Qed.

Lemma callFunctionUdf_no_panic (ctx0 : Context) (ids : list int64) (s : State)
    (sch : SchemaInfo) :
  schema (task s) = Some sch -> fst (callFunctionUdf ctx0 ids s) <> Panic.
Proof.
  intros Hsch. unfold callFunctionUdf.
  rewrite bind_run, (getSchema_run s sch Hsch). cbn [fst snd].
  destruct (HasNonBM25Functions sch ids); [|discriminate].
  unfold bind, call, getSR, gets, modSR, modTask, modify, ret, fail.
  destruct (NewFunctionExecutor sch) as [exec|msg]; [|discriminate].
  destruct (ProcessSearch exec ctx0 _) as [sr'|msg]; discriminate.
Qed.

Lemma callFunctionUdf_keeps_partitions (mode : bool) (ids0 : option (list UniqueID)) ctx0 ids :
  keeps (fun s => partitionKeyMode (task s) = mode /\ partitionIDsSet (task s) = ids0)
        (callFunctionUdf ctx0 ids).
Proof. unfold callFunctionUdf. keeps_tac. Qed.

(** A step into a computation, in a hypothesis. *)
Ltac hfwd H :=
  repeat rewrite bind_assoc in H;
  rewrite bind_run in H;
  cbn [getTask getSR gets modSR modTask modify ret fail call fst snd] in H;
  norm_state H.

Lemma initAdvancedSearchRequest_no_panic (ctx0 : Context) (s : State) (sch : SchemaInfo) :
  schema (task s) = Some sch -> fst (initAdvancedSearchRequest ctx0 s) <> Panic.
Proof.
  intros Hsch H. unfold initAdvancedSearchRequest in H.
  hfwd H. hfwd H.
  rewrite bind_run in H. rewrite (getSchema_run _ sch) in H by exact Hsch.
  cbn [fst snd] in H.
  destruct (match req_FunctionScore (request (task s)) with
            | Some desc => NewFunctionScore sch desc
            | None => NewFunctionScoreWithlegacy sch (req_SearchParams (request (task s)))
            end) as [fs|msg]; [|dead H].
  hfwd H. hfwd H. hfwd H.
  destruct (parseRankParams (req_SearchParams (request (task s))) sch) as [rp|msg];
    [|dead H].
  hfwd H. hfwd H.
  destruct (negb (IsSupportGroup fs) && (0 <=? rank_GetGroupByFieldId (Some rp)));
    [discriminate H|].
  hfwd H. hfwd H.
  rewrite bind_run in H.
  match type of H with
  | context [initAdvanced_loop 0 ?l [] ?st] =>
      change st with (beforeLegs s fs rp) in H
  end.
  assert (Hnp : fst (initAdvanced_loop 0 (req_SubReqs (request (task s))) []
                       (beforeLegs s fs rp)) <> Panic).
  { apply (initAdvanced_loop_no_panic _ _ _ _ sch).
    - exact Hsch.
    - discriminate.
    - cbn. rewrite repeat_length. lia.
    - cbn. rewrite repeat_length. lia. }
  destruct (fst (initAdvanced_loop 0 (req_SubReqs (request (task s))) [] (beforeLegs s fs rp)))
    as [ids'| |] eqn:Hloop; [|discriminate H|congruence].
  clear Hnp.
  destruct (initAdvanced_loop_Ok _ _ _ _ _ Hloop) as (Hframe & _ & _ & _ & _ & Hparts).
  set (s1 := snd (initAdvanced_loop 0 (req_SubReqs (request (task s))) []
                    (beforeLegs s fs rp))) in *.
  assert (Hsch1 : schema (task s1) = Some sch).
  { rewrite <- Hsch. exact (f_equal (fun p => schema (fst p)) Hframe). }
  assert (Hset1 : partitionKeyMode (task s1) = true -> partitionIDsSet (task s1) <> None).
  { intros Hmode.
    assert (Hmode0 : partitionKeyMode (task (beforeLegs s fs rp)) = true).
    { rewrite <- Hmode. symmetry.
      exact (f_equal (fun p => partitionKeyMode (fst p)) Hframe). }
    destruct (Hparts Hmode0 [] eq_refl) as (ids1 & Hids1 & _). congruence. }
  clear Hframe Hparts Hloop. clearbody s1.
  assert (Htail : forall s2,
            partitionKeyMode (task s2) = partitionKeyMode (task s1) ->
            partitionIDsSet (task s2) = partitionIDsSet (task s1) ->
            fst ((t <- getTask ;;
                  modSR (set_sr_GroupByFieldId (rank_GetGroupByFieldId (rankParams t))) ;;
                  modSR (set_sr_GroupSize (rank_GetGroupSize (rankParams t))) ;;
                  (if partitionKeyMode t then
                     match partitionIDsSet t with
                     | None => panic
                     | Some ids => modSR (set_sr_PartitionIDs ids)
                     end
                   else ret tt)) s2) <> Panic).
  { intros s2 Hmode2 Hset2 Ht. hfwd Ht. hfwd Ht. hfwd Ht.
    rewrite Hmode2, Hset2 in Ht.
    destruct (partitionKeyMode (task s1)); [|discriminate Ht].
    destruct (partitionIDsSet (task s1)); [discriminate Ht|].
    exact (Hset1 eq_refl eq_refl). }
  rewrite bind_run in H.
  pose proof (callFunctionUdf_no_panic ctx0 ids' s1 sch Hsch1) as Hnp.
  destruct (callFunctionUdf_keeps_partitions (partitionKeyMode (task s1))
              (partitionIDsSet (task s1)) ctx0 ids' s1 (conj eq_refl eq_refl))
    as [Hmode2 Hset2].
  destruct (fst (callFunctionUdf ctx0 ids' s1)) as [[]| |]; [|discriminate H|congruence].
  revert H. apply Htail; assumption.
Qed.

(** The conditions under which the composition of a request checks the
    filter of a plan: the collection is in partition key mode, materialized
    views are enabled on the task, the partition key field of the schema is
    of a type that materialized views support, and the collection info in
    the meta cache says that the partition key is isolated. *)
Definition isolationDue (s : State) (sch : SchemaInfo) : Prop :=
  partitionKeyMode (task s) = true
  /\ enableMaterializedView (task s) = true
  /\ schema (task s) = Some sch
  /\ (exists field,
        GetPartitionKeyFieldSchema sch = ExtOk field
        /\ IsFieldDataTypeSupportMaterializedView field = true)
  /\ exists info, cachedInfo s = ExtOk info /\ partitionKeyIsolation info = true.

Lemma setQueryInfoIfMvEnable_due (queryInfo : QueryInfo) (plan : PlanNode) (s : State)
    (sch : SchemaInfo) :
  isolationDue s sch ->
  fst (setQueryInfoIfMvEnable queryInfo plan s) =
    match isolationCheck plan with
    | ExtErr msg => Err (External msg)
    | ExtOk _ => Ok (set_qi_MaterializedViewInvolved true (set_qi_Hints "disable" queryInfo))
    end.
Proof.
  intros (_ & Hmv & Hsch & (field & Hfield & Hsup) & info & Hinfo & Hiso).
  rewrite (setQueryInfoIfMvEnable_isolated queryInfo plan s sch info Hmv Hsch Hinfo Hiso).
  rewrite Hfield, Hsup. reflexivity.
Qed.

Lemma setQueryInfoIfMvEnable_due_Ok (queryInfo : QueryInfo) (plan : PlanNode) (s : State)
    (sch : SchemaInfo) (q : QueryInfo) :
  isolationDue s sch ->
  fst (setQueryInfoIfMvEnable queryInfo plan s) = Ok q ->
  isolationCheck plan = ExtOk tt /\ qi_Hints q = "disable".
Proof.
  intros Hdue H. rewrite (setQueryInfoIfMvEnable_due queryInfo plan s sch Hdue) in H.
  destruct (isolationCheck plan) as [[]|msg]; [|discriminate H].
  inversion H. split; reflexivity.
Qed.

(** A single search: the query info it records is the one the check
    left. *)
Lemma initSearchRequest_checked (ctx0 : Context) (s : State) (sch : SchemaInfo) :
  schema (task s) = Some sch ->
  partitionKeyMode (task s) = true ->
  fst (initSearchRequest ctx0 s) = Ok tt ->
  exists plan generated offset isIterator0 q,
    fst (tryGeneratePlan (req_SearchParams (request (task s))) (req_Dsl (request (task s)))
           (req_ExprTemplateValues (request (task s))) s)
    = Ok (plan, generated, offset, isIterator0)
    /\ fst (setQueryInfoIfMvEnable generated plan s) = Ok q
    /\ queryInfos (task (snd (initSearchRequest ctx0 s)))
       = (queryInfos (task s) ++ [Some q])%list.
Proof.
  intros Hsch Hmode Hok.
  destruct (initSearchRequest_parts ctx0 s sch Hsch Hok)
    as (plan & generated & offset & iter & fs & q & Hgen & Hpart & Heq).
  rewrite Heq in Hok |- *. clear Heq.
  pose proof (singlePartitions_checked generated plan
                (beforePartitions s fs generated offset iter) q Hmode Hpart) as Hmv.
  destruct (singlePartitions_Ok _ _ _ _ Hpart) as (_ & _ & ids & Hs2 & _).
  rewrite Hs2 in Hok |- *. clear Hs2 Hpart.
  match type of Hok with
  | fst (singleTail _ _ _ ?st) = _ =>
      destruct (singleTail_Ok ctx0 plan q st sch Hsch Hok) as (s2 & Heq & Hqis & _);
      rewrite Heq; clear Heq Hok
  end.
  exists plan, generated, offset, iter, q.
  split; [exact Hgen|]. split.
  - rewrite <- Hmv. apply setQueryInfoIfMvEnable_frame. reflexivity.
  - rewrite (callFunctionUdf_keeps_queryInfos _ ctx0 _ s2 Hqis). reflexivity.
Qed.

(** The state of a task whose rank parameters were parsed. *)
Definition withRankParams (rp : RankParams) (s : State) : State :=
  set_task (set_rankParams (Some rp) (task s)) s.

(** An advanced search in partition key mode: the query info it records
    for a leg is the one the check left of the query info generated for
    the leg. *)
Lemma initAdvancedSearchRequest_checked (ctx0 : Context) (s : State) (sch : SchemaInfo) :
  schema (task s) = Some sch ->
  partitionKeyMode (task s) = true ->
  fst (initAdvancedSearchRequest ctx0 s) = Ok tt ->
  exists rp,
    parseRankParams (req_SearchParams (request (task s))) sch = ExtOk rp
    /\ forall k leg, nth_error (req_SubReqs (request (task s))) k = Some leg ->
         exists q,
           nth_error (queryInfos (task (snd (initAdvancedSearchRequest ctx0 s)))) k
           = Some (Some q)
           /\ legChecked (withRankParams rp s) leg q.
Proof.
  intros Hsch Hmode Hok.
  destruct (initAdvancedSearchRequest_parts ctx0 s sch Hsch Hok)
    as (fs & rp & ids' & Hrank & Hloop & Heq).
  rewrite Heq. clear Heq Hok.
  exists rp. split; [exact Hrank|]. intros k leg Hk.
  destruct (initAdvanced_loop_checked _ _ _ _ _ Hloop Hmode k leg Hk) as (q & Hnth & Hch).
  exists q. split.
  - rewrite (advancedTail_keeps_queryInfos _ ctx0 ids' _ eq_refl). exact Hnth.
  - apply (legChecked_frame (beforeLegs s fs rp)); [reflexivity | exact Hch].
Qed.

Lemma initSearchRequest_keeps_frame v w ctx0 :
  keeps (fun s => settled s = v /\ frame s = w) (initSearchRequest ctx0).
Proof.
  unfold initSearchRequest, callFunctionUdf. unfold settled, frame in *. keeps_tac.
Qed.

Lemma initAdvancedSearchRequest_keeps_frame v w ctx0 :
  keeps (fun s => settled s = v /\ frame s = w) (initAdvancedSearchRequest ctx0).
Proof.
  pose proof (initAdvanced_loop_keeps_settled v w) as Hloop.
  unfold initAdvancedSearchRequest, callFunctionUdf. unfold settled, frame in *. keeps_tac.
Qed.

Lemma isolationDue_withRankParams (rp : RankParams) (s : State) (sch : SchemaInfo) :
  isolationDue s sch -> isolationDue (withRankParams rp s) sch.
Proof.
  intros (Hpk & Hmv & Hsch & Hfield & Hinfo).
  split; [exact Hpk|]. split; [exact Hmv|]. split; [exact Hsch|]. split; [exact Hfield|].
  exact Hinfo.
Qed.

(** C7 (amended): the isolation check in the composition of a request.
    Let the collection be in partition key mode, materialized views be
    enabled on the task, the partition key field be of a supported type,
    and the collection info of the meta cache say that the partition key is
    isolated.  Then setQueryInfoIfMvEnable only reads the state; it returns
    the error of the check when the filter compiled into the plan does not
    pin a single partition key, and otherwise the query info with the hints
    "disable" and the mark of the materialized view.  The composition of a
    single search whose plan fails the check ends with an error, and one
    that succeeds has a plan that passes the check and records a query info
    whose hints are "disable".  The same holds for every leg of an advanced
    search: when the plan of some leg fails the check the composition ends
    with an error, and when the composition succeeds the plan of every leg
    passes the check and the query info recorded for the leg has the hints
    "disable".  (The plan of a leg is generated with the rank parameters
    of the request, which the composition parses first.)  Neither
    composition reaches a shard: they are given no client, and they leave
    the store of headers and what was reported to the shard cache and to
    the load balancer as they were. *)
Theorem composition_partition_key_isolation (ctx0 : Context) (s : State) (sch : SchemaInfo) :
  isolationDue s sch ->
  let req := request (task s) in
  (forall queryInfo plan,
     setQueryInfoIfMvEnable queryInfo plan s
     = (match isolationCheck plan with
        | ExtErr msg => Err (External msg)
        | ExtOk _ =>
            Ok (set_qi_MaterializedViewInvolved true (set_qi_Hints "disable" queryInfo))
        end, s))
  /\ (forall plan generated offset isIterator0,
        fst (tryGeneratePlan (req_SearchParams req) (req_Dsl req)
               (req_ExprTemplateValues req) s)
        = Ok (plan, generated, offset, isIterator0) ->
        let r := fst (initSearchRequest ctx0 s) in
        let s' := snd (initSearchRequest ctx0 s) in
        (forall msg, isolationCheck plan = ExtErr msg -> exists e, r = Err e)
        /\ (r = Ok tt ->
            isolationCheck plan = ExtOk tt
            /\ exists q,
                 queryInfos (task s') = (queryInfos (task s) ++ [Some q])%list
                 /\ qi_Hints q = "disable"))
  /\ (forall rp k leg plan generated offset isIterator0,
        parseRankParams (req_SearchParams req) sch = ExtOk rp ->
        nth_error (req_SubReqs req) k = Some leg ->
        fst (tryGeneratePlan (sub_SearchParams leg) (sub_Dsl leg)
               (sub_ExprTemplateValues leg) (withRankParams rp s))
        = Ok (plan, generated, offset, isIterator0) ->
        let r := fst (initAdvancedSearchRequest ctx0 s) in
        let s' := snd (initAdvancedSearchRequest ctx0 s) in
        (forall msg, isolationCheck plan = ExtErr msg -> exists e, r = Err e)
        /\ (r = Ok tt ->
            isolationCheck plan = ExtOk tt
            /\ exists q,
                 nth_error (queryInfos (task s')) k = Some (Some q)
                 /\ qi_Hints q = "disable"))
  /\ frame (snd (initSearchRequest ctx0 s)) = frame s
  /\ frame (snd (initAdvancedSearchRequest ctx0 s)) = frame s.
Proof.
  intros Hdue req. pose proof Hdue as (Hpk & Hmv & Hsch & _ & info & Hinfo & Hiso).
  split; [|split; [|split; [|split]]];
    [| | |exact (proj2 (initSearchRequest_keeps_frame _ _ ctx0 s (conj eq_refl eq_refl)))
     |exact (proj2 (initAdvancedSearchRequest_keeps_frame _ _ ctx0 s (conj eq_refl eq_refl)))].
  - intros queryInfo plan. apply injective_projections; cbn [fst snd].
    + apply (setQueryInfoIfMvEnable_due queryInfo plan s sch Hdue).
    + apply setQueryInfoIfMvEnable_reads.
  - intros plan generated offset iter Hgen r s'. subst r s'. split.
    + intros msg Hcheck.
      exact (initSearchRequest_check_fails ctx0 s sch info plan generated offset iter msg
               Hpk Hmv Hsch Hinfo Hiso Hgen Hcheck).
    + intros Hok.
      destruct (initSearchRequest_checked ctx0 s sch Hsch Hpk Hok)
        as (plan' & gen' & off' & it' & q & Hgen' & Hmv' & Hqis).
      fold req in Hgen'. rewrite Hgen in Hgen'. inversion Hgen'; subst plan' gen' off' it'.
      destruct (setQueryInfoIfMvEnable_due_Ok _ _ _ _ _ Hdue Hmv') as [Hc Hh].
      split; [exact Hc|]. exists q. split; assumption.
  - intros rp k leg plan generated offset iter Hrank Hk Hgen r s'. subst r s'.
    assert (Hsucc : fst (initAdvancedSearchRequest ctx0 s) = Ok tt ->
                    isolationCheck plan = ExtOk tt
                    /\ exists q,
                         nth_error (queryInfos (task (snd (initAdvancedSearchRequest ctx0 s)))) k
                         = Some (Some q)
                         /\ qi_Hints q = "disable").
    { intros Hok.
      destruct (initAdvancedSearchRequest_checked ctx0 s sch Hsch Hpk Hok)
        as (rp' & Hrank' & Hlegs).
      fold req in Hrank', Hlegs. rewrite Hrank in Hrank'. inversion Hrank'; subst rp'.
      destruct (Hlegs k leg Hk) as (q & Hnth & plan' & gen' & off' & it' & Hgen' & Hmv').
      rewrite Hgen in Hgen'. inversion Hgen'; subst plan' gen' off' it'.
      destruct (setQueryInfoIfMvEnable_due_Ok _ _ _ _ _
                  (isolationDue_withRankParams rp s sch Hdue) Hmv') as [Hc Hh].
      split; [exact Hc|]. exists q. split; assumption. }
    split; [|exact Hsucc].
    intros msg Hcheck.
    pose proof (initAdvancedSearchRequest_no_panic ctx0 s sch Hsch) as Hnp.
    destruct (fst (initAdvancedSearchRequest ctx0 s)) as [[]|e|].
    + destruct (Hsucc eq_refl) as [Hc _]. congruence.
    + exists e. reflexivity.
    + congruence.
Qed.

(** *** The limit the result size is checked against *)














(** *** The scheduler's decision and the level of the read *)

(** The function executor of the schema leaves the collection of the
    request it rewrites. *)
Definition executorKeepsCollection : Prop :=
  forall exec ctx0 sr sr',
    ProcessSearch exec ctx0 sr = ExtOk sr' -> sr_CollectionID sr' = sr_CollectionID sr.

Lemma callFunctionUdf_keeps_collection ctx0 ids (c : int64) :
  executorKeepsCollection ->
  keeps (fun s => sr_CollectionID (SearchRequest_ (task s)) = c) (callFunctionUdf ctx0 ids).
Proof.
  intros Hexec s Hs. unfold callFunctionUdf.
  rewrite bind_run. pose proof (getSchema_reads s) as Hr.
  destruct (getSchema s) as [[sch|e|] s0]; cbn [fst snd] in *; subst s0; try exact Hs.
  destruct (HasNonBM25Functions sch ids); [|exact Hs].
  rewrite bind_run. unfold call.
  destruct (NewFunctionExecutor sch) as [exec|msg]; cbn [ret fail fst snd]; [|exact Hs].
  rewrite bind_run. cbn [getSR gets fst snd].
  rewrite bind_run.
  destruct (ProcessSearch exec ctx0 (SearchRequest_ (task s))) as [sr'|msg] eqn:Hp;
    cbn [ret fail fst snd]; [|exact Hs].
  cbn. rewrite (Hexec _ _ _ _ Hp). exact Hs.
Qed.

Lemma checkNq_keeps_collection (c : int64) :
  keeps (fun s => sr_CollectionID (SearchRequest_ (task s)) = c) checkNq.
Proof.
  intros s Hs. destruct (checkNq_task s) as (nq & legs & _ & Hrun).
  rewrite Hrun. exact Hs.
Qed.

Lemma initAdvanced_loop_keeps_collection (c : int64) subReqs :
  forall index ids,
  keeps (fun s => sr_CollectionID (SearchRequest_ (task s)) = c)
        (initAdvanced_loop index subReqs ids).
Proof.
  induction subReqs as [|subReq rest IH]; intros index ids; cbn [initAdvanced_loop].
  - keeps_tac.
  - keeps_tac.
Qed.

Lemma composeRequest_keeps_collection (c : int64) ctx0 :
  executorKeepsCollection ->
  keeps (fun s => sr_CollectionID (SearchRequest_ (task s)) = c) (composeRequest ctx0).
Proof.
  intros Hexec.
  pose proof (checkNq_keeps_collection c) as HcheckNq.
  pose proof (initAdvanced_loop_keeps_collection c) as Hloop.
  pose proof (fun ids => callFunctionUdf_keeps_collection ctx0 ids c Hexec) as Hudf.
  unfold composeRequest, initSearchRequest, initAdvancedSearchRequest.
  keeps_tac.
Qed.

Lemma prepareRequest_info (ctx0 : Context) (s : State) (p : ptr) (b : MsgBase)
    (info : collectionInfo) :
  hasHeader s p b ->
  executorKeepsCollection ->
  fst (prepareRequest ctx0 s) = Ok info ->
  let req := request (task s) in
  exists collID,
    GetCollectionID (req_DbName req) (req_CollectionName req) = ExtOk collID
    /\ GetCollectionInfo (req_DbName req) (req_CollectionName req) collID = ExtOk info.
Proof.
  intros H Hexec Hok req. unfold prepareRequest in Hok.
  destruct (bind_Ok_inv _ _ _ _ Hok) as [u1 [H1 Heq1]]. rewrite Heq1 in Hok. clear Heq1.
  destruct u1.
  destruct (resolveCollection_Ok ctx0 s p b H H1)
    as (c & Hc & _ & _ & _ & _ & Hsettled & _ & _ & Hcoll & _).
  fold req in Hc, Hsettled.
  generalize dependent (snd (resolveCollection ctx0 s)). intros s1 Hok Hsettled Hcoll.
  destruct (bind_Ok_inv _ _ _ _ Hok) as [u2 [H2 Heq2]]. rewrite Heq2 in Hok. clear Heq2.
  destruct u2.
  destruct (composeRequest_keeps_settled _ _ ctx0 s1 (conj Hsettled eq_refl)) as [Hsettled2 _].
  pose proof (composeRequest_keeps_collection _ ctx0 Hexec s1 Hcoll) as Hcoll2.
  generalize dependent (snd (composeRequest ctx0 s1)). clear H2. intros s2 Hok Hsettled2 Hcoll2.
  rewrite bind_run in Hok. cbn [getTask gets fst snd] in Hok.
  rewrite bind_run in Hok. cbn [getSR gets fst snd] in Hok.
  pose proof (f_equal (fun v => snd (fst v)) Hsettled2) as Hsent. cbn in Hsent.
  pose proof (f_equal (fun v => fst (fst (fst (fst (fst (fst (fst v))))))) Hsettled2) as Hname.
  cbn in Hname.
  assert (Hdb : req_DbName (request (task s2)) = req_DbName req).
  { change (req_DbName (request (task s2))) with (req_DbName (asSent (request (task s2)))).
    rewrite Hsent. reflexivity. }
  rewrite Hdb, Hname, Hcoll2 in Hok.
  exists (res_collID c). split; [exact (proj1 Hc)|].
  unfold call in Hok.
  destruct (GetCollectionInfo (req_DbName req) (req_CollectionName req) (res_collID c))
    as [info'|msg]; cbn in Hok; [congruence | discriminate].
Qed.

Lemma PreExecute_level (ctx0 : Context) (s : State) (p : ptr) (b : MsgBase) :
  hasHeader s p b ->
  fst (PreExecute ctx0 s) = Ok tt ->
  exists info,
    fst (prepareRequest ctx0 s) = Ok info
    /\ sr_ConsistencyLevel (SearchRequest_ (task (snd (PreExecute ctx0 s))))
       = levelOf (request (task s)) info.
Proof.
  intros H Hok.
  destruct (PreExecute_Ok_steps ctx0 s Hok)
    as (info & s3 & s4 & Hinfo & HrG & Hs3 & _ & Htail3 & _ & _).
  destruct (prepareRequest_Ok ctx0 s p b info H Hinfo) as (c & _ & _ & _ & _ & Hsettled & _).
  set (s2 := snd (prepareRequest ctx0 s)) in *.
  exists info. split; [exact Hinfo|].
  pose proof (resolveGuaranteeTs_marks info s2 HrG) as Hmarks. rewrite <- Hs3 in Hmarks.
  pose proof (after_resolution_keeps_marks _ ctx0 info s3 Hmarks) as Hmarks'.
  rewrite <- Htail3 in Hmarks'.
  unfold marks in Hmarks'. inversion Hmarks' as [[Hiter Hlevel Htaskiter]].
  pose proof (f_equal (fun v => snd (fst v)) Hsettled) as Hsent. cbn in Hsent.
  rewrite Hlevel. unfold levelOf.
  change (req_UseDefaultConsistency (request (task s2)))
    with (req_UseDefaultConsistency (asSent (request (task s2)))).
  change (req_ConsistencyLevel (request (task s2)))
    with (req_ConsistencyLevel (asSent (request (task s2)))).
  rewrite Hsent. reflexivity.
Qed.

(** X21: the scheduler's decision agrees with the read PreExecute
    prepares, as long as the meta cache did not change in between.  The
    scheduler asks CanSkipAllocTimestamp before PreExecute runs, so the two
    read the meta cache at different times: [E0] is the environment at the
    time of the question, the environment of the section the one
    PreExecute runs in.  Let the task asked be a task of the same request
    as the one PreExecute starts from, and let the two environments give
    the same answer to the lookup of the identifier of the request's
    collection and to the lookup of its collection info.  Then, for a task
    with a header whose PreExecute succeeds, with a function executor that
    leaves the collection of the request: CanSkipAllocTimestamp only reads
    the task, and it says that the allocation of a timestamp can be
    skipped exactly when the consistency level PreExecute writes into the
    internal request is not Strong, or the client chose the level itself
    and sent a positive guarantee timestamp. *)
Theorem CanSkipAllocTimestamp_agrees_with_PreExecute (E0 : Env) (ctx0 : Context)
    (s0 s : State) (p : ptr) (b : MsgBase) :
  let req := request (task s) in
  request (task s0) = req ->
  GetCollectionID (Env := E0) (req_DbName req) (req_CollectionName req)
  = GetCollectionID (Env := E) (req_DbName req) (req_CollectionName req) ->
  (forall collID,
     GetCollectionInfo (Env := E0) (req_DbName req) (req_CollectionName req) collID
     = GetCollectionInfo (Env := E) (req_DbName req) (req_CollectionName req) collID) ->
  hasHeader s p b ->
  executorKeepsCollection ->
  fst (PreExecute (E := E) ctx0 s) = Ok tt ->
  let level :=
    sr_ConsistencyLevel (SearchRequest_ (task (snd (PreExecute (E := E) ctx0 s)))) in
  CanSkipAllocTimestamp (E := E0) s0
  = (Ok (negb (level =? ConsistencyLevel_Strong)
         || (negb (req_UseDefaultConsistency req) && (0 <? req_GuaranteeTimestamp req))), s0).
Proof.
  intros req Hreq Hsame1 Hsame2 H Hexec Hok level. subst level.
  destruct (PreExecute_level ctx0 s p b H Hok) as (info & Hinfo & Hlevel).
  destruct (prepareRequest_info ctx0 s p b info H Hexec Hinfo)
    as (collID & Hid & Hcoll).
  fold req in Hlevel, Hid, Hcoll. rewrite Hlevel.
  unfold CanSkipAllocTimestamp, levelOf. rewrite bind_run. cbn [getTask gets fst snd].
  rewrite Hreq. destruct (req_UseDefaultConsistency req); cbn [negb andb].
  - rewrite Hsame1, Hid, Hsame2, Hcoll. rewrite Bool.orb_false_r. reflexivity.
  - destruct (req_ConsistencyLevel req =? ConsistencyLevel_Strong);
      destruct (0 <? req_GuaranteeTimestamp req); reflexivity.
Qed.

End Properties.

(** ** The properties on the small deployment *)

Import Demo.

(** An empty first page of an iterator. *)
Lemma getLastBound_no_rows_witness :
  getLastBound (Some (reduced 1 [] [])) None "IP" = Some MaxFloat32
  /\ getLastBound (Some (reduced 1 [] [])) None "L2" = Some (float32_neg MaxFloat32).
Proof.
  split.
  - exact (proj1 (getLastBound_no_rows (reduced 1 [] []) _ "IP" eq_refl eq_refl)).
  - exact (proj1 (getLastBound_no_rows (reduced 1 [] []) _ "L2" eq_refl eq_refl)).
Defined.

(** Two scores 0.5 and 0.25: with one query the last score is the bound,
    with two queries it is not read. *)
Lemma getLastBound_single_query_only_witness :
  getLastBound (Some (reduced 1 [0x3F000000; 0x3E800000] [11; 12])) None "IP" = Some 0x3E800000
  /\ getLastBound (Some (reduced 2 [0x3F000000; 0x3E800000] [11; 12])) (Some 0x3F800000) "IP"
     = Some 0x3F800000
  /\ getLastBound (Some (reduced 2 [0x3F000000; 0x3E800000] [11; 12])) None "L2"
     = Some (float32_neg MaxFloat32).
Proof.
  split; [|split].
  - destruct (getLastBound_single_query_only (reduced 1 [0x3F000000; 0x3E800000] [11; 12]) _
                None "IP" eq_refl) as (Hone & _).
    apply Hone; [discriminate | reflexivity].
  - destruct (getLastBound_single_query_only (reduced 2 [0x3F000000; 0x3E800000] [11; 12]) _
                (Some 0x3F800000) "IP" eq_refl) as (_ & Hmany & _).
    apply Hmany; discriminate.
  - destruct (getLastBound_single_query_only (reduced 2 [0x3F000000; 0x3E800000] [11; 12]) _
                None "L2" eq_refl) as (_ & Hmany & _).
    apply Hmany; discriminate.
Defined.





(** A task that went through PreExecute, and its header. *)
Definition docsSearch : State :=
  Eval vm_compute in prepared (searchRequest "docs" "price > 3" [] [] 0) 1000000.
Definition docsHeader : MsgBase := mkMsgBase MsgType_Search 0 1000000 1 0.

Definition notShardLeader : option Status := Some (mkStatus ErrorCode_NotShardLeader "moved").
Definition unexpectedError : option Status := Some (mkStatus (ErrorCode_Other 1) "disk full").
Definition success : option Status := Some (mkStatus ErrorCode_Success "").

Lemma searchShard_outcomes_witness :
  fst (searchShard 7 (answering notShardLeader) "ch0" docsSearch) = Err errInvalidShardLeaders
  /\ deprecatedShardCache (snd (searchShard 7 (answering notShardLeader) "ch0" docsSearch))
     = [("default", "docs")]
  /\ fst (searchShard 7 unreachable "ch0" docsSearch) = Err (External "connection refused")
  /\ deprecatedShardCache (snd (searchShard 7 unreachable "ch0" docsSearch)) = [("default", "docs")]
  /\ fst (searchShard 7 (answering success) "ch0" docsSearch) = Ok tt
  /\ resultBuf (task (snd (searchShard 7 (answering success) "ch0" docsSearch)))
     = Some [Some (replyWith success)].
Proof.
  destruct (searchShard_outcomes docsSearch 7 (answering notShardLeader) "ch0" O docsHeader
              eq_refl eq_refl) as (Hleader & _).
  destruct (searchShard_outcomes docsSearch 7 unreachable "ch0" O docsHeader
              eq_refl eq_refl) as (_ & Hrpc & _).
  destruct (searchShard_outcomes docsSearch 7 (answering success) "ch0" O docsHeader
              eq_refl eq_refl) as (_ & _ & _ & Hok).
  destruct (Hleader _ eq_refl eq_refl) as (H1 & H2 & _).
  destruct (Hrpc _ eq_refl) as (H3 & H4 & _).
  destruct (Hok _ eq_refl eq_refl) as (H5 & _ & H6 & _).
  repeat split; assumption.
Defined.

(** A reply with a status that is neither success nor "not shard leader"
    leaves the shard routing as it is, and the error of an RPC that failed
    is returned without a wrapper. *)
Lemma searchShard_other_errors :
  (fst (searchShard 7 (answering unexpectedError) "ch0" docsSearch)
     = Err (errors_Wrapf (merr_Error unexpectedError) "fail to search on QueryNode %d" 7)
   /\ deprecatedShardCache (snd (searchShard 7 (answering unexpectedError) "ch0" docsSearch))
      = deprecatedShardCache docsSearch)
  /\ (fst (searchShard 7 unreachable "ch0" docsSearch) = Err (External "connection refused")
      /\ deprecatedShardCache (snd (searchShard 7 unreachable "ch0" docsSearch))
         = ("default", "docs") :: deprecatedShardCache docsSearch).
Proof. vm_compute. repeat split. Qed.

Lemma searchShard_frame_witness :
  let s' := snd (searchShard 7 (answering success) "ch0" docsSearch) in
  bases s' O = Some docsHeader
  /\ bases s' 1%nat = Some (set_base_TargetID 7 docsHeader)
  /\ SearchRequest_ (task s') = SearchRequest_ (task docsSearch)
  /\ task s' = set_resultBuf (resultBuf (task s')) (task docsSearch).
Proof.
  destruct (searchShard_frame docsSearch 7 (answering success) "ch0" O docsHeader
              eq_refl eq_refl ltac:(vm_compute; lia))
    as ((_ & _ & Hnew) & _ & Hold & Hreq & Htask & _).
  cbv zeta. repeat split; assumption.
Defined.

(** A search of "tenants", a collection in partition key mode with
    partition key isolation, after the collection was resolved. *)
Definition tenantsSearch : State :=
  Eval vm_compute in
    snd (resolveCollection root (enqueued (searchRequest "tenants" "tenant > 3" [] [] 0) 1000000)).

(** The same search with a filter that pins one partition key, and two
    advanced searches of "tenants" over two legs, of which the second one
    has a leg whose filter does not pin one. *)
Definition tenantSearch : State :=
  Eval vm_compute in
    snd (resolveCollection root (enqueued (searchRequest "tenants" "tenant == 3" [] [] 0) 1000000)).

Definition tenantLeg (filter : string) : SubSearchReq unit :=
  {| sub_Dsl := filter; sub_PlaceholderGroup := [x01]; sub_DslType := DslType_BoolExprV1;
     sub_SearchParams := [("anns_field", "embedding")]; sub_Nq := 1;
     sub_ExprTemplateValues := tt |}.

Definition tenantsHybrid (legs : list (SubSearchReq unit)) : State :=
  snd (resolveCollection root
         (enqueued (set_req_SubReqs legs (searchRequest "tenants" "" [] [] 0)) 1000000)).

Definition pinnedLegs : State :=
  Eval vm_compute in tenantsHybrid [tenantLeg "tenant == 3"; tenantLeg "tenant == 4"].
Definition rangeLeg : State :=
  Eval vm_compute in tenantsHybrid [tenantLeg "tenant == 3"; tenantLeg "tenant > 3"].

Lemma composition_partition_key_isolation_witness :
  (exists e, fst (initSearchRequest root tenantsSearch) = Err e)
  /\ (exists q, queryInfos (task (snd (initSearchRequest root tenantSearch))) = [Some q]
                /\ qi_Hints q = "disable")
  /\ (exists e, fst (initAdvancedSearchRequest root rangeLeg) = Err e)
  /\ (exists q, nth_error (queryInfos (task (snd (initAdvancedSearchRequest root pinnedLegs)))) 1
                = Some (Some q)
                /\ qi_Hints q = "disable")
  /\ fst (PreExecute root (enqueued (searchRequest "tenants" "tenant > 3" [] [] 0) 1000000))
     = Err (External "partition key isolation does not support this filter").
Proof.
  assert (Hdue : forall s,
            partitionKeyMode (task s) = true ->
            enableMaterializedView (task s) = true ->
            schema (task s) = Some fields ->
            cachedInfo s = ExtOk (info "tenants") ->
            isolationDue s fields).
  { intros s Hpk Hmv Hsch Hinfo.
    split; [exact Hpk|]. split; [exact Hmv|]. split; [exact Hsch|]. split.
    - exists (mkFieldSchema 103 "tenant" DataType_VarChar). split; reflexivity.
    - exists (info "tenants"). split; [exact Hinfo | reflexivity]. }
  destruct (composition_partition_key_isolation (E := env) root tenantsSearch fields
              (Hdue tenantsSearch eq_refl eq_refl eq_refl eq_refl)) as (_ & Hsingle & _).
  destruct (Hsingle (filterPlan "tenant > 3") _ _ _ eq_refl) as (Hfails & _).
  destruct (composition_partition_key_isolation (E := env) root tenantSearch fields
              (Hdue tenantSearch eq_refl eq_refl eq_refl eq_refl)) as (_ & Hsingle' & _).
  destruct (Hsingle' (filterPlan "tenant == 3") _ _ _ eq_refl) as (_ & Hpasses).
  destruct (composition_partition_key_isolation (E := env) root rangeLeg fields
              (Hdue rangeLeg eq_refl eq_refl eq_refl eq_refl)) as (_ & _ & Hlegs & _).
  destruct (Hlegs (-1, 1) 1%nat (tenantLeg "tenant > 3") (filterPlan "tenant > 3") _ _ _
              eq_refl eq_refl eq_refl) as (Hlegfails & _).
  destruct (composition_partition_key_isolation (E := env) root pinnedLegs fields
              (Hdue pinnedLegs eq_refl eq_refl eq_refl eq_refl)) as (_ & _ & Hlegs' & _).
  destruct (Hlegs' (-1, 1) 1%nat (tenantLeg "tenant == 4") (filterPlan "tenant == 4") _ _ _
              eq_refl eq_refl eq_refl) as (_ & Hlegpasses).
  split; [exact (Hfails _ eq_refl)|].
  split; [exact (proj2 (Hpasses ltac:(vm_compute; reflexivity)))|].
  split; [exact (Hlegfails _ eq_refl)|].
  split; [exact (proj2 (Hlegpasses ltac:(vm_compute; reflexivity)))|].
  vm_compute. reflexivity.
Defined.

(** The collection "tenants" has its partition key isolated, but on a
    task built while materialized views are switched off the filter is not
    checked: a search whose filter is a range over the partition key goes
    through PreExecute, and the hints of its query info are left empty. *)
Lemma isolation_unchecked_without_materialized_view :
  let s0 := enqueued (searchRequest "tenants" "tenant > 3" [] [] 0) 1000000 in
  let s := set_task (set_enableMaterializedView false (task s0)) s0 in
  GetCollectionInfo "default" "tenants" 7 = ExtOk (info "tenants")
  /\ partitionKeyIsolation (info "tenants") = true
  /\ isolationCheck (filterPlan "tenant > 3")
     = ExtErr "partition key isolation does not support this filter"
  /\ fst (PreExecute root s) = Ok tt
  /\ partitionKeyMode (task (snd (PreExecute root s))) = true
  /\ map (option_map qi_Hints) (queryInfos (task (snd (PreExecute root s)))) = [Some ""].
Proof. vm_compute. repeat split. Qed.

(** A single search of "docs" that asks for the vector field, and an
    advanced search of "docs" that asks for the scalar field, after the
    collection was resolved. *)
Definition vectorOutput : State :=
  Eval vm_compute in
    snd (resolveCollection root (enqueued (searchRequest "docs" "price > 3" ["embedding"] [] 0) 1000000)).
Definition hybridOutput : State :=
  Eval vm_compute in
    snd (resolveCollection root
           (enqueued (hybridRequest [leg 5 []; leg 5 []] ["price"]) 1000000)).



(** The first page of a search of "docs", and a later page of an iterator
    that carries the timestamp 5 of its session, both enqueued at 1000000. *)
Definition firstPage : State :=
  Eval vm_compute in enqueued (searchRequest "docs" "price > 3" [] [] 0) 1000000.
Definition iteratorPage : State :=
  Eval vm_compute in
    enqueued (searchRequest "docs" "price > 3" [] [("iterator", "True")] 5) 1000000.

Lemma PreExecute_guarantee_timestamp_witness :
  fst (PreExecute root firstPage) = Ok tt
  /\ sr_GuaranteeTimestamp (SearchRequest_ (task (snd (PreExecute root firstPage)))) = 995000.
Proof.
  assert (Hok : fst (PreExecute root firstPage) = Ok tt) by (vm_compute; reflexivity).
  split; [exact Hok|].
  destruct (PreExecute_guarantee_timestamp (E := env) root firstPage Hok)
    as (info0 & beginTs & Hinfo & Hbegin & Hfree & _).
  vm_compute in Hinfo. injection Hinfo as <-.
  cbv zeta in Hbegin. vm_compute in Hbegin. injection Hbegin as <-.
  destruct (Hfree ltac:(vm_compute; reflexivity)) as (HG & _).
  rewrite HG. vm_compute. reflexivity.
Defined.

(** The later page reads at the timestamp of its session, below the schema
    update timestamp of the collection. *)
Lemma PreExecute_iterator_guarantee :
  let s' := snd (PreExecute root iteratorPage) in
  fst (PreExecute root iteratorPage) = Ok tt
  /\ fst (prepareRequest root iteratorPage) = Ok (info "docs")
  /\ updateTimestamp (info "docs") = 100
  /\ fst (resolveConsistency (request (task s')) 1000000 (info "docs")) = 995000
  /\ sr_GuaranteeTimestamp (SearchRequest_ (task s')) = 5
  /\ ~ (Z.max 995000 100 <= sr_GuaranteeTimestamp (SearchRequest_ (task s'))).
Proof. vm_compute. repeat split. intros H. apply H. reflexivity. Qed.

(** Searches of "logs", whose time to live is one hour: one enqueued three
    milliseconds after the epoch, one enqueued 4000 seconds after it. *)
Definition earlySearch : State :=
  Eval vm_compute in enqueued (searchRequest "logs" "" [] [] 0) 1000000.
Definition lateSearch : State :=
  Eval vm_compute in enqueued (searchRequest "logs" "" [] [] 0) (Z.shiftl 4000000 18).

Lemma PreExecute_collection_ttl_witness :
  fst (PreExecute root earlySearch) = Err ttlOverflow
  /\ fst (PreExecute root lateSearch) = Ok tt
  /\ sr_CollectionTtlTimestamps (SearchRequest_ (task (snd (PreExecute root lateSearch))))
     = Z.shiftl 400000 18.
Proof.
  destruct (PreExecute_collection_ttl (E := env) root earlySearch (info "logs")
              ltac:(vm_compute; reflexivity) ltac:(vm_compute; discriminate))
    as (_ & Hfails & _).
  destruct (PreExecute_collection_ttl (E := env) root lateSearch (info "logs")
              ltac:(vm_compute; reflexivity) ltac:(vm_compute; discriminate))
    as (Hcutoff & _ & _ & Hgoes).
  split; [|split].
  - apply Hfails. vm_compute. reflexivity.
  - destruct (Hgoes ltac:(vm_compute; discriminate)) as (_ & Hr). rewrite Hr. reflexivity.
  - rewrite Hcutoff. vm_compute. reflexivity.
Defined.

(** C2 (the code on a failing input): an advanced search whose first leg
    carries no vector (nq 0) and whose second leg carries five goes through
    checkNq and PreExecute; the legs of the internal request carry the
    different nq 0 and 5. *)
Theorem PreExecute_accepts_legs_of_different_nq :
  let legs := [leg 0 []; leg 5 []] in
  let s := enqueued (hybridRequest legs []) 1000000 in
  let s' := snd (PreExecute root s) in
  map getNqFromSubSearch legs = [ExtOk 0; ExtOk 5]
  /\ fst (checkNq (snd (resolveCollection root s))) = Ok 5
  /\ fst (PreExecute root s) = Ok tt
  /\ map (option_map isub_Nq) (sr_SubReqs (SearchRequest_ (task s'))) = [Some 0; Some 5]
  /\ sr_Nq (SearchRequest_ (task s')) = 5.
Proof. vm_compute. repeat split. Qed.

(** Two legs of five vectors each. *)
Lemma checkNq_loop_legs_witness :
  fst (checkNq_loop 0 [leg 5 []; leg 5 []]) = Ok 5
  /\ Forall (fun l => sub_Nq l = 5 \/ sub_Nq l = 0) (snd (checkNq_loop 0 [leg 5 []; leg 5 []])).
Proof.
  split; [reflexivity|].
  exact (proj1 (checkNq_loop_legs (E := env) [leg 5 []; leg 5 []] 0 5 _ eq_refl)).
Defined.

(** The search of "tenants" with a range filter on the partition key. *)
Lemma initSearchRequest_isolation_violated_witness :
  exists e, fst (initSearchRequest root tenantsSearch) = Err e.
Proof.
  apply (initSearchRequest_isolation_violated (E := env) root tenantsSearch fields
           (info "tenants") (filterPlan "tenant > 3") (set_qi_QueryFieldId 102 (planInfo []))
           0 false "partition key isolation does not support this filter");
    vm_compute; reflexivity.
Defined.

(** A successful call and a failed one on the prepared search of "docs". *)
Lemma shardCalls_keep_request_witness :
  let calls := [(7, answering success, "ch0"); (8, unreachable, "ch1")] in
  SearchRequest_ (task (shardCalls calls docsSearch)) = SearchRequest_ (task docsSearch)
  /\ bases (shardCalls calls docsSearch) O = Some docsHeader.
Proof.
  exact (shardCalls_keep_request [(7, answering success, "ch0"); (8, unreachable, "ch1")]
           docsSearch O docsHeader eq_refl eq_refl ltac:(vm_compute; lia)).
Defined.

(** The search of "docs" enqueued at 1000000: its header is at address 0,
    and 42 and 7 are written into it. *)
Lemma header_accessors_round_trip_witness :
  fst (ID (snd (SetID 42 firstPage))) = Ok 42
  /\ fst (BeginTs (snd (SetTs 7 firstPage))) = Ok 7
  /\ fst (EndTs (snd (SetTs 7 firstPage))) = Ok 7
  /\ task (snd (SetID 42 firstPage)) = task firstPage.
Proof.
  destruct (header_accessors_round_trip firstPage O docsHeader 42 7
              ltac:(repeat split; vm_compute; auto))
    as ((_ & Hid & _) & (_ & Hbegin & Hend & _) & (Htask & _) & _).
  repeat split; assumption.
Defined.

(** A task the handler has built and the scheduler has not enqueued. *)
Definition notEnqueued : State :=
  Eval vm_compute in newState (searchRequest "docs" "price > 3" [] [] 0).

Lemma methods_panic_without_header_witness :
  fst (PreExecute root notEnqueued) = Panic
  /\ fst (SetTs 1000000 notEnqueued) = Panic
  /\ fst (Execute (fun _ => ret tt) root notEnqueued) = Panic.
Proof.
  destruct (methods_panic_without_header (E := env) notEnqueued root (fun _ => ret tt)
              0 1000000 7 unreachable "ch0" eq_refl)
    as (_ & _ & _ & _ & Hts & _ & Hpre & _ & Hexec).
  repeat split; assumption.
Defined.

(** "docs" has no partition key isolation: the query info is marked and
    the plan is not looked at. *)
Lemma setQueryInfoIfMvEnable_without_isolation_witness :
  fst (setQueryInfoIfMvEnable (planInfo []) (filterPlan "tenant > 3") vectorOutput)
  = Ok (set_qi_MaterializedViewInvolved true (planInfo [])).
Proof.
  destruct (setQueryInfoIfMvEnable_without_isolation (E := env) (planInfo [])
              (filterPlan "tenant > 3") vectorOutput fields eq_refl) as (_ & Henabled).
  destruct (Henabled eq_refl) as (_ & Hfield).
  destruct (Hfield (mkFieldSchema 103 "tenant" (DataType_Other 21)) eq_refl) as (_ & Hsupported).
  destruct (Hsupported eq_refl) as (_ & Hfree).
  exact (proj1 (Hfree (info "docs") ltac:(vm_compute; reflexivity) eq_refl)).
Defined.

(** An advanced search whose legs carry five and seven vectors, after the
    collection was resolved. *)
Definition mixedLegs : State :=
  Eval vm_compute in
    snd (resolveCollection root (enqueued (hybridRequest [leg 5 []; leg 7 []] []) 1000000)).

Lemma checkNq_advanced_legs_witness :
  fst (checkNq hybridOutput) = Ok 5
  /\ req_Nq (request (task (snd (checkNq hybridOutput)))) = 5
  /\ exists a b, a <> b /\ fst (checkNq mixedLegs) = Err (nqMismatch a b).
Proof.
  destruct (checkNq_advanced_legs (E := env) hybridOutput [5; 5] eq_refl
              ltac:(repeat constructor)) as (Hequal & _).
  destruct (checkNq_advanced_legs (E := env) mixedLegs [5; 7] eq_refl
              ltac:(repeat constructor)) as (_ & _ & Hdifferent).
  destruct (Hequal 5 ltac:(discriminate) ltac:(repeat constructor) (or_introl eq_refl) eq_refl)
    as (Hok & Hnq & _).
  split; [exact Hok|]. split; [exact Hnq|].
  apply (Hdifferent 5 7); [left; reflexivity | right; left; reflexivity | lia | lia | lia].
Defined.

(** A search of "docs" that names no vector field runs on "embedding",
    the only vector field of the schema. *)
Lemma tryGeneratePlan_default_anns_field_witness :
  CreateSearchPlan fields "price > 3" "embedding" (set_qi_QueryFieldId 102 (planInfo [])) tt
  = ExtOk (filterPlan "price > 3")
  /\ qi_QueryFieldId (set_qi_QueryFieldId 102 (planInfo [])) = 102.
Proof.
  destruct (tryGeneratePlan_default_anns_field (E := env) [] "price > 3" tt vectorOutput fields
              eq_refl eq_refl) as (_ & _ & Hfirst).
  destruct (Hfirst (mkFieldSchema 102 "embedding" DataType_FloatVector) []
              (filterPlan "price > 3") (set_qi_QueryFieldId 102 (planInfo [])) 0 false
              eq_refl ltac:(vm_compute; reflexivity)) as (_ & Hplan & Hfield).
  split; [exact Hplan | exact Hfield].
Defined.

(** The same search with the vector field named. *)
Lemma tryGeneratePlan_checks_witness :
  snd (tryGeneratePlan [("anns_field", "embedding")] "price > 3" tt vectorOutput) = vectorOutput
  /\ fst (tryGeneratePlan [("anns_field", "embedding")] "price > 3" tt vectorOutput)
     = Ok (filterPlan "price > 3",
           set_qi_QueryFieldId 102 (planInfo [("anns_field", "embedding")]), 0, false).
Proof.
  destruct (tryGeneratePlan_checks (E := env) [("anns_field", "embedding")] "price > 3" tt
              vectorOutput fields "embedding"
              {| info_planInfo := planInfo [("anns_field", "embedding")]; info_offset := 0;
                 info_isIterator := false; info_collectionID := 0 |}
              eq_refl eq_refl eq_refl) as (Hreads & _ & Hpass).
  split; [exact Hreads|].
  destruct (Hpass ltac:(left; cbn; lia)) as (_ & Hplan).
  exact (Hplan (or_introl eq_refl)).
Defined.


(** The single search that asks for the vector field. *)
Lemma estimateResultSize_needRequery_witness :
  fst (estimateResultSize 1 10 (snd (initSearchRequest root vectorOutput))) = Ok (2 ^ 63 - 1).
Proof.
  rewrite (estimateResultSize_needRequery (E := env) root vectorOutput fields 1 10 eq_refl
             ltac:(vm_compute; reflexivity)).
  vm_compute. reflexivity.
Defined.





(** The search of "docs" enqueued at 1000000 goes through PreExecute. *)
Lemma PreExecute_success_witness :
  resultBuf (task (snd (PreExecute root firstPage))) = Some []
  /\ sr_IsIterator (SearchRequest_ (task (snd (PreExecute root firstPage))))
     = isIterator (task (snd (PreExecute root firstPage)))
  /\ bases (snd (PreExecute root firstPage)) O = Some (searchHeader docsHeader)
  /\ next (snd (PreExecute root firstPage)) = next firstPage.
Proof.
  destruct (PreExecute_success (E := env) root firstPage O docsHeader
              ltac:(repeat split; vm_compute; auto) ltac:(vm_compute; reflexivity))
    as (c & info0 & _ & _ & _ & _ & _ & _ & Hbuf & _ & Hiter & _ & Hheader & _ & Hframe & _).
  split; [exact Hbuf|]. split; [exact Hiter|]. split; [exact Hheader|].
  congruence.
Defined.

(** A search of a collection without a name, and a search of "tenants"
    that names a partition. *)
Definition unnamedCollection : State :=
  Eval vm_compute in enqueued (searchRequest "" "" [] [] 0) 1000000.

Definition namedPartition : State :=
  Eval vm_compute in
    enqueued
      {| req_DbName := "default"; req_CollectionName := "tenants";
         req_PartitionNames := ["p0"]; req_Dsl := "tenant == 3"; req_PlaceholderGroup := [x01];
         req_SearchParams := []; req_OutputFields := []; req_GuaranteeTimestamp := 0;
         req_Nq := 1; req_UseDefaultConsistency := true; req_ConsistencyLevel := 0;
         req_SubReqs := []; req_ExprTemplateValues := tt; req_FunctionScore := None |}
      1000000.

Lemma PreExecute_early_rejections_witness :
  fst (PreExecute root unnamedCollection)
  = Err (WrapErrAsInputErrorWhen (External "collection not found"))
  /\ fst (PreExecute root namedPartition) = Err partitionNamesInKeyMode.
Proof.
  destruct (PreExecute_early_rejections (E := env) root unnamedCollection O docsHeader
              ltac:(repeat split; vm_compute; auto)) as (Hunknown & _).
  destruct (PreExecute_early_rejections (E := env) root namedPartition O docsHeader
              ltac:(repeat split; vm_compute; auto)) as (_ & Hpartition & _).
  split.
  - exact (Hunknown "collection not found" eq_refl).
  - exact (proj1 (Hpartition 7 fields eq_refl eq_refl) eq_refl ltac:(discriminate)).
Defined.

(** The advanced search of "docs" over two legs of five vectors. *)
Lemma initAdvancedSearchRequest_legs_witness :
  List.length (sr_SubReqs (SearchRequest_ (task (snd (initAdvancedSearchRequest root hybridOutput)))))
  = 2%nat
  /\ (exists internal q,
        nth_error (sr_SubReqs (SearchRequest_
                     (task (snd (initAdvancedSearchRequest root hybridOutput))))) 1
        = Some (Some internal)
        /\ nth_error (queryInfos (task (snd (initAdvancedSearchRequest root hybridOutput)))) 1
           = Some (Some q)
        /\ standsFor (task (snd (initAdvancedSearchRequest root hybridOutput)))
                     (leg 5 []) internal q)
  /\ sr_PartitionIDs (SearchRequest_ (task (snd (initAdvancedSearchRequest root hybridOutput))))
     = sr_PartitionIDs (SearchRequest_ (task hybridOutput)).
Proof.
  destruct (initAdvancedSearchRequest_legs (E := env) root hybridOutput fields eq_refl
              (fun _ => eq_refl) ltac:(vm_compute; reflexivity))
    as (Hlen & _ & Hlegs & _ & _ & _ & Hids).
  split; [exact Hlen|]. split; [exact (Hlegs 1%nat (leg 5 []) eq_refl)|].
  exact (Hids eq_refl).
Defined.

(** The single search of "docs" that asks for the vector field. *)
Lemma initSearchRequest_request_witness :
  exists q,
    queryInfos (task (snd (initSearchRequest root vectorOutput)))
    = (queryInfos (task vectorOutput) ++ [Some q])%list
    /\ sr_FieldId (SearchRequest_ (task (snd (initSearchRequest root vectorOutput))))
       = qi_QueryFieldId q
    /\ sr_Topk (SearchRequest_ (task (snd (initSearchRequest root vectorOutput)))) = qi_Topk q
    /\ sr_PartitionIDs (SearchRequest_ (task (snd (initSearchRequest root vectorOutput))))
       = sr_PartitionIDs (SearchRequest_ (task vectorOutput)).
Proof.
  destruct (initSearchRequest_request (E := env) root vectorOutput fields eq_refl
              (fun _ => eq_refl) ltac:(vm_compute; reflexivity))
    as (plan & q0 & q & plan' & _ & _ & Hinfos & Hfield & Htopk & _ & _ & _ & _ & _ & _ & _
        & Hfree & _).
  exists q. split; [exact Hinfos|]. split; [exact Hfield|]. split; [exact Htopk|].
  exact (proj2 (Hfree eq_refl)).
Defined.

(** The search of "docs" reads at the level of the collection: the
    scheduler asks when the task is built, PreExecute runs on the task
    enqueued at 1000000, and the meta cache is the same at both times. *)
Lemma CanSkipAllocTimestamp_agrees_with_PreExecute_witness :
  fst (CanSkipAllocTimestamp (newState (searchRequest "docs" "price > 3" [] [] 0)))
  = Ok (negb (sr_ConsistencyLevel (SearchRequest_ (task (snd (PreExecute root firstPage))))
              =? ConsistencyLevel_Strong)).
Proof.
  rewrite (CanSkipAllocTimestamp_agrees_with_PreExecute (E := env) env root
             (newState (searchRequest "docs" "price > 3" [] [] 0)) firstPage O docsHeader
             eq_refl eq_refl (fun _ => eq_refl)
             ltac:(repeat split; vm_compute; auto)
             ltac:(intros exec c sr sr' Hp; cbn in Hp; congruence)
             ltac:(vm_compute; reflexivity)).
  cbn [fst]. rewrite Bool.orb_false_r. reflexivity.
Defined.
